(** * Membership-management backend: services, controllers and error layer

    A shallow embedding of the service layer of the membership-management
    REST API (Express + Mongoose) and of the properties its specification
    states about it.

    Conventions of the embedding.
    - A Mongoose collection is a finite map from [_id] to document; the
      [_id] of a document is its key.  An [ObjectId] is kept in the form
      [toString()] prints it: 24 lowercase hexadecimal digits.
    - A service method is a function from the store to the store after the
      call and a [result]: the value returned, or the JavaScript error
      thrown.  Writes made before a [throw] stay in the store.
    - JSON numbers that the code only copies, compares or counts are
      integers ([Z]).  [createdAt]/[updatedAt] timestamps are not modelled.
    - A string is a sequence of bytes; the texts are taken to be ASCII,
      for which the number of bytes is the [length] of JavaScript.
    - The validation middlewares check [req.body], [req.params] and
      [req.query] and do not convert them: where the code computes with a
      value of the request, the value is as the client sent it, a number
      or a string that holds a numeral.
    - Values produced by the environment (fresh [_id]s, the time stamp and
      random bytes that [generateId] reads, the clock) are inputs of the
      call.
    - Mongoose casts a string to an [ObjectId] whatever the case of its
      hexadecimal digits, and runs the setters of a path ([lowercase],
      [uppercase], [trim]) on the values stored and on the values of a
      query filter. *)

From Stdlib Require Import ZArith String Ascii List Lia Bool.
From stdpp Require Import gmap strings list fin_maps pretty.

Open Scope string_scope.
Open Scope Z_scope.

(* ===================================================================== *)
(** * JavaScript errors and results *)
(* ===================================================================== *)

Module Js.

(** The properties of a thrown error object that the code reads:
    [name], [message], and the own enumerable properties [statusCode],
    [code], [keyValue] (its keys) and [errors] (the messages of its
    values); [None] for a property that the error does not have. *)
Record Error := mkError {
  name : string;
  message : string;
  statusCode : option Z;
  code : option Z;
  keyValue : option (list string);
  errors : option (list string)
}.

(** [new Error(msg)] *)
Definition newError (msg : string) : Error :=
  mkError "Error" msg None None None None.

(** [const error = new Error(msg); error.statusCode = sc;] *)
Definition newErrorWithStatus (msg : string) (sc : Z) : Error :=
  mkError "Error" msg (Some sc) None None None.

(** Calling a property that is [undefined]. *)
Definition typeError (msg : string) : Error :=
  mkError "TypeError" msg None None None None.

(** Mongoose's [CastError], raised when a query value cannot be cast to
    the type of its path (the message is shortened). *)
Definition castError (path : string) : Error :=
  mkError "CastError" ("Cast to ObjectId failed at path " +:+ path) None None None None.

(** Mongoose's [ValidationError], raised by [save()]; [errors] holds one
    message per failed path. *)
Definition validationError (msgs : list string) : Error :=
  mkError "ValidationError" "Validation failed" None None None (Some msgs).

Inductive result (A : Type) : Type :=
| Ok (a : A)
| Throw (e : Error).
Arguments Ok {A} a.
Arguments Throw {A} e.

Definition bind {A B} (r : result A) (k : A -> result B) : result B :=
  match r with
  | Ok a => k a
  | Throw e => Throw e
  end.

(** JSON values of a request body. *)
Inductive Value :=
| JStr (s : string)
| JNum (n : Z)
| JBool (b : bool)
| JNull.

(** [s.trim()], for the white space of ASCII. *)
Definition isSpace (c : ascii) : bool :=
  let n := nat_of_ascii c in
  ((9 <=? n) && (n <=? 13))%nat || (n =? 32)%nat.

Fixpoint trimStart (s : string) : string :=
  match s with
  | EmptyString => EmptyString
  | String c s' => if isSpace c then trimStart s' else s
  end.

Fixpoint trimEnd (s : string) : string :=
  match s with
  | EmptyString => EmptyString
  | String c s' =>
      match trimEnd s' with
      | EmptyString => if isSpace c then EmptyString else String c EmptyString
      | r => String c r
      end
  end.

Definition trim (s : string) : string := trimEnd (trimStart s).

(** [s.toUpperCase()], for the letters of ASCII. *)
Definition upperChar (c : ascii) : ascii :=
  let n := nat_of_ascii c in
  if ((97 <=? n) && (n <=? 122))%nat then ascii_of_nat (n - 32) else c.

Fixpoint toUpperCase (s : string) : string :=
  match s with
  | EmptyString => EmptyString
  | String c s' => String (upperChar c) (toUpperCase s')
  end.

(** [s.toLowerCase()], for the letters of ASCII. *)
Definition lowerChar (c : ascii) : ascii :=
  let n := nat_of_ascii c in
  if ((65 <=? n) && (n <=? 90))%nat then ascii_of_nat (n + 32) else c.

Fixpoint toLowerCase (s : string) : string :=
  match s with
  | EmptyString => EmptyString
  | String c s' => String (lowerChar c) (toLowerCase s')
  end.

(** [x.join(", ")] on an array of strings. *)
Fixpoint join (sep : string) (l : list string) : string :=
  match l with
  | [] => EmptyString
  | [x] => x
  | x :: rest => x +:+ sep +:+ join sep rest
  end.

(** ** Numbers and strings

    A request hands its values to the services as the client sent them:
    the validation middlewares check [req.body], [req.params] and
    [req.query] and leave them as they are, so that a number may arrive
    as a string that holds a numeral.  The conversions below are those
    that the operators and functions of the code apply to such values.
    They are described for the integers up to [MAX_SAFE_INTEGER] and for
    the numerals made of decimal digits; [None] stands for every other
    case (white space, signs, fractions, other radices, larger numbers,
    [NaN]), which this embedding does not describe. *)

Definition MAX_SAFE_INTEGER : Z := 9007199254740991.

Definition safe (n : Z) : option Z :=
  if n <=? MAX_SAFE_INTEGER then Some n else None.

Definition isDigit (c : ascii) : bool :=
  let n := nat_of_ascii c in ((48 <=? n) && (n <=? 57))%nat.

Definition digitValue (c : ascii) : Z := Z.of_nat (nat_of_ascii c - 48).

(** The run of decimal digits at the head of [s]: the number that the
    digits of [acc] followed by it denote, and what comes after it. *)
Fixpoint digits (acc : Z) (s : string) : Z * string :=
  match s with
  | EmptyString => (acc, EmptyString)
  | String c s' => if isDigit c then digits (acc * 10 + digitValue c) s' else (acc, s)
  end.

Definition beginsWithDigit (s : string) : bool :=
  match s with
  | EmptyString => false
  | String c _ => isDigit c
  end.

(** [0x], [0o] or [0b] at the head of [s]. *)
Definition radixPrefix (s : string) : bool :=
  match s with
  | String z (String c _) =>
      Ascii.eqb z "0"
      && existsb (Ascii.eqb c) ["x"; "X"; "o"; "O"; "b"; "B"]%char
  | _ => false
  end.

(** [parseInt(s)]: the number that the leading decimal digits of [s]
    denote, whatever follows them. *)
Definition parseInt (s : string) : option Z :=
  if beginsWithDigit s && negb (radixPrefix s) then safe (fst (digits 0 s)) else None.

(** [Number(s)], which the arithmetic operators, the comparisons with a
    number and [setMonth] apply to a string: decimal digits, with an
    optional exponent [e] or [E] of decimal digits; a string with anything
    after that converts to [NaN]. *)
Definition numberOfString (s : string) : option Z :=
  if beginsWithDigit s && negb (radixPrefix s) then
    let (d, rest) := digits 0 s in
    match rest with
    | EmptyString => safe d
    | String c rest' =>
        if (Ascii.eqb c "e" || Ascii.eqb c "E") && beginsWithDigit rest'
        then
          let (e, rest'') := digits 0 rest' in
          match rest'' with
          | EmptyString => safe (d * 10 ^ e)
          | String _ _ => None
          end
        else None
    end
  else None.

(** [Number(v)] on a JSON value. *)
Definition toNumber (v : Value) : option Z :=
  match v with
  | JNum n => Some n
  | JStr s => numberOfString s
  | JBool b => Some (if b then 1 else 0)
  | JNull => Some 0
  end.

(** [String(v)], as a template literal prints a JSON value. *)
Definition toString (v : Value) : string :=
  match v with
  | JNum n => pretty n
  | JStr s => s
  | JBool b => if b then "true" else "false"
  | JNull => "null"
  end.

(** [n + v] for a number [n] and a JSON value [v]: the concatenation of
    the numeral of [n] and [v] when [v] is a string, the sum of [n] and
    the number that [v] converts to otherwise. *)
Definition plus (n : Z) (v : Value) : Value :=
  match v with
  | JStr s => JStr (pretty n +:+ s)
  | JNum k => JNum (n + k)
  | JBool b => JNum (n + (if b then 1 else 0))
  | JNull => JNum n
  end.

End Js.

Abbreviation Ok := Js.Ok.
Abbreviation Throw := Js.Throw.

(* ===================================================================== *)
(** * ObjectId *)
(* ===================================================================== *)

Module ObjectId.

(** An ObjectId in its printed form. *)
Abbreviation t := string.

Definition isHexDigit (c : ascii) : bool :=
  let n := nat_of_ascii c in
  ((48 <=? n) && (n <=? 57))%nat       (* 0-9 *)
  || ((97 <=? n) && (n <=? 102))%nat   (* a-f *)
  || ((65 <=? n) && (n <=? 70))%nat.   (* A-F *)

Definition lowerHex (c : ascii) : ascii :=
  let n := nat_of_ascii c in
  if ((65 <=? n) && (n <=? 70))%nat then ascii_of_nat (n + 32) else c.

Fixpoint allHex (s : string) : bool :=
  match s with
  | EmptyString => true
  | String c s' => isHexDigit c && allHex s'
  end.

Fixpoint lower (s : string) : string :=
  match s with
  | EmptyString => EmptyString
  | String c s' => String (lowerHex c) (lower s')
  end.

(** The pattern [/^[0-9a-fA-F]{24}$/], which both the validators and the
    ObjectId constructor use. *)
Definition isValid (s : string) : bool :=
  (String.length s =? 24)%nat && allHex s.

(** Casting a string to an ObjectId, as Mongoose does for the argument of
    [findById], for [_id]/reference paths of a query and for reference
    paths of a document: the 12 bytes the hexadecimal digits denote,
    whatever their case. *)
Definition cast (s : string) : option t :=
  if isValid s then Some (lower s) else None.

(** [oid.toString()]: the 24 lowercase hexadecimal digits. *)
Definition toString (oid : t) : string := oid.

End ObjectId.

(* ===================================================================== *)
(** * config/constants.js *)
(* ===================================================================== *)

Module HTTP_STATUS.
Definition OK : Z := 200.
Definition CREATED : Z := 201.
Definition BAD_REQUEST : Z := 400.
Definition UNAUTHORIZED : Z := 401.
Definition FORBIDDEN : Z := 403.
Definition NOT_FOUND : Z := 404.
Definition CONFLICT : Z := 409.
Definition INTERNAL_SERVER_ERROR : Z := 500.
End HTTP_STATUS.

(* ===================================================================== *)
(** * middlewares/error.middleware.js and utils/helpers.js *)
(* ===================================================================== *)

(** What [res.status(s).json(formatResponse(success, message, ...))] sends,
    without the payload and the timestamp. *)
Record Response := mkResponse {
  status : Z;
  success : bool;
  message : string
}.

(** [x || d] on an optional number: [undefined] and [0] are falsy. *)
Definition orNumber (x : option Z) (d : Z) : Z :=
  match x with
  | Some n => if n =? 0 then d else n
  | None => d
  end.

(** [x || d] on a string: the empty string is falsy. *)
Definition orString (x : string) (d : string) : string :=
  if String.eqb x EmptyString then d else x.

(** The [error] object the handler builds: [statusCode] and [message]. *)
Definition errorHandler_error (err : Js.Error) : option Z * string :=
  (* let error = { ...err }; error.message = err.message; *)
  let error := (Js.statusCode err, Js.message err) in
  let error :=
    if String.eqb (Js.name err) "CastError"
    then (Some HTTP_STATUS.NOT_FOUND, "Resource not found") else error in
  let error :=
    if bool_decide (Js.code err = Some 11000)
    then (Some HTTP_STATUS.CONFLICT,
          hd "undefined" (default [] (Js.keyValue err)) +:+ " already exists")
    else error in
  let error :=
    if String.eqb (Js.name err) "ValidationError"
    then (Some HTTP_STATUS.BAD_REQUEST, Js.join ", " (default [] (Js.errors err)))
    else error in
  let error :=
    if String.eqb (Js.name err) "JsonWebTokenError"
    then (Some HTTP_STATUS.UNAUTHORIZED, "Invalid token") else error in
  let error :=
    if String.eqb (Js.name err) "TokenExpiredError"
    then (Some HTTP_STATUS.UNAUTHORIZED, "Token expired") else error in
  error.

(** Whether the handler itself throws, and so sends no response of its
    own: [Object.keys(err.keyValue)] and [Object.values(err.errors)] throw
    a [TypeError] on an error that has the code 11000 without [keyValue],
    or the name "ValidationError" without [errors], and [res.status]
    throws a [RangeError] on a status outside 100..999. *)
Definition errorHandler_throws (err : Js.Error) : bool :=
  (bool_decide (Js.code err = Some 11000)
   && match Js.keyValue err with None => true | Some _ => false end)
  || (String.eqb (Js.name err) "ValidationError"
      && match Js.errors err with None => true | Some _ => false end)
  || (let statusCode :=
        orNumber (fst (errorHandler_error err)) HTTP_STATUS.INTERNAL_SERVER_ERROR in
      (statusCode <? 100) || (999 <? statusCode)).

(** [errorHandler(err, req, res, next)]: the response it sends, when it
    does not throw (see [errorHandler_throws]). *)
Definition errorHandler (err : Js.Error) : Response :=
  let error := errorHandler_error err in
  mkResponse (orNumber (fst error) HTTP_STATUS.INTERNAL_SERVER_ERROR)
             false
             (orString (snd error) "Server Error").

(** A controller method: [try { ...; res.status(s).json(formatResponse(true, msg, ...)) }
    catch (error) { next(error) }], with [errorHandler] as the next
    error-handling middleware.  The handler answers every error that the
    services of this development throw ([Js.newError], [Js.castError],
    [Js.validationError], [Js.typeError], and [Js.newErrorWithStatus] with
    a status of HTTP). *)
Definition respond {A} (okStatus : Z) (okMessage : string) (r : Js.result A) : Response :=
  match r with
  | Ok _ => mkResponse okStatus true okMessage
  | Throw e => errorHandler e
  end.

(* ===================================================================== *)
(** * JavaScript [Date] *)
(* ===================================================================== *)

Module JsDate.

(** A [Date] by the local-time fields the ECMAScript operations
    [YearFromTime], [MonthFromTime], [DateFromTime] and [TimeWithinDay]
    read from its time value: [getFullYear()], [getMonth()] (0-11),
    [getDate()] (1-31) and the milliseconds since local midnight.  The
    local time zone has a fixed offset (no daylight-saving shifts). *)
Record t := mk {
  fullYear : Z;
  month : Z;
  date : Z;
  timeWithinDay : Z
}.

Definition isLeapYear (y : Z) : bool :=
  (y mod 4 =? 0) && (negb (y mod 100 =? 0) || (y mod 400 =? 0)).

Definition daysInMonth (y m : Z) : Z :=
  if m =? 1 then (if isLeapYear y then 29 else 28)
  else if (m =? 3) || (m =? 5) || (m =? 8) || (m =? 10) then 30
  else 31.

(** A date the calendar has. *)
Definition valid (d : t) : Prop :=
  0 <= month d <= 11 /\ 1 <= date d <= daysInMonth (fullYear d) (month d).

(** The day after [d]. *)
Definition nextDay (d : t) : t :=
  if date d <? daysInMonth (fullYear d) (month d)
  then mk (fullYear d) (month d) (date d + 1) (timeWithinDay d)
  else if month d <? 11
  then mk (fullYear d) (month d + 1) 1 (timeWithinDay d)
  else mk (fullYear d + 1) 0 1 (timeWithinDay d).

Fixpoint addDays (k : nat) (d : t) : t :=
  match k with
  | O => d
  | S k' => addDays k' (nextDay d)
  end.

(** ECMAScript [MakeDay(year, month, date)] followed by [MakeDate] with
    the unchanged time within the day: with [ym = year + floor(month / 12)]
    and [mn = month mod 12], the day [date - 1] days after the first day
    of month [mn] of year [ym]. *)
Definition makeDay (year month date time : Z) : t :=
  let ym := year + month / 12 in
  let mn := month mod 12 in
  addDays (Z.to_nat (date - 1)) (mk ym mn 1 time).

Definition getMonth (d : t) : Z := month d.

(** [d.setMonth(m)]: [MakeDay(YearFromTime(t), m, DateFromTime(t))]. *)
Definition setMonth (d : t) (m : Z) : t :=
  makeDay (fullYear d) m (date d) (timeWithinDay d).

(** Number of the month of [d], counted from year 0. *)
Definition monthIndex (d : t) : Z := fullYear d * 12 + month d.

(** Chronological order of two dates. *)
Definition ltb (a b : t) : bool :=
  (fullYear a <? fullYear b)
  || ((fullYear a =? fullYear b)
      && ((month a <? month b)
          || ((month a =? month b)
              && ((date a <? date b)
                  || ((date a =? date b) && (timeWithinDay a <? timeWithinDay b)))))).

End JsDate.

(* ===================================================================== *)
(** * models *)
(* ===================================================================== *)

(** models/user.model.js *)
Module User.
Record t := mk {
  name : string;
  email : string;
  password : string;          (* the stored hash *)
  role : string;
  isActive : bool
}.
End User.

(** models/zone.model.js *)
Module Zone.
Record t := mk {
  name : string;
  description : option string;
  isActive : bool
}.

Definition set_isActive (b : bool) (z : t) : t :=
  mk (name z) (description z) b.
End Zone.

(** models/member.model.js *)
Module Member.
Record t := mk {
  user : ObjectId.t;
  memberId : string;
  name : string;
  phone : string;
  zone : ObjectId.t;
  membershipType : string;
  status : string;
  renewalDate : JsDate.t;
  qrCode : option string;
  isActive : bool
}.

Definition set_renewalDate (d : JsDate.t) (m : t) : t :=
  mk (user m) (memberId m) (name m) (phone m) (zone m) (membershipType m)
     (status m) d (qrCode m) (isActive m).

Definition set_status (s : string) (m : t) : t :=
  mk (user m) (memberId m) (name m) (phone m) (zone m) (membershipType m)
     s (renewalDate m) (qrCode m) (isActive m).
End Member.

(** models/event.model.js *)
Module Attendee.
Record t := mk {
  member : ObjectId.t;
  registrationDate : JsDate.t;
  attendanceStatus : string;
  paymentStatus : string
}.
End Attendee.

Module Event.
Record t := mk {
  title : string;
  eventDate : JsDate.t;
  maxAttendees : option Z;
  registrationFee : Z;
  status : string;
  attendees : list Attendee.t;
  createdBy : ObjectId.t;
  isActive : bool
}.

Definition set_attendees (l : list Attendee.t) (e : t) : t :=
  mk (title e) (eventDate e) (maxAttendees e) (registrationFee e) (status e)
     l (createdBy e) (isActive e).
End Event.

(** models/payment.model.js *)
Module Payment.
Record t := mk {
  paymentId : string;
  member : ObjectId.t;
  amount : Z;
  paymentType : string;
  paymentMethod : string;
  status : string;
  transactionId : option string;
  description : option string;
  receiptFile : option string;
  event : option ObjectId.t;
  paymentDate : JsDate.t;
  processedBy : option ObjectId.t;
  isActive : bool
}.

Definition paymentTypes : list string :=
  ["Membership Fee"; "Event Registration"; "Late Fee"; "Other"].
Definition paymentMethods : list string :=
  ["Cash"; "Credit Card"; "Debit Card"; "Bank Transfer"; "Online"; "Cheque"].
Definition statuses : list string :=
  ["Pending"; "Completed"; "Failed"; "Refunded"].

Definition inb (s : string) (l : list string) : bool :=
  existsb (String.eqb s) l.

(** The schema's validators, [required] on [paymentId], [paymentType] and
    [paymentMethod], [min: 0] on [amount] and the three [enum]s, which
    [save()] runs on the paths that are modified (all of them in a new
    document).  The result is the list of failure messages: one for a
    path, that of the first validator that fails, [required] coming
    first. *)
Definition validate (isModified : string -> bool) (p : t) : list string :=
  ((if isModified "paymentId" && String.eqb (paymentId p) EmptyString
    then ["Payment ID is required"] else [])
   ++ (if isModified "amount" && (amount p <? 0)
       then ["Amount cannot be negative"] else [])
   ++ (if isModified "paymentType" && negb (inb (paymentType p) paymentTypes)
       then [if String.eqb (paymentType p) EmptyString
             then "Payment type is required"
             else "`" +:+ paymentType p
                  +:+ "` is not a valid enum value for path `paymentType`."]
       else [])
   ++ (if isModified "paymentMethod" && negb (inb (paymentMethod p) paymentMethods)
       then [if String.eqb (paymentMethod p) EmptyString
             then "Payment method is required"
             else "`" +:+ paymentMethod p
                  +:+ "` is not a valid enum value for path `paymentMethod`."]
       else [])
   ++ (if isModified "status" && negb (inb (status p) statuses)
       then ["`" +:+ status p +:+ "` is not a valid enum value for path `status`."]
       else []))%list.

(** The validated paths whose value differs between [old] and [new]. *)
Definition modified (old new : t) (path : string) : bool :=
  if String.eqb path "paymentId" then negb (String.eqb (paymentId old) (paymentId new))
  else if String.eqb path "amount" then negb (amount old =? amount new)
  else if String.eqb path "paymentType" then negb (String.eqb (paymentType old) (paymentType new))
  else if String.eqb path "paymentMethod" then negb (String.eqb (paymentMethod old) (paymentMethod new))
  else if String.eqb path "status" then negb (String.eqb (status old) (status new))
  else false.
End Payment.

(** models/notification.model.js *)
Module Notification.
Record t := mk {
  title : string;
  message : string;
  type : string;
  priority : string;
  targetMembers : list ObjectId.t;
  sentBy : ObjectId.t;
  status : string;
  isRead : bool;
  isActive : bool
}.
End Notification.

(** The six collections. *)
Record Store := mkStore {
  users : gmap string User.t;
  members : gmap string Member.t;
  zones : gmap string Zone.t;
  events : gmap string Event.t;
  payments : gmap string Payment.t;
  notifications : gmap string Notification.t
}.

Definition set_members (f : gmap string Member.t -> gmap string Member.t) (st : Store) : Store :=
  mkStore (users st) (f (members st)) (zones st) (events st) (payments st) (notifications st).
Definition set_zones (f : gmap string Zone.t -> gmap string Zone.t) (st : Store) : Store :=
  mkStore (users st) (members st) (f (zones st)) (events st) (payments st) (notifications st).
Definition set_events (f : gmap string Event.t -> gmap string Event.t) (st : Store) : Store :=
  mkStore (users st) (members st) (zones st) (f (events st)) (payments st) (notifications st).
Definition set_payments (f : gmap string Payment.t -> gmap string Payment.t) (st : Store) : Store :=
  mkStore (users st) (members st) (zones st) (events st) (f (payments st)) (notifications st).
Definition set_notifications (f : gmap string Notification.t -> gmap string Notification.t) (st : Store) : Store :=
  mkStore (users st) (members st) (zones st) (events st) (payments st) (f (notifications st)).

(* ===================================================================== *)
(** * Mongoose queries *)
(* ===================================================================== *)

Module Query.

(** [Model.findById(id)]: the document whose [_id] is the ObjectId [id]
    casts to, [null] when there is none; a [CastError] when [id] is not
    an ObjectId. *)
Definition findById {D} (coll : gmap string D) (id : string) : Js.result (option D) :=
  match ObjectId.cast id with
  | Some oid => Ok (coll !! oid)
  | None => Throw (Js.castError "_id")
  end.

(** The documents of a collection, with their [_id]. *)
Definition docs {D} (coll : gmap string D) : list (string * D) := map_to_list coll.

(** [Model.find(filter)] *)
Definition find {D} (coll : gmap string D) (p : string -> D -> bool) : list (string * D) :=
  List.filter (fun kd => p (fst kd) (snd kd)) (docs coll).

(** [Model.findOne(filter)] *)
Definition findOne {D} (coll : gmap string D) (p : string -> D -> bool) : option (string * D) :=
  hd_error (find coll p).

(** [Model.countDocuments(filter)] *)
Definition countDocuments {D} (coll : gmap string D) (p : string -> D -> bool) : Z :=
  Z.of_nat (length (find coll p)).

End Query.

(** [x && ...] on an optional number: [undefined] and [0] are falsy. *)
Definition truthyNumber (x : option Z) : bool :=
  match x with
  | Some n => negb (n =? 0)
  | None => false
  end.

(* ===================================================================== *)
(** * services/event.service.js *)
(* ===================================================================== *)

Module EventService.

(** [(attendee) => attendee.member.toString() === memberId] *)
Definition sameMember (memberId : string) (attendee : Attendee.t) : bool :=
  String.eqb (ObjectId.toString (Attendee.member attendee)) memberId.

(** [event.maxAttendees && event.attendees.length >= event.maxAttendees] *)
Definition atCapacity (event : Event.t) : bool :=
  truthyNumber (Event.maxAttendees event)
  && match Event.maxAttendees event with
     | Some n => n <=? Z.of_nat (length (Event.attendees event))
     | None => false
     end.

(** The attendee that [registerMemberForEvent] pushes; [registrationDate]
    takes the schema default [Date.now]. *)
Definition newAttendee (now : JsDate.t) (member : ObjectId.t) (event : Event.t) : Attendee.t :=
  Attendee.mk member now "Registered"
              (if 0 <? Event.registrationFee event then "Pending" else "Paid").

(** [registerMemberForEvent(eventId, memberId)].  [Event.findById] and
    [Member.findById] reject with a [CastError] when their argument is
    not an ObjectId, and so does the [Promise.all] of the two. *)
Definition registerMemberForEvent (now : JsDate.t) (eventId memberId : string)
           (st : Store) : Store * Js.result Event.t :=
  match ObjectId.cast eventId, ObjectId.cast memberId with
  | Some eid, Some mid =>
      match events st !! eid with
      | None => (st, Throw (Js.newError "Event not found"))
      | Some event =>
      if negb (Event.isActive event) then (st, Throw (Js.newError "Event not found")) else
      if match members st !! mid with
         | None => true
         | Some member => negb (Member.isActive member)
         end
      then (st, Throw (Js.newError "Member not found")) else
      if negb (String.eqb (Event.status event) "Upcoming")
      then (st, Throw (Js.newError "Event is not accepting registrations")) else
      match List.find (sameMember memberId) (Event.attendees event) with
      | Some _ => (st, Throw (Js.newError "Member is already registered for this event"))
      | None =>
      if atCapacity event
      then (st, Throw (Js.newError "Event is at maximum capacity")) else
      let event' :=
        Event.set_attendees
          (Event.attendees event ++ [newAttendee now mid event])%list event in
      (* event.save() *)
      (set_events (insert eid event') st, Ok event')
      end
      end
  | _, _ => (st, Throw (Js.castError "_id"))
  end.

Record Summary := mkSummary {
  totalRegistered : Z;
  attended : Z;
  noShow : Z;
  pending : Z
}.

Record Attendees := mkAttendees {
  eventTitle : string;
  eventDate : JsDate.t;
  attendees : list Attendee.t;
  summary : Summary
}.

(** [attendees.filter((a) => a.attendanceStatus === s).length] *)
Definition countStatus (s : string) (l : list Attendee.t) : Z :=
  Z.of_nat (length (List.filter (fun a => String.eqb (Attendee.attendanceStatus a) s) l)).

(** [getEventAttendees(eventId)] *)
Definition getEventAttendees (eventId : string) (st : Store) : Js.result Attendees :=
  match Query.findById (events st) eventId with
  | Throw e => Throw e
  | Ok None => Throw (Js.newError "Event not found")
  | Ok (Some event) =>
      if negb (Event.isActive event) then Throw (Js.newError "Event not found") else
      Ok (mkAttendees
            (Event.title event)
            (Event.eventDate event)
            (Event.attendees event)
            (mkSummary
               (Z.of_nat (length (Event.attendees event)))
               (countStatus "Attended" (Event.attendees event))
               (countStatus "No Show" (Event.attendees event))
               (countStatus "Registered" (Event.attendees event))))
  end.

End EventService.

(* ===================================================================== *)
(** * services/zone.service.js *)
(* ===================================================================== *)

Module ZoneService.

(** The filter [{ zone: zoneId, isActive: true }] on members. *)
Definition activeInZone (zid : ObjectId.t) (_ : string) (m : Member.t) : bool :=
  String.eqb (Member.zone m) zid && Member.isActive m.

Definition hasMembersMessage (activeMemberCount : Z) : string :=
  "Cannot delete zone. It has " +:+ pretty activeMemberCount
  +:+ " active member(s). Please reassign or remove members first.".

(** [deleteZone(zoneId)] *)
Definition deleteZone (zoneId : string) (st : Store) : Store * Js.result Zone.t :=
  match ObjectId.cast zoneId with
  | None => (st, Throw (Js.castError "_id"))
  | Some zid =>
      (* Zone.findOne({ _id: zoneId, isActive: true }) *)
      match zones st !! zid with
      | None => (st, Throw (Js.newError "Zone not found"))
      | Some zone =>
      if negb (Zone.isActive zone) then (st, Throw (Js.newError "Zone not found")) else
      let activeMemberCount := Query.countDocuments (members st) (activeInZone zid) in
      if 0 <? activeMemberCount
      then (st, Throw (Js.newError (hasMembersMessage activeMemberCount)))
      else
        let zone' := Zone.set_isActive false zone in
        (set_zones (insert zid zone') st, Ok zone')
      end
  end.

End ZoneService.

(* ===================================================================== *)
(** * services/notification.service.js *)
(* ===================================================================== *)

Module NotificationService.

(** The request data: [targetMembers] may be absent. *)
Record Data := mkData {
  title : string;
  message : string;
  type : string;
  priority : option string;
  targetMembers : option (list string);
  status : option string
}.

(** Casting the array of a [$in] or of the [targetMembers] path. *)
Fixpoint castAll (l : list string) : option (list ObjectId.t) :=
  match l with
  | [] => Some []
  | s :: l' =>
      match ObjectId.cast s, castAll l' with
      | Some oid, Some oids => Some (oid :: oids)
      | _, _ => None
      end
  end.

(** The filter [{ _id: { $in: targetMembers }, isActive: true }]. *)
Definition targeted (oids : list ObjectId.t) (id : string) (m : Member.t) : bool :=
  existsb (String.eqb id) oids && Member.isActive m.

Definition types : list string := ["General"; "Event"; "Payment"; "Membership"; "Reminder"].
Definition priorities : list string := ["Low"; "Medium"; "High"; "Urgent"].
Definition statuses : list string := ["Draft"; "Scheduled"; "Sent"; "Failed"].

(** The schema's validators that [save()] runs on the new document:
    [required] and [maxLength] on [title] and [message], [required] on
    [type], and the [enum]s. *)
Definition validate (n : Notification.t) : list string :=
  ((if String.eqb (Notification.title n) EmptyString
    then ["Notification title is required"]
    else if (200 <? String.length (Notification.title n))%nat
    then ["Title cannot exceed 200 characters"] else [])
   ++ (if String.eqb (Notification.message n) EmptyString
       then ["Notification message is required"]
       else if (1000 <? String.length (Notification.message n))%nat
       then ["Message cannot exceed 1000 characters"] else [])
   ++ (if Payment.inb (Notification.type n) types then []
       else [if String.eqb (Notification.type n) EmptyString
             then "Notification type is required"
             else "`" +:+ Notification.type n
                  +:+ "` is not a valid enum value for path `type`."])
   ++ (if Payment.inb (Notification.priority n) priorities then []
       else ["`" +:+ Notification.priority n +:+ "` is not a valid enum value for path `priority`."])
   ++ (if Payment.inb (Notification.status n) statuses then []
       else ["`" +:+ Notification.status n +:+ "` is not a valid enum value for path `status`."]))%list.

(** [createNotification(notificationData, sentBy)]; [newId] is the [_id]
    of the new document. *)
Definition createNotification (newId : ObjectId.t) (notificationData : Data)
           (sentBy : ObjectId.t) (st : Store) : Store * Js.result Notification.t :=
  let targets := default [] (targetMembers notificationData) in
  match castAll targets with
  | None => (st, Throw (Js.castError "_id"))
  | Some oids =>
      (* if (notificationData.targetMembers?.length > 0) *)
      if (0 <? length targets)%nat
         && negb (length (Query.find (members st) (targeted oids)) =? length targets)%nat
      then (st, Throw (Js.newError "One or more target members not found"))
      else
        let notification :=
          (* the schema trims [title] and [message] *)
          Notification.mk (Js.trim (title notificationData))
                          (Js.trim (message notificationData))
                          (type notificationData)
                          (default "Medium" (priority notificationData))
                          oids sentBy
                          (default "Sent" (status notificationData))
                          false true in
        match validate notification with
        | [] => (set_notifications (insert newId notification) st, Ok notification)
        | msgs => (st, Throw (Js.validationError msgs))
        end
  end.

End NotificationService.

(* ===================================================================== *)
(** * validators/payment.validator.js and middlewares/validation.middleware.js *)
(* ===================================================================== *)

Module Validators.

(** A request body: the own properties of the parsed JSON object.  The
    messages of the schemas below are Joi's defaults for the rule that
    fails; what is proved of them is only whether there is one. *)
Definition Body := list (string * Js.Value).

Definition dquote : string := String (ascii_of_nat 34) EmptyString.

Definition quoted (key : string) : string := dquote +:+ key +:+ dquote.

(** [Joi.string().trim().max(n).optional()] on a present key. *)
Definition stringMax (key : string) (n : nat) (v : Js.Value) : list string :=
  match v with
  | Js.JStr s =>
      let s' := Js.trim s in
      if String.eqb s' EmptyString then [quoted key +:+ " is not allowed to be empty"]
      else if (n <? String.length s')%nat
      then [quoted key +:+ " length must be less than or equal to "
            +:+ pretty n +:+ " characters long"]
      else []
  | _ => [quoted key +:+ " must be a string"]
  end.

(** [Joi.string().valid(...).optional()] on a present key. *)
Definition stringValid (key : string) (allowed : list string) (v : Js.Value) : list string :=
  match v with
  | Js.JStr s =>
      if Payment.inb s allowed then []
      else if String.eqb s EmptyString
      then [quoted key +:+ " must be one of [" +:+ Js.join ", " allowed +:+ "]";
            quoted key +:+ " is not allowed to be empty"]
      else [quoted key +:+ " must be one of [" +:+ Js.join ", " allowed +:+ "]"]
  | _ => [quoted key +:+ " must be one of [" +:+ Js.join ", " allowed +:+ "]";
          quoted key +:+ " must be a string"]
  end.

(** [updatePaymentSchema.validate(body, { abortEarly: false })]: the
    messages of [error.details]; no message when there is no error.  A key
    the schema does not name is not allowed. *)
Definition updatePaymentSchema_key (kv : string * Js.Value) : list string :=
  let (key, v) := kv in
  if String.eqb key "status" then stringValid key Payment.statuses v
  else if String.eqb key "transactionId" then stringMax key 100 v
  else if String.eqb key "description" then stringMax key 500 v
  else [quoted key +:+ " is not allowed"].

Definition updatePaymentSchema (body : Body) : list string :=
  flat_map updatePaymentSchema_key body.

(** [paymentParamsSchema.validate(req.params, ...)] *)
Definition paymentParamsSchema (id : string) : list string :=
  if ObjectId.isValid id then [] else ["Invalid payment ID format"].

(** [zoneParamsSchema.validate(req.params, ...)] *)
Definition zoneParamsSchema (id : string) : list string :=
  if ObjectId.isValid id then [] else ["Invalid zone ID format"].

(** The middleware [validate(schema)] (and [validateParams],
    [validateQuery]): the 400 response it sends, or [None] when it calls
    [next()]. *)
Definition validate (details : list string) : option Response :=
  match details with
  | [] => None
  | _ => Some (mkResponse HTTP_STATUS.BAD_REQUEST false (Js.join ", " details))
  end.

End Validators.

(* ===================================================================== *)
(** * services/payment.service.js and controllers/payment.controller.js *)
(* ===================================================================== *)

Module PaymentService.

(** [getPaymentById(paymentId)] *)
Definition getPaymentById (paymentId : string) (st : Store) : Js.result Payment.t :=
  match Query.findById (payments st) paymentId with
  | Throw e => Throw e
  | Ok None => Throw (Js.newError "Payment not found")
  | Ok (Some payment) =>
      if negb (Payment.isActive payment)
      then Throw (Js.newError "Payment not found")
      else Ok payment
  end.

Definition set_receiptFile (f : option string) (p : Payment.t) : Payment.t :=
  Payment.mk (Payment.paymentId p) (Payment.member p) (Payment.amount p)
             (Payment.paymentType p) (Payment.paymentMethod p) (Payment.status p)
             (Payment.transactionId p) (Payment.description p) f
             (Payment.event p) (Payment.paymentDate p) (Payment.processedBy p)
             (Payment.isActive p).

(** [uploadReceipt(paymentId, receiptUrl)] *)
Definition uploadReceipt (paymentId receiptUrl : string) (st : Store)
  : Store * Js.result Payment.t :=
  match ObjectId.cast paymentId with
  | None => (st, Throw (Js.castError "_id"))
  | Some pid =>
      match payments st !! pid with
      | None => (st, Throw (Js.newErrorWithStatus "Payment not found" 404))
      | Some payment =>
          if negb (Payment.isActive payment)
          then (st, Throw (Js.newErrorWithStatus "Payment not found" 404))
          else
            let payment' := set_receiptFile (Some receiptUrl) payment in
            (set_payments (insert pid payment') st, Ok payment')
      end
  end.

(** [payment[key] = value] on a Mongoose document, for a value of the
    type of the path: the schema's setters run ([uppercase] on
    [paymentId], [trim] on [description]); a key that is no path of the
    schema is not part of the document ([strict]).  [None]: the value is
    not of the path's type (Mongoose would cast or reject it), which this
    embedding does not describe. *)
Definition assignPath (kv : string * Js.Value) (p : Payment.t) : option Payment.t :=
  let (key, value) := kv in
  let '(Payment.mk pid mem amt pty pme sta tid des rec evt pda pby act) := p in
  if String.eqb key "paymentId" then
    match value with
    | Js.JStr s => Some (Payment.mk (Js.toUpperCase s) mem amt pty pme sta tid des rec evt pda pby act)
    | _ => None
    end
  else if String.eqb key "member" then
    match value with
    | Js.JStr s =>
        match ObjectId.cast s with
        | Some oid => Some (Payment.mk pid oid amt pty pme sta tid des rec evt pda pby act)
        | None => None
        end
    | _ => None
    end
  else if String.eqb key "amount" then
    match value with
    | Js.JNum n => Some (Payment.mk pid mem n pty pme sta tid des rec evt pda pby act)
    | _ => None
    end
  else if String.eqb key "paymentType" then
    match value with
    | Js.JStr s => Some (Payment.mk pid mem amt s pme sta tid des rec evt pda pby act)
    | _ => None
    end
  else if String.eqb key "paymentMethod" then
    match value with
    | Js.JStr s => Some (Payment.mk pid mem amt pty s sta tid des rec evt pda pby act)
    | _ => None
    end
  else if String.eqb key "status" then
    match value with
    | Js.JStr s => Some (Payment.mk pid mem amt pty pme s tid des rec evt pda pby act)
    | _ => None
    end
  else if String.eqb key "transactionId" then
    match value with
    | Js.JStr s => Some (Payment.mk pid mem amt pty pme sta (Some s) des rec evt pda pby act)
    | _ => None
    end
  else if String.eqb key "description" then
    match value with
    | Js.JStr s => Some (Payment.mk pid mem amt pty pme sta tid (Some (Js.trim s)) rec evt pda pby act)
    | _ => None
    end
  else if String.eqb key "receiptFile" then
    match value with
    | Js.JStr s => Some (Payment.mk pid mem amt pty pme sta tid des (Some s) evt pda pby act)
    | _ => None
    end
  else if String.eqb key "event" then
    match value with
    | Js.JStr s =>
        match ObjectId.cast s with
        | Some oid => Some (Payment.mk pid mem amt pty pme sta tid des rec (Some oid) pda pby act)
        | None => None
        end
    | _ => None
    end
  else if String.eqb key "processedBy" then
    match value with
    | Js.JStr s =>
        match ObjectId.cast s with
        | Some oid => Some (Payment.mk pid mem amt pty pme sta tid des rec evt pda (Some oid) act)
        | None => None
        end
    | _ => None
    end
  else if String.eqb key "isActive" then
    match value with
    | Js.JBool b => Some (Payment.mk pid mem amt pty pme sta tid des rec evt pda pby b)
    | _ => None
    end
  else if String.eqb key "paymentDate" || String.eqb key "_id"
          || String.eqb key "createdAt" || String.eqb key "updatedAt"
          || String.eqb key "__v" then None
  else Some p.

(** [Object.assign(payment, updateData)] *)
Fixpoint assign (updateData : Validators.Body) (p : Payment.t) : option Payment.t :=
  match updateData with
  | [] => Some p
  | kv :: rest =>
      match assignPath kv p with
      | Some p' => assign rest p'
      | None => None
      end
  end.

(** The error of MongoDB's unique index on [paymentId]. *)
Definition duplicatePaymentId : Js.Error :=
  Js.mkError "MongoServerError" "E11000 duplicate key error" None (Some 11000)
             (Some ["paymentId"]) None.

(** [updatePayment(paymentId, updateData)]; [None] when [updateData] is
    outside of what [assignPath] describes. *)
Definition updatePayment (paymentId : string) (updateData : Validators.Body)
           (st : Store) : option (Store * Js.result Payment.t) :=
  match ObjectId.cast paymentId with
  | None => Some (st, Throw (Js.castError "_id"))
  | Some pid =>
      match payments st !! pid with
      | None => Some (st, Throw (Js.newError "Payment not found"))
      | Some payment =>
          if negb (Payment.isActive payment)
          then Some (st, Throw (Js.newError "Payment not found"))
          else
            match assign updateData payment with
            | None => None
            | Some payment' =>
                (* payment.save() *)
                match Payment.validate (Payment.modified payment payment') payment' with
                | [] =>
                    match Query.findOne (payments st)
                            (fun id q => negb (String.eqb id pid)
                                         && String.eqb (Payment.paymentId q)
                                                       (Payment.paymentId payment')) with
                    | Some _ => Some (st, Throw duplicatePaymentId)
                    | None => Some (set_payments (insert pid payment') st, Ok payment')
                    end
                | msgs => Some (st, Throw (Js.validationError msgs))
                end
            end
      end
  end.

End PaymentService.

Module PaymentController.

(** [getPaymentById(req, res, next)], with [req.params.id]. *)
Definition getPaymentById (id : string) (st : Store) : Response :=
  respond HTTP_STATUS.OK "Payment retrieved successfully"
          (PaymentService.getPaymentById id st).

(** [updatePayment(req, res, next)], with [req.params.id] and [req.body]. *)
Definition updatePayment (id : string) (body : Validators.Body) (st : Store)
  : option (Store * Response) :=
  match PaymentService.updatePayment id body st with
  | Some (st', r) => Some (st', respond HTTP_STATUS.OK "Payment updated successfully" r)
  | None => None
  end.

(** [uploadReceipt(req, res, next)] after the upload of the file, with
    the URL the upload service returned. *)
Definition uploadReceipt (id receiptUrl : string) (st : Store) : Store * Response :=
  let (st', r) := PaymentService.uploadReceipt id receiptUrl st in
  (st', respond HTTP_STATUS.OK "Receipt uploaded successfully" r).

End PaymentController.

(** routes/payments.routes.js, after [authenticate] and [authorize]. *)
Module PaymentRoutes.

(** [router.get('/:id', ..., validateParams(paymentParamsSchema),
    PaymentController.getPaymentById)] *)
Definition get_id (id : string) (st : Store) : Response :=
  match Validators.validate (Validators.paymentParamsSchema id) with
  | Some res => res
  | None => PaymentController.getPaymentById id st
  end.

(** [router.put('/:id', ..., validateParams(paymentParamsSchema),
    validate(updatePaymentSchema), PaymentController.updatePayment)] *)
Definition put_id (id : string) (body : Validators.Body) (st : Store)
  : option (Store * Response) :=
  match Validators.validate (Validators.paymentParamsSchema id) with
  | Some res => Some (st, res)
  | None =>
      match Validators.validate (Validators.updatePaymentSchema body) with
      | Some res => Some (st, res)
      | None => PaymentController.updatePayment id body st
      end
  end.

End PaymentRoutes.

(** controllers/zone.controller.js *)
Module ZoneController.

(** [deleteZone(req, res, next)], with [req.params.id]. *)
Definition deleteZone (id : string) (st : Store) : Store * Response :=
  let (st', r) := ZoneService.deleteZone id st in
  (st', respond HTTP_STATUS.OK "Zone deleted successfully" r).

End ZoneController.

(** routes/zone.routes.js, after [authenticate] and [authorize]. *)
Module ZoneRoutes.

(** [router.delete('/:id', ..., validateParams(zoneParamsSchema),
    ZoneController.deleteZone)] *)
Definition delete_id (id : string) (st : Store) : Store * Response :=
  match Validators.validate (Validators.zoneParamsSchema id) with
  | Some res => (st, res)
  | None => ZoneController.deleteZone id st
  end.

End ZoneRoutes.

(* ===================================================================== *)
(** * services/auth.service.js and controllers/auth.controller.js *)
(* ===================================================================== *)

Module AuthService.
Section WithLibraries.

(** [bcrypt.compare(candidatePassword, hash)], behind
    [user.comparePassword], and [jwt.sign({ id }, secret, { expiresIn })],
    behind [generateToken], at the time of the call: a token carries the
    times at which it is issued and expires, so that [generateToken] is
    the signing at one time, and calls at different times are given
    different [generateToken]s. *)
Variable comparePassword : string -> string -> bool.
Variable generateToken : ObjectId.t -> string.

(** [user.toObject()] after [delete userResponse.password]. *)
Record UserResponse := mkUserResponse {
  _id : ObjectId.t;
  name : string;
  email : string;
  role : string;
  isActive : bool
}.

Record Session := mkSession {
  user : UserResponse;
  token : string
}.

(** The filter [{ email }]; the [lowercase] setter of the path runs on the
    value of the filter. *)
Definition byEmail (email : string) (_ : string) (u : User.t) : bool :=
  String.eqb (User.email u) (Js.toLowerCase email).

(** [login(email, password)] *)
Definition login (email password : string) (st : Store) : Js.result Session :=
  match Query.findOne (users st) (byEmail email) with
  | None => Throw (Js.newError "Invalid credentials")
  | Some (uid, user) =>
      if negb (User.isActive user)
      then Throw (Js.newError "Account is deactivated")
      else if negb (comparePassword password (User.password user))
      then Throw (Js.newError "Invalid credentials")
      else
        Ok (mkSession
              (mkUserResponse uid (User.name user) (User.email user)
                              (User.role user) (User.isActive user))
              (generateToken uid))
  end.

End WithLibraries.
End AuthService.

Module AuthController.

(** [login(req, res, next)], with [req.body.email] and [req.body.password]. *)
Definition login (comparePassword : string -> string -> bool)
           (generateToken : ObjectId.t -> string)
           (email password : string) (st : Store) : Response :=
  respond HTTP_STATUS.OK "Login successful"
          (AuthService.login comparePassword generateToken email password st).

End AuthController.

(* ===================================================================== *)
(** * utils/helpers.js *)
(* ===================================================================== *)

Module Helpers.

(** What one call of [generateId] reads from the environment:
    [Date.now().toString(36)] and [crypto.randomBytes(4).toString("hex")]. *)
Record Seed := mkSeed {
  timestamp : string;
  randomHex : string
}.

(** [generateId(prefix)] *)
Definition generateId (prefix : string) (seed : Seed) : string :=
  let randomStr := Js.toUpperCase (randomHex seed) in
  Js.toUpperCase (prefix +:+ timestamp seed +:+ randomStr).

Definition generateMemberId (seed : Seed) : string := generateId "MEM" seed.

Definition generatePaymentId (seed : Seed) : string := generateId "PAY" seed.

End Helpers.

(* ===================================================================== *)
(** * services/member.service.js and controllers/member.controller.js *)
(* ===================================================================== *)

Module MemberService.

(** [getMemberById(memberId)] *)
Definition getMemberById (memberId : string) (st : Store) : Js.result Member.t :=
  match Query.findById (members st) memberId with
  | Throw e => Throw e
  | Ok None => Throw (Js.newError "Member not found")
  | Ok (Some member) =>
      if negb (Member.isActive member)
      then Throw (Js.newError "Member not found")
      else Ok member
  end.

(** The body of a renewal request, as [req.body] holds it and the
    controller passes it on: [validate(renewMembershipSchema)] checks the
    body and leaves it as the client sent it, so that [renewalPeriod] is a
    number or, as [Joi.number()] accepts too, a string that holds a
    numeral.  [paymentAmount] is the number that the [amount] path of the
    payment casts the value of the body to. *)
Record RenewalData := mkRenewalData {
  renewalPeriod : Js.Value;
  paymentAmount : Z;
  paymentMethod : string;
  transactionId : option string
}.

(** What the environment gives to one call of [renewMembership]: for the
    successive calls of [generatePaymentId()], the [Seed] of each; the
    [_id] of the new payment; the clock. *)
Record Env := mkEnv {
  seeds : list Helpers.Seed;
  newPaymentOid : ObjectId.t;
  now : JsDate.t
}.

(** The filter [{ paymentId }]; the [uppercase] setter of the path runs on
    the value of the filter. *)
Definition byPaymentId (paymentId : string) (_ : string) (p : Payment.t) : bool :=
  String.eqb (Payment.paymentId p) (Js.toUpperCase paymentId).

(** [while (!isUnique) { paymentId = generatePaymentId(); const existing =
    await Payment.findOne({ paymentId }); if (!existing) isUnique = true; }]
    over the seeds of the calls of [generatePaymentId()]; [None] when all
    the identifiers generated are taken and the loop is still running. *)
Fixpoint uniquePaymentId (coll : gmap string Payment.t) (seeds : list Helpers.Seed)
  : option string :=
  match seeds with
  | [] => None
  | seed :: rest =>
      let paymentId := Helpers.generatePaymentId seed in
      match Query.findOne coll (byPaymentId paymentId) with
      | Some _ => uniquePaymentId coll rest
      | None => Some paymentId
      end
  end.

Record Renewal := mkRenewal {
  member : Member.t;
  payment : Payment.t;
  previousRenewalDate : JsDate.t;
  newRenewalDate : JsDate.t
}.

(** [renewMembership(memberId, renewalData, processedBy)]; [None] when
    the loop that draws the payment identifier does not end, and when
    [getMonth() + renewalData.renewalPeriod] is a string that the
    embedding has no number for (see [Js.numberOfString]). *)
Definition renewMembership (env : Env) (memberId : string) (renewalData : RenewalData)
           (processedBy : ObjectId.t) (st : Store)
  : option (Store * Js.result Renewal) :=
  match ObjectId.cast memberId with
  | None => Some (st, Throw (Js.castError "_id"))
  | Some mid =>
      match members st !! mid with
      | None => Some (st, Throw (Js.newError "Member not found"))
      | Some member =>
      if negb (Member.isActive member)
      then Some (st, Throw (Js.newError "Member not found")) else
      let currentRenewalDate := Member.renewalDate member in
      (* newRenewalDate.setMonth(newRenewalDate.getMonth() + renewalData.renewalPeriod) *)
      match Js.toNumber (Js.plus (JsDate.getMonth currentRenewalDate)
                                 (renewalPeriod renewalData)) with
      | None => None
      | Some month =>
      let newRenewalDate := JsDate.setMonth currentRenewalDate month in
      match uniquePaymentId (payments st) (seeds env) with
      | None => None
      | Some paymentId =>
          let payment :=
            Payment.mk (Js.toUpperCase paymentId) mid (paymentAmount renewalData)
                       "Membership Fee" (paymentMethod renewalData) "Completed"
                       (transactionId renewalData)
                       (Some ("Membership renewal for "
                              +:+ Js.toString (renewalPeriod renewalData) +:+ " months"))
                       None None (now env) (Some processedBy) true in
          (* payment.save() *)
          match Payment.validate (fun _ => true) payment with
          | [] =>
              let st1 := set_payments (insert (newPaymentOid env) payment) st in
              let member' :=
                Member.set_status "Active" (Member.set_renewalDate newRenewalDate member) in
              (* member.save() *)
              let st2 := set_members (insert mid member') st1 in
              Some (st2, Ok (mkRenewal member' payment currentRenewalDate newRenewalDate))
          | msgs => Some (st, Throw (Js.validationError msgs))
          end
      end
      end
      end
  end.

(** The methods of the class [MemberService], whose instance the module
    exports. *)
Definition methods : list string :=
  ["createMember"; "getAllMembers"; "getMemberById"; "updateMember";
   "disableMember"; "getMemberQRCode"; "searchMembers"; "renewMembership"].

Record Sweep := mkSweep {
  sweepMessage : string;
  updatedCount : Z
}.

(** [MemberService.updateExpiredMembers()], as the controller calls it:
    the class defines no method of that name (see [methods]), the
    property is [undefined], and calling it throws a [TypeError]. *)
Definition updateExpiredMembers (st : Store) : Store * Js.result Sweep :=
  (st, Throw (Js.typeError "MemberService.updateExpiredMembers is not a function")).

End MemberService.

Module MemberController.

(** [getMemberById(req, res, next)], with [req.params.id]. *)
Definition getMemberById (id : string) (st : Store) : Response :=
  respond HTTP_STATUS.OK "Member retrieved successfully"
          (MemberService.getMemberById id st).

(** [renewMembership(req, res, next)], with [req.params.id], [req.body] and
    [req.user.id]. *)
Definition renewMembership (env : MemberService.Env) (id : string)
           (body : MemberService.RenewalData) (userId : ObjectId.t) (st : Store)
  : option (Store * Response) :=
  match MemberService.renewMembership env id body userId st with
  | Some (st', r) => Some (st', respond HTTP_STATUS.OK "Membership renewed successfully" r)
  | None => None
  end.

(** [updateExpiredMembers(req, res, next)] *)
Definition updateExpiredMembers (st : Store) : Store * Response :=
  let (st', result) := MemberService.updateExpiredMembers st in
  (st',
   match result with
   | Ok result => mkResponse HTTP_STATUS.OK true (MemberService.sweepMessage result)
   | Throw error => errorHandler error
   end).

End MemberController.

(** The member that the sweep of expired memberships is to update: active,
    renewal date in the past, status not yet ["Expired"]. *)
Definition lapsed (now : JsDate.t) (m : Member.t) : bool :=
  Member.isActive m
  && JsDate.ltb (Member.renewalDate m) now
  && negb (String.eqb (Member.status m) "Expired").

(* ===================================================================== *)
(** * Sample data *)
(* ===================================================================== *)

Module Sample.

Definition day (y m d : Z) : JsDate.t := JsDate.mk y m d 0.

Definition userId : ObjectId.t := "64b7f0c2a1d3e4f5a6b7c8a1".
Definition adminId : ObjectId.t := "64b7f0c2a1d3e4f5a6b7c8a2".
Definition zoneId : ObjectId.t := "64b7f0c2a1d3e4f5a6b7c8b1".
Definition emptyZoneId : ObjectId.t := "64b7f0c2a1d3e4f5a6b7c8b2".
Definition memberId : ObjectId.t := "64b7f0c2a1d3e4f5a6b7c8c1".
Definition disabledMemberId : ObjectId.t := "64b7f0c2a1d3e4f5a6b7c8c2".
Definition eventId : ObjectId.t := "64b7f0c2a1d3e4f5a6b7c8d1".
Definition paymentId : ObjectId.t := "64b7f0c2a1d3e4f5a6b7c8e1".
Definition deletedPaymentId : ObjectId.t := "64b7f0c2a1d3e4f5a6b7c8e2".
Definition newId : ObjectId.t := "64b7f0c2a1d3e4f5a6b7c8f1".

(** The member's id as a client may send it: the validators' pattern
    admits both cases of the hexadecimal letters. *)
Definition memberIdUpper : string := "64B7F0C2A1D3E4F5A6B7C8C1".

Definition user : User.t :=
  User.mk "Asha" "asha@example.org" "$2a$12$hash" "Member" true.
Definition deactivated : User.t :=
  User.mk "Ravi" "ravi@example.org" "$2a$12$other" "Member" false.

Definition zone : Zone.t := Zone.mk "North" (Some "Northern district") true.
Definition emptyZone : Zone.t := Zone.mk "South" None true.

(** A member whose renewal date, 2024-01-15, is long past. *)
Definition member : Member.t :=
  Member.mk userId "MEMLX1A2B3C4D" "Asha" "+91 98 7654 3210" zoneId "Basic" "Active"
            (day 2024 0 15) None true.
Definition disabledMember : Member.t :=
  Member.mk adminId "MEMLX1A2B3C4E" "Ravi" "+91 98 7654 3211" emptyZoneId "Basic" "Inactive"
            (day 2024 0 31) None false.

(** A member whose renewal date is the last day of January 2024. *)
Definition monthEndMemberId : ObjectId.t := "64b7f0c2a1d3e4f5a6b7c8c5".
Definition monthEndMember : Member.t :=
  Member.mk "64b7f0c2a1d3e4f5a6b7c8a3" "MEMLX1A2B3C4F" "Meera" "+91 98 7654 3212" zoneId
            "Premium" "Expired" (day 2024 0 31) None true.

Definition event : Event.t :=
  Event.mk "Annual meet" (day 2027 5 1) (Some 50) 0 "Upcoming" [] adminId true.

(** An event with three attendees, one per attendance status. *)
Definition pastEventId : ObjectId.t := "64b7f0c2a1d3e4f5a6b7c8d2".
Definition pastEvent : Event.t :=
  Event.mk "Spring fair" (day 2026 3 12) None 100 "Completed"
           [Attendee.mk memberId (day 2026 2 1) "Attended" "Paid";
            Attendee.mk disabledMemberId (day 2026 2 2) "No Show" "Pending";
            Attendee.mk "64b7f0c2a1d3e4f5a6b7c8c3" (day 2026 2 3) "Registered" "Pending";
            Attendee.mk "64b7f0c2a1d3e4f5a6b7c8c4" (day 2026 2 3) "Attended" "Paid"]
           adminId true.

Definition payment : Payment.t :=
  Payment.mk "PAYLX1A2B3C4D" memberId 500 "Membership Fee" "Cash" "Pending"
             None None None None (day 2024 0 15) (Some adminId) true.
Definition deletedPayment : Payment.t :=
  Payment.mk "PAYLX1A2B3C4E" memberId 250 "Late Fee" "Cash" "Pending"
             None None None None (day 2024 0 16) (Some adminId) false.

Definition store : Store :=
  mkStore
    (<[userId := user]> (<[adminId := deactivated]> ∅))
    (<[memberId := member]>
       (<[disabledMemberId := disabledMember]>
          (<[monthEndMemberId := monthEndMember]> ∅)))
    (<[zoneId := zone]> (<[emptyZoneId := emptyZone]> ∅))
    (<[eventId := event]> (<[pastEventId := pastEvent]> ∅))
    (<[paymentId := payment]> (<[deletedPaymentId := deletedPayment]> ∅))
    ∅.

Definition today : JsDate.t := day 2026 10 3.

(** The environment of a renewal: the first identifier generated,
    PAYLX1A2B3C4D, is taken by [payment], the second, PAYMH2K9QZ7F1C, is
    free. *)
Definition takenSeed : Helpers.Seed := Helpers.mkSeed "lx1a2" "b3c4d".
Definition freeSeed : Helpers.Seed := Helpers.mkSeed "mh2k9" "qz7f1c".
Definition env : MemberService.Env :=
  MemberService.mkEnv [takenSeed; freeSeed] newId today.

Definition quarter : MemberService.RenewalData :=
  MemberService.mkRenewalData (Js.JNum 3) 1500 "Online" (Some "TXN-2291").
Definition oneMonth : MemberService.RenewalData :=
  MemberService.mkRenewalData (Js.JNum 1) 500 "Cash" None.

(** [bcrypt.compare] stood in for by the comparison of a password with
    the text after the last [$] of the hash ("hash" for [user]). *)
Definition compare (candidate hash : string) : bool :=
  String.eqb ("$2a$12$" +:+ candidate) hash.
Definition sign (uid : ObjectId.t) : string := "jwt." +:+ uid.

End Sample.

(* ===================================================================== *)
(** * The vocabulary of the specification *)
(* ===================================================================== *)

Module Spec.

(** "previous renewalDate plus renewalPeriod calendar months", in the
    specification's words: the same day of the month and time of day, in
    the month that comes [n] months after the month of [d]. *)
Definition plusMonths (d : JsDate.t) (n : Z) : JsDate.t :=
  JsDate.mk ((JsDate.monthIndex d + n) / 12) ((JsDate.monthIndex d + n) mod 12)
            (JsDate.date d) (JsDate.timeWithinDay d).

(** "a member reference appears at most once in attendees" *)
Definition uniqueAttendees (e : Event.t) : Prop :=
  List.NoDup (List.map Attendee.member (Event.attendees e)).

(** "attendees.length <= maxAttendees when maxAttendees set" *)
Definition withinCapacity (e : Event.t) : Prop :=
  forall n, Event.maxAttendees e = Some n -> n <> 0 ->
            Z.of_nat (length (Event.attendees e)) <= n.

(** The member is in the attendees list of the event. *)
Definition registered (mid : ObjectId.t) (e : Event.t) : Prop :=
  In mid (List.map Attendee.member (Event.attendees e)).

(** The values of the [attendanceStatus] enum of the Event schema. *)
Definition attendanceStatuses : list string := ["Registered"; "Attended"; "No Show"].

(** The fields of a payment other than [status], [transactionId] and
    [description] are the same in [p] and [q]. *)
Definition sameFrame (p q : Payment.t) : Prop :=
  Payment.paymentId q = Payment.paymentId p
  /\ Payment.member q = Payment.member p
  /\ Payment.amount q = Payment.amount p
  /\ Payment.paymentType q = Payment.paymentType p
  /\ Payment.paymentMethod q = Payment.paymentMethod p
  /\ Payment.event q = Payment.event p
  /\ Payment.receiptFile q = Payment.receiptFile p
  /\ Payment.paymentDate q = Payment.paymentDate p
  /\ Payment.processedBy q = Payment.processedBy p
  /\ Payment.isActive q = Payment.isActive p.

(** The payments of [st'] are those of [st], each with its frame. *)
Definition framePreserved (st st' : Store) : Prop :=
  forall pid,
    match payments st !! pid with
    | Some p => exists p', payments st' !! pid = Some p' /\ sameFrame p p'
    | None => payments st' !! pid = None
    end.

(** Every event of the store is within its capacity. *)
Definition allWithinCapacity (st : Store) : Prop :=
  forall eid e, events st !! eid = Some e -> withinCapacity e.

(** A sequence of calls of [registerMemberForEvent], each with its event
    id and member id. *)
Definition registerAll (now : JsDate.t) (calls : list (string * string)) (st : Store) : Store :=
  fold_left (fun st c => fst (EventService.registerMemberForEvent now (fst c) (snd c) st))
            calls st.

(** No payment has the identifier. *)
Definition freePaymentId (st : Store) (paymentId : string) : Prop :=
  forall k p, payments st !! k = Some p -> Payment.paymentId p <> paymentId.

(** One of the calls of [generatePaymentId()] returns an identifier that
    no payment has. *)
Definition someFreeSeed (st : Store) (seeds : list Helpers.Seed) : Prop :=
  exists seed, In seed seeds /\ freePaymentId st (Helpers.generatePaymentId seed).

(** The unique index on the [email] of users. *)
Definition uniqueEmails (st : Store) : Prop :=
  forall k1 k2 u1 u2,
    users st !! k1 = Some u1 -> users st !! k2 = Some u2 ->
    User.email u1 = User.email u2 -> k1 = k2.

(** No user has the email: emails are stored in lowercase. *)
Definition unknownEmail (st : Store) (email : string) : Prop :=
  forall k u, users st !! k = Some u -> User.email u <> Js.toLowerCase email.

(** A body of a renewal request that [renewMembershipSchema] accepts and
    whose [renewalPeriod] is the JSON number [n]. *)
Definition validRenewal (r : MemberService.RenewalData) (n : Z) : Prop :=
  MemberService.renewalPeriod r = Js.JNum n
  /\ 1 <= n <= 60
  /\ 0 <= MemberService.paymentAmount r
  /\ In (MemberService.paymentMethod r) Payment.paymentMethods.

(** A body of a renewal request that [renewMembershipSchema] accepts and
    whose [renewalPeriod] is the string that holds the decimal numeral of
    [n], as in [{ "renewalPeriod": "3", ... }]. *)
Definition numeralRenewal (r : MemberService.RenewalData) (n : Z) : Prop :=
  MemberService.renewalPeriod r = Js.JStr (pretty n)
  /\ 1 <= n <= 60
  /\ 0 <= MemberService.paymentAmount r
  /\ In (MemberService.paymentMethod r) Payment.paymentMethods.

End Spec.

(* ===================================================================== *)
(** * Regular expressions *)
(* ===================================================================== *)

Module Regex.

(** The regular expressions of the schemas, matched as [regExp.test(s)]
    does for a pattern anchored with [^] and [$]: by derivatives. *)
Inductive t :=
| Never
| Eps
| Chr (p : ascii -> bool)
| Seq (a b : t)
| Alt (a b : t)
| Star (a : t).

Fixpoint nullable (r : t) : bool :=
  match r with
  | Never => false
  | Eps => true
  | Chr _ => false
  | Seq a b => nullable a && nullable b
  | Alt a b => nullable a || nullable b
  | Star _ => true
  end.

Fixpoint deriv (c : ascii) (r : t) : t :=
  match r with
  | Never => Never
  | Eps => Never
  | Chr p => if p c then Eps else Never
  | Seq a b =>
      if nullable a then Alt (Seq (deriv c a) b) (deriv c b)
      else Seq (deriv c a) b
  | Alt a b => Alt (deriv c a) (deriv c b)
  | Star a => Seq (deriv c a) (Star a)
  end.

Fixpoint test (r : t) (s : string) : bool :=
  match s with
  | EmptyString => nullable r
  | String c s' => test (deriv c r) s'
  end.

(** [r+], [r?] and [r{2,3}] *)
Definition plus (r : t) : t := Seq r (Star r).
Definition opt (r : t) : t := Alt Eps r.
Definition twoOrThree (r : t) : t := Seq r (Seq r (opt r)).

Definition char (c : ascii) : t := Chr (Ascii.eqb c).

(** [\w]: [A-Za-z0-9_] *)
Definition isWord (c : ascii) : bool :=
  let n := nat_of_ascii c in
  ((65 <=? n) && (n <=? 90))%nat || ((97 <=? n) && (n <=? 122))%nat
  || ((48 <=? n) && (n <=? 57))%nat || (n =? 95)%nat.

Definition word : t := Chr isWord.

(** [[.-]] *)
Definition dotOrDash : t := Chr (fun c => Ascii.eqb c "." || Ascii.eqb c "-").

End Regex.

(* ===================================================================== *)
(** * models/user.model.js: the validators of the schema *)
(* ===================================================================== *)

Module UserSchema.

(** [/^\w+([.-]?\w+)*@\w+([.-]?\w+)*(\.\w{2,3})+$/] *)
Definition emailPattern : Regex.t :=
  let words := Regex.Seq (Regex.plus Regex.word)
                         (Regex.Star (Regex.Seq (Regex.opt Regex.dotOrDash)
                                                (Regex.plus Regex.word))) in
  Regex.Seq words
    (Regex.Seq (Regex.char "@")
       (Regex.Seq words
          (Regex.plus (Regex.Seq (Regex.char ".") (Regex.twoOrThree Regex.word))))).

Definition roles : list string := ["Admin"; "Member"].

(** The validators that [save()] runs on a new user, before the hook that
    hashes the password: [required] on [name], [email] and [password],
    [match] on [email], [minlength: 6] on [password], the [enum] of
    [role]. *)
Definition validate (u : User.t) : list string :=
  ((if String.eqb (User.name u) EmptyString then ["Name is required"] else [])
   ++ (if String.eqb (User.email u) EmptyString then ["Email is required"]
       else if Regex.test emailPattern (User.email u) then []
       else ["Please provide a valid email"])
   ++ (if String.eqb (User.password u) EmptyString then ["Password is required"]
       else if (String.length (User.password u) <? 6)%nat
       then ["Password must be at least 6 characters long"] else [])
   ++ (if Payment.inb (User.role u) roles then []
       else ["`" +:+ User.role u +:+ "` is not a valid enum value for path `role`."]))%list.

End UserSchema.

(* ===================================================================== *)
(** * services/auth.service.js: register and getProfile *)
(* ===================================================================== *)

Module AuthRegistration.
Section WithLibraries.

(** [bcrypt.hash(password, 12)], behind the [pre('save')] hook of the user
    schema, and [jwt.sign], behind [generateToken], at the time of the
    call (see [AuthService]). *)
Variable hashPassword : string -> string.
Variable generateToken : ObjectId.t -> string.

(** The body of a registration request; [role] may be absent. *)
Record UserData := mkUserData {
  name : string;
  email : string;
  password : string;
  role : option string
}.

(** [new User(userData)]: the setters of the schema run ([trim] on [name],
    [lowercase] on [email]) and the defaults apply. *)
Definition newUser (userData : UserData) : User.t :=
  User.mk (Js.trim (name userData)) (Js.toLowerCase (email userData))
          (password userData) (default "Member" (role userData)) true.

Definition set_password (h : string) (u : User.t) : User.t :=
  User.mk (User.name u) (User.email u) h (User.role u) (User.isActive u).

(** [register(userData)]; [newId] is the [_id] of the new user. *)
Definition register (newId : ObjectId.t) (userData : UserData) (st : Store)
  : Store * Js.result AuthService.Session :=
  match Query.findOne (users st) (AuthService.byEmail (email userData)) with
  | Some _ => (st, Throw (Js.newError "User already exists with this email"))
  | None =>
      let user := newUser userData in
      (* user.save(): validation, then the hook that hashes the password *)
      match UserSchema.validate user with
      | [] =>
          let user := set_password (hashPassword (User.password user)) user in
          (mkStore (<[newId := user]> (users st)) (members st) (zones st) (events st)
                   (payments st) (notifications st),
           Ok (AuthService.mkSession
                 (AuthService.mkUserResponse newId (User.name user) (User.email user)
                                             (User.role user) (User.isActive user))
                 (generateToken newId)))
      | msgs => (st, Throw (Js.validationError msgs))
      end
  end.

(** [getProfile(userId)] *)
Definition getProfile (userId : string) (st : Store) : Js.result AuthService.UserResponse :=
  match ObjectId.cast userId with
  | None => Throw (Js.castError "_id")
  | Some uid =>
      match users st !! uid with
      | None => Throw (Js.newError "User not found")
      | Some user =>
          Ok (AuthService.mkUserResponse uid (User.name user) (User.email user)
                                         (User.role user) (User.isActive user))
      end
  end.

End WithLibraries.
End AuthRegistration.

(* ===================================================================== *)
(** * middlewares/auth.middleware.js *)
(* ===================================================================== *)

Module AuthMiddleware.

(** What a middleware does with a request: it sends a response, or calls
    [next()] with what it has put on the request. *)
Inductive outcome (A : Type) : Type :=
| Sent (res : Response)
| Next (a : A).
Arguments Sent {A} res.
Arguments Next {A} a.

(** [s.startsWith(p)] *)
Fixpoint startsWith (p s : string) : bool :=
  match p, s with
  | EmptyString, _ => true
  | String a p', String b s' => Ascii.eqb a b && startsWith p' s'
  | String _ _, EmptyString => false
  end.

Fixpoint drop (n : nat) (s : string) : string :=
  match n, s with
  | O, _ => s
  | S n', String _ s' => drop n' s'
  | S _, EmptyString => EmptyString
  end.

(** The characters before the first space. *)
Fixpoint untilSpace (s : string) : string :=
  match s with
  | EmptyString => EmptyString
  | String c s' => if Ascii.eqb c " " then EmptyString else String c (untilSpace s')
  end.

(** [authHeader.split(" ")[1]] for a header that starts with "Bearer ". *)
Definition tokenOf (authHeader : string) : string := untilSpace (drop 7 authHeader).

Section WithLibraries.

(** [jwt.verify(token, secret)]: the [id] of the payload of a token that
    verifies, [None] when [verify] throws. *)
Variable verify : string -> option string.

(** [authenticate(req, res, next)], with [req.header("Authorization")]; on
    [next()] the user is [req.user]. *)
Definition authenticate (authHeader : option string) (st : Store)
  : outcome (ObjectId.t * User.t) :=
  match authHeader with
  | None =>
      Sent (mkResponse HTTP_STATUS.UNAUTHORIZED false "Access denied. No token provided.")
  | Some authHeader =>
      if String.eqb authHeader EmptyString || negb (startsWith "Bearer " authHeader)
      then Sent (mkResponse HTTP_STATUS.UNAUTHORIZED false
                            "Access denied. No token provided.")
      else
        (* try { ... } catch (error) { 401 "Invalid or expired token." } *)
        match verify (tokenOf authHeader) with
        | None => Sent (mkResponse HTTP_STATUS.UNAUTHORIZED false "Invalid or expired token.")
        | Some id =>
            match Query.findById (users st) id, ObjectId.cast id with
            | Ok (Some user), Some uid =>
                if negb (User.isActive user)
                then Sent (mkResponse HTTP_STATUS.UNAUTHORIZED false "Account is deactivated.")
                else Next (uid, user)
            | Ok None, _ =>
                Sent (mkResponse HTTP_STATUS.UNAUTHORIZED false
                                 "Invalid token. User not found.")
            | _, _ =>
                Sent (mkResponse HTTP_STATUS.UNAUTHORIZED false "Invalid or expired token.")
            end
        end
  end.

(** [authorize(...roles)(req, res, next)], with [req.user]. *)
Definition authorize (roles : list string) (user : option (ObjectId.t * User.t))
  : outcome (ObjectId.t * User.t) :=
  match user with
  | None => Sent (mkResponse HTTP_STATUS.UNAUTHORIZED false "Authentication required.")
  | Some u =>
      if negb (Payment.inb (User.role (snd u)) roles)
      then Sent (mkResponse HTTP_STATUS.FORBIDDEN false
                            "Access denied. Insufficient permissions.")
      else Next u
  end.

(** [router.verb(path, authenticate, authorize(...roles), ...)]: the two
    middlewares in a row. *)
Definition guard (roles : list string) (authHeader : option string) (st : Store)
  : outcome (ObjectId.t * User.t) :=
  match authenticate authHeader st with
  | Sent res => Sent res
  | Next u => authorize roles (Some u)
  end.

End WithLibraries.
End AuthMiddleware.

(* ===================================================================== *)
(** * services/event.service.js: the other methods *)
(* ===================================================================== *)

Module Events.

(** [getEventById(eventId)] *)
Definition getEventById (eventId : string) (st : Store) : Js.result Event.t :=
  match Query.findById (events st) eventId with
  | Throw e => Throw e
  | Ok None => Throw (Js.newError "Event not found")
  | Ok (Some event) =>
      if negb (Event.isActive event) then Throw (Js.newError "Event not found")
      else Ok event
  end.

Definition set_isActive (b : bool) (e : Event.t) : Event.t :=
  Event.mk (Event.title e) (Event.eventDate e) (Event.maxAttendees e)
           (Event.registrationFee e) (Event.status e) (Event.attendees e)
           (Event.createdBy e) b.

(** [deleteEvent(eventId)] *)
Definition deleteEvent (eventId : string) (st : Store) : Store * Js.result Event.t :=
  match ObjectId.cast eventId with
  | None => (st, Throw (Js.castError "_id"))
  | Some eid =>
      match events st !! eid with
      | None => (st, Throw (Js.newError "Event not found"))
      | Some event =>
          let event' := set_isActive false event in
          (set_events (insert eid event') st, Ok event')
      end
  end.

(** [attendees.findIndex(p)]: [None] for [-1]. *)
Fixpoint findIndex {A} (p : A -> bool) (l : list A) : option nat :=
  match l with
  | [] => None
  | x :: l' => if p x then Some O else option_map S (findIndex p l')
  end.

Definition set_attendanceStatus (s : string) (a : Attendee.t) : Attendee.t :=
  Attendee.mk (Attendee.member a) (Attendee.registrationDate a) s
              (Attendee.paymentStatus a).

(** [l[i] = f(l[i])] for an index of the list. *)
Fixpoint updateAt {A} (i : nat) (f : A -> A) (l : list A) : list A :=
  match l, i with
  | [], _ => []
  | x :: l', O => f x :: l'
  | x :: l', S i' => x :: updateAt i' f l'
  end.

(** [recordAttendance(eventId, memberId, attendanceStatus)].  As for the
    other writes, the documents of the store are taken to satisfy their
    schema, and [save()] is described by the validators of the paths it
    finds modified: here the [enum] of [attendanceStatus]. *)
Definition recordAttendance (eventId memberId attendanceStatus : string) (st : Store)
  : Store * Js.result Event.t :=
  match ObjectId.cast eventId with
  | None => (st, Throw (Js.castError "_id"))
  | Some eid =>
      match events st !! eid with
      | None => (st, Throw (Js.newError "Event not found"))
      | Some event =>
      if negb (Event.isActive event) then (st, Throw (Js.newError "Event not found")) else
      match findIndex (EventService.sameMember memberId) (Event.attendees event) with
      | None => (st, Throw (Js.newError "Member is not registered for this event"))
      | Some attendeeIndex =>
          let event' :=
            Event.set_attendees
              (updateAt attendeeIndex (set_attendanceStatus attendanceStatus)
                        (Event.attendees event))
              event in
          let modified :=
            match nth_error (Event.attendees event) attendeeIndex with
            | Some a => negb (String.eqb (Attendee.attendanceStatus a) attendanceStatus)
            | None => false
            end in
          if modified && negb (Payment.inb attendanceStatus Spec.attendanceStatuses)
          then (st, Throw (Js.validationError
                             ["`" +:+ attendanceStatus
                              +:+ "` is not a valid enum value for path `attendanceStatus`."]))
          else (set_events (insert eid event') st, Ok event')
      end
      end
  end.

End Events.

(* ===================================================================== *)
(** * services/qr.service.js *)
(* ===================================================================== *)

Module QRCodeService.

Definition hexDigit (n : nat) : ascii :=
  ascii_of_nat (if (n <? 10)%nat then 48 + n else 87 + n).

(** [JSON.stringify] of a string: the quotation mark, the backslash and
    the control characters are escaped. *)
Definition escapeChar (c : ascii) : string :=
  let n := nat_of_ascii c in
  if (n =? 34)%nat then "\" +:+ Validators.dquote
  else if (n =? 92)%nat then "\\"
  else if (n =? 8)%nat then "\b"
  else if (n =? 9)%nat then "\t"
  else if (n =? 10)%nat then "\n"
  else if (n =? 12)%nat then "\f"
  else if (n =? 13)%nat then "\r"
  else if (n <? 32)%nat
  then "\u00" +:+ String (hexDigit (n / 16)) (String (hexDigit (n mod 16)) EmptyString)
  else String c EmptyString.

Fixpoint escape (s : string) : string :=
  match s with
  | EmptyString => EmptyString
  | String c s' => escapeChar c +:+ escape s'
  end.

Definition stringify (s : string) : string :=
  Validators.dquote +:+ escape s +:+ Validators.dquote.

(** [JSON.stringify({ type: "member", memberId: memberIdString, id:
    memberId, timestamp })] *)
Definition memberQrString (memberId : ObjectId.t) (memberIdString timestamp : string)
  : string :=
  "{" +:+ stringify "type" +:+ ":" +:+ stringify "member"
  +:+ "," +:+ stringify "memberId" +:+ ":" +:+ stringify memberIdString
  +:+ "," +:+ stringify "id" +:+ ":" +:+ stringify (ObjectId.toString memberId)
  +:+ "," +:+ stringify "timestamp" +:+ ":" +:+ stringify timestamp
  +:+ "}".

Section WithLibraries.

(** [QRCode.toDataURL(text, options)] with the options of the service. *)
Variable toDataURL : string -> Js.result string.

(** [generateMemberQR(memberId, memberIdString)]; [timestamp] is [new
    Date().toISOString()]. *)
Definition generateMemberQR (timestamp : string) (memberId : ObjectId.t)
           (memberIdString : string) : Js.result string :=
  match toDataURL (memberQrString memberId memberIdString timestamp) with
  | Ok qrCodeDataURL => Ok qrCodeDataURL
  | Throw error =>
      Throw (Js.newError ("Failed to generate QR code: " +:+ Js.message error))
  end.

End WithLibraries.
End QRCodeService.

(* ===================================================================== *)
(** * services/member.service.js: the other methods *)
(* ===================================================================== *)

Module Members.

Definition set_isActive (b : bool) (m : Member.t) : Member.t :=
  Member.mk (Member.user m) (Member.memberId m) (Member.name m) (Member.phone m)
            (Member.zone m) (Member.membershipType m) (Member.status m)
            (Member.renewalDate m) (Member.qrCode m) b.

Definition set_qrCode (q : option string) (m : Member.t) : Member.t :=
  Member.mk (Member.user m) (Member.memberId m) (Member.name m) (Member.phone m)
            (Member.zone m) (Member.membershipType m) (Member.status m)
            (Member.renewalDate m) q (Member.isActive m).

(** [disableMember(memberId)] *)
Definition disableMember (memberId : string) (st : Store) : Store * Js.result Member.t :=
  match ObjectId.cast memberId with
  | None => (st, Throw (Js.castError "_id"))
  | Some mid =>
      match members st !! mid with
      | None => (st, Throw (Js.newError "Member not found"))
      | Some member =>
          let member' := Member.set_status "Inactive" (set_isActive false member) in
          (set_members (insert mid member') st, Ok member')
      end
  end.

Record QRCode := mkQRCode {
  memberId : string;
  memberName : string;
  qrCode : string
}.

Section WithLibraries.

Variable toDataURL : string -> Js.result string.

(** [getMemberQRCode(memberId)]; [timestamp] is the time of the call, as
    [generateMemberQR] reads it. *)
Definition getMemberQRCode (timestamp : string) (memberId : string) (st : Store)
  : Store * Js.result QRCode :=
  match ObjectId.cast memberId with
  | None => (st, Throw (Js.castError "_id"))
  | Some mid =>
      match members st !! mid with
      | None => (st, Throw (Js.newError "Member not found"))
      | Some member =>
      if negb (Member.isActive member) then (st, Throw (Js.newError "Member not found")) else
      (* if (!member.qrCode) *)
      if match Member.qrCode member with
         | Some q => String.eqb q EmptyString
         | None => true
         end
      then
        match QRCodeService.generateMemberQR toDataURL timestamp mid
                                             (Member.memberId member) with
        | Throw e => (st, Throw e)
        | Ok qrCode =>
            let member' := set_qrCode (Some qrCode) member in
            (set_members (insert mid member') st,
             Ok (mkQRCode (Member.memberId member') (Member.name member') qrCode))
        end
      else
        (st, Ok (mkQRCode (Member.memberId member) (Member.name member)
                          (default EmptyString (Member.qrCode member))))
      end
  end.

End WithLibraries.
End Members.

(* ===================================================================== *)
(** * Sorting and paging of query results *)
(* ===================================================================== *)

Module Paging.

(** [.sort({ field: -1 })] on a date field: latest first. *)
Fixpoint insertDesc {D} (key : D -> JsDate.t) (x : D) (l : list D) : list D :=
  match l with
  | [] => [x]
  | y :: l' => if JsDate.ltb (key x) (key y) then y :: insertDesc key x l' else x :: l
  end.

Fixpoint sortDesc {D} (key : D -> JsDate.t) (l : list D) : list D :=
  match l with
  | [] => []
  | x :: l' => insertDesc key x (sortDesc key l')
  end.

Record Pagination := mkPagination {
  currentPage : Z;
  totalPages : Z;
  total : Z;
  hasNext : bool;
  hasPrev : bool
}.

(** [Math.ceil(total / limit)], for a limit above 0. *)
Definition ceilDiv (total limit : Z) : Z := - ((- total) / limit).

(** [page] and [limit] as a list method finds them in its [filters], which
    are [req.query]: absent, or the string of the query string.  The code
    reads each in two ways: where it computes with the value or compares
    it ([(page - 1) * limit], [total / limit], [page * limit < total],
    [page > 1]) the string converts as [Number] does, an absent value
    being the default; where it calls [parseInt] the leading digits
    count. *)
Definition numberOf (x : option string) (default : Z) : option Z :=
  match x with
  | None => Some default
  | Some s => Js.numberOfString s
  end.

Definition parseIntOf (x : option string) (default : Z) : option Z :=
  match x with
  | None => Some default
  | Some s => Js.parseInt s
  end.

(** The documents and the [pagination] of a list method, from [sorted],
    the documents that match its query in the order in which the sort of
    this request gives them:
    [const { page = 1, limit = 10 } = filters;
     const skip = (page - 1) * limit;
     const [docs, total] = await Promise.all([Model.find(query).sort(...)
       .skip(skip).limit(parseInt(limit)), Model.countDocuments(query)]);
     return { docs, pagination: { currentPage: parseInt(page),
       totalPages: Math.ceil(total / limit), total...: total,
       hasNext: page * limit < total, hasPrev: page > 1 } }].
    [None] stands for what the embedding does not describe: a [page] or
    [limit] that it has no number for, a [page] or [limit] that converts
    to 0 (a negative skip, which the server refuses, and a division by 0)
    and a skip above [Js.MAX_SAFE_INTEGER].  [limit(0)] is no limit. *)
Definition paginate {D} (page limit : option string) (sorted : list D)
  : option (list D * Pagination) :=
  match numberOf page 1, numberOf limit 10, parseIntOf page 1, parseIntOf limit 10 with
  | Some pageNumber, Some limitNumber, Some pageInt, Some limitInt =>
      let skip := (pageNumber - 1) * limitNumber in
      if (pageNumber =? 0) || (limitNumber =? 0) || (Js.MAX_SAFE_INTEGER <? skip)
      then None
      else
        let rest := skipn (Z.to_nat skip) sorted in
        let total := Z.of_nat (length sorted) in
        Some (if limitInt =? 0 then rest else firstn (Z.to_nat limitInt) rest,
              mkPagination pageInt (ceilDiv total limitNumber) total
                           (pageNumber * limitNumber <? total) (1 <? pageNumber))
  | _, _, _, _ => None
  end.

(** The documents of successive requests with the same [limit], one after
    the other: each request has its [page] and sees the matching documents
    in the order that its own sort gives them. *)
Fixpoint pages {D} (limit : option string) (requests : list (option string * list D))
  : option (list D) :=
  match requests with
  | [] => Some []
  | (page, sorted) :: rest =>
      match paginate page limit sorted, pages limit rest with
      | Some (docs, _), Some more => Some (docs ++ more)%list
      | _, _ => None
      end
  end.

End Paging.

(* ===================================================================== *)
(** * services/payment.service.js: the other methods *)
(* ===================================================================== *)

Module Payments.

(** The body of a request to create a payment, as [req.body] holds it;
    [amount] is the number that the [amount] path of the payment casts
    the value of the body to. *)
Record PaymentData := mkPaymentData {
  memberId : string;
  amount : Z;
  paymentType : string;
  paymentMethod : string;
  description : option string;
  eventId : option string;
  transactionId : option string
}.

(** [if (paymentData.eventId)]: present and not the empty string. *)
Definition truthy (s : option string) : bool :=
  match s with
  | Some s => negb (String.eqb s EmptyString)
  | None => false
  end.

(** [createPayment(paymentData, processedBy)]; the environment is that of
    [renewMembership]; [None] when the loop that draws the payment
    identifier does not end. *)
Definition createPayment (env : MemberService.Env) (paymentData : PaymentData)
           (processedBy : ObjectId.t) (st : Store)
  : option (Store * Js.result Payment.t) :=
  match ObjectId.cast (memberId paymentData) with
  | None => Some (st, Throw (Js.castError "_id"))
  | Some mid =>
      match members st !! mid with
      | None => Some (st, Throw (Js.newError "Member not found"))
      | Some member =>
      if negb (Member.isActive member)
      then Some (st, Throw (Js.newError "Member not found")) else
      match (if truthy (eventId paymentData)
             then match Query.findById (events st) (default EmptyString (eventId paymentData)) with
                  | Throw e => Some e
                  | Ok None => Some (Js.newError "Event not found")
                  | Ok (Some event) =>
                      if negb (Event.isActive event)
                      then Some (Js.newError "Event not found") else None
                  end
             else None) with
      | Some e => Some (st, Throw e)
      | None =>
      match MemberService.uniquePaymentId (payments st) (MemberService.seeds env) with
      | None => None
      | Some paymentId =>
          (* new Payment({ ... }): [event] is cast to an ObjectId *)
          match (match eventId paymentData with
                 | None => Some None
                 | Some s => option_map Some (ObjectId.cast s)
                 end) with
          | None =>
              Some (st, Throw (Js.validationError ["Cast to ObjectId failed at path event"]))
          | Some event =>
              let payment :=
                Payment.mk (Js.toUpperCase paymentId) mid (amount paymentData)
                           (paymentType paymentData) (paymentMethod paymentData)
                           "Pending" (transactionId paymentData)
                           (option_map Js.trim (description paymentData))
                           None event (MemberService.now env) (Some processedBy) true in
              (* payment.save() *)
              match Payment.validate (fun _ => true) payment with
              | [] =>
                  Some (set_payments (insert (MemberService.newPaymentOid env) payment) st,
                        Ok payment)
              | msgs => Some (st, Throw (Js.validationError msgs))
              end
          end
      end
      end
      end
  end.




Record Summary := mkSummary {
  totalAmount : Z;
  totalPayments : Z;
  completedPayments : Z;
  pendingPayments : Z
}.

Module EventPayments.
Record t := mk {
  eventTitle : string;
  payments : list (string * Payment.t);
  summary : Summary
}.
End EventPayments.

(** [payments.filter((p) => p.status === s).length] *)
Definition countStatus (s : string) (l : list (string * Payment.t)) : Z :=
  Z.of_nat (length (List.filter (fun kp => String.eqb (Payment.status (snd kp)) s) l)).



End Payments.

(* ===================================================================== *)
(** * services/notification.service.js: the other methods *)
(* ===================================================================== *)

Module Notifications.

(** [getNotificationById(notificationId)] *)
Definition getNotificationById (notificationId : string) (st : Store)
  : Js.result Notification.t :=
  match Query.findById (notifications st) notificationId with
  | Throw e => Throw e
  | Ok None => Throw (Js.newError "Notification not found")
  | Ok (Some notification) =>
      if negb (Notification.isActive notification)
      then Throw (Js.newError "Notification not found")
      else Ok notification
  end.

Definition set_isActive (b : bool) (n : Notification.t) : Notification.t :=
  Notification.mk (Notification.title n) (Notification.message n) (Notification.type n)
                  (Notification.priority n) (Notification.targetMembers n)
                  (Notification.sentBy n) (Notification.status n) (Notification.isRead n) b.

(** [deleteNotification(notificationId)] *)
Definition deleteNotification (notificationId : string) (st : Store)
  : Store * Js.result Notification.t :=
  match ObjectId.cast notificationId with
  | None => (st, Throw (Js.castError "_id"))
  | Some nid =>
      match notifications st !! nid with
      | None => (st, Throw (Js.newError "Notification not found"))
      | Some notification =>
          let notification' := set_isActive false notification in
          (set_notifications (insert nid notification') st, Ok notification')
      end
  end.

(** [sendToAllMembers(title, message, type = "General", priority =
    "Medium", sentBy)] *)
Definition sendToAllMembers (newId : ObjectId.t) (title message : string)
           (type priority : option string) (sentBy : ObjectId.t) (st : Store)
  : Store * Js.result Notification.t :=
  NotificationService.createNotification
    newId
    (NotificationService.mkData title message (default "General" type)
                                (Some (default "Medium" priority)) (Some []) None)
    sentBy st.

(** [sendToMembers(targetMembers, title, message, type = "General",
    priority = "Medium", sentBy)] *)
Definition sendToMembers (newId : ObjectId.t) (targetMembers : list string)
           (title message : string) (type priority : option string)
           (sentBy : ObjectId.t) (st : Store)
  : Store * Js.result Notification.t :=
  NotificationService.createNotification
    newId
    (NotificationService.mkData title message (default "General" type)
                                (Some (default "Medium" priority)) (Some targetMembers) None)
    sentBy st.

End Notifications.

(* ===================================================================== *)
(** * middlewares/upload.middleware.js *)
(* ===================================================================== *)

Module UploadMiddleware.

(** The signatures of the three image types, as lists of bytes. *)
Definition jpeg : list (list Z) := [[255; 216; 255]].
Definition png : list (list Z) := [[137; 80; 78; 71; 13; 10; 26; 10]].
Definition webp : list (list Z) := [[82; 73; 70; 70]].

(** The properties that the object literal [signatures] inherits from
    [Object.prototype]: [signatures[mimetype]] is then a value other than
    an array of signatures, and calling [some] on it throws. *)
Definition inherited : list string :=
  ["constructor"; "toString"; "toLocaleString"; "valueOf"; "hasOwnProperty";
   "isPrototypeOf"; "propertyIsEnumerable"; "__proto__"; "__defineGetter__";
   "__defineSetter__"; "__lookupGetter__"; "__lookupSetter__"].

(** [signature.every((byte, index) => buffer[index] === byte)] *)
Fixpoint every (signature buffer : list Z) : bool :=
  match signature, buffer with
  | [], _ => true
  | byte :: signature', b :: buffer' => (b =? byte) && every signature' buffer'
  | _ :: _, [] => false
  end.

(** [validateFileSignature(buffer, mimetype)] *)
Definition validateFileSignature (buffer : list Z) (mimetype : string) : Js.result bool :=
  let some fileSignatures := Ok (existsb (fun signature => every signature buffer)
                                        fileSignatures) in
  if String.eqb mimetype "image/jpeg" then some jpeg
  else if String.eqb mimetype "image/png" then some png
  else if String.eqb mimetype "image/webp" then some webp
  else if Payment.inb mimetype inherited
  then Throw (Js.typeError "fileSignatures.some is not a function")
  else Ok false.

(** [s.lastIndexOf(".")]: [None] for [-1]. *)
Fixpoint lastIndexOfDot (s : string) : option nat :=
  match s with
  | EmptyString => None
  | String c s' =>
      match lastIndexOfDot s' with
      | Some i => Some (S i)
      | None => if Ascii.eqb c "." then Some O else None
      end
  end.

(** [file.originalname.toLowerCase().substring(file.originalname
    .lastIndexOf("."))]; [substring(-1)] is the whole string. *)
Definition fileExtension (originalname : string) : string :=
  match lastIndexOfDot originalname with
  | Some i => AuthMiddleware.drop i (Js.toLowerCase originalname)
  | None => Js.toLowerCase originalname
  end.

Definition allowedMimeTypes : list string := ["image/jpeg"; "image/png"; "image/webp"].
Definition allowedExtensions : list string := [".jpg"; ".jpeg"; ".png"; ".webp"].

(** [fileFilter(req, file, cb)]: the error given to [cb], or [None] for
    [cb(null, true)]. *)
Definition fileFilter (mimetype originalname : string) : option Js.Error :=
  if negb (Payment.inb mimetype allowedMimeTypes)
  then Some (Js.newError "Only JPEG, PNG, and WebP images are allowed")
  else if negb (Payment.inb (fileExtension originalname) allowedExtensions)
  then Some (Js.newError "Invalid file extension")
  else None.

(** An uploaded file, as multer's memory storage gives it. *)
Record File := mkFile {
  buffer : list Z;
  mimetype : string;
  originalname : string
}.

(** [validateFileContent(req, res, next)], with [req.file]: the response
    it sends, or [None] when it calls [next()]. *)
Definition validateFileContent (file : option File) : option Response :=
  match file with
  | None => None
  | Some file =>
      match validateFileSignature (buffer file) (mimetype file) with
      | Ok true => None
      | Ok false =>
          Some (mkResponse 400 false "File content does not match the declared type")
      | Throw _ => Some (mkResponse 500 false "File validation failed")
      end
  end.

End UploadMiddleware.

(* ===================================================================== *)
(** * services/report.service.js: formatGroupedData *)
(* ===================================================================== *)

Module ReportService.

(** One group of an aggregation: [_id], which is [null] for the documents
    without the field, and [count]. *)
Record Group := mkGroup {
  _id : option string;
  count : Z
}.

(** [item._id || "Unknown"] *)
Definition keyOf (item : Group) : string :=
  match _id item with
  | Some s => if String.eqb s EmptyString then "Unknown" else s
  | None => "Unknown"
  end.

(** [result[key] = value] on an object literal: the key [__proto__] sets
    the prototype, which a number is not taken for, and adds no property. *)
Definition assign (result : gmap string Z) (item : Group) : gmap string Z :=
  if String.eqb (keyOf item) "__proto__" then result
  else <[keyOf item := count item]> result.

(** [formatGroupedData(data)]: the own properties of the object returned. *)
Definition formatGroupedData (data : list Group) : gmap string Z :=
  fold_left assign data ∅.

End ReportService.

(* ===================================================================== *)
(** * Invariants of the store *)
(* ===================================================================== *)

Module Inv.

(** The unique index on the [paymentId] of payments. *)
Definition uniquePaymentIds (st : Store) : Prop :=
  forall k1 k2 p1 p2,
    payments st !! k1 = Some p1 -> payments st !! k2 = Some p2 ->
    Payment.paymentId p1 = Payment.paymentId p2 -> k1 = k2.

(** Both readings of [page] or [limit] give [n]: the value is absent and
    [n] is the default, or it is a numeral that [Number] and [parseInt]
    read alike, as a plain run of decimal digits is. *)
Definition reads (x : option string) (default n : Z) : Prop :=
  Paging.numberOf x default = Some n /\ Paging.parseIntOf x default = Some n.


(** The other fields of an event than [attendees]. *)
Definition sameEventFields (e e' : Event.t) : Prop :=
  Event.title e' = Event.title e
  /\ Event.eventDate e' = Event.eventDate e
  /\ Event.maxAttendees e' = Event.maxAttendees e
  /\ Event.registrationFee e' = Event.registrationFee e
  /\ Event.status e' = Event.status e
  /\ Event.createdBy e' = Event.createdBy e
  /\ Event.isActive e' = Event.isActive e.

End Inv.

(* ===================================================================== *)
(** * Further sample data *)
(* ===================================================================== *)

Module Fixture.

(** [Sample.store] with [Sample.member] as the only member. *)
Definition oneMember : Store :=
  set_members (fun _ => <[Sample.memberId := Sample.member]> ∅) Sample.store.

(** A QR library that answers with a data URL made of the text, and one
    that fails. *)
Definition toDataURL (text : string) : Js.result string :=
  Ok ("data:image/png;base64," +:+ text).
Definition failing (text : string) : Js.result string :=
  Throw (Js.newError "Input too long").

(** [bcrypt.hash] and [jwt.verify] stood in for by the inverses of
    [Sample.compare] and [Sample.sign]. *)
Definition hash (password : string) : string := "$2a$12$" +:+ password.
Definition verify (token : string) : option string :=
  if AuthMiddleware.startsWith "jwt." token then Some (AuthMiddleware.drop 4 token)
  else None.

(** [jwt.sign] at the time [iat]. *)
Definition signAt (iat : string) (uid : ObjectId.t) : string :=
  "jwt." +:+ uid +:+ "." +:+ iat.

Definition meera : AuthRegistration.UserData :=
  AuthRegistration.mkUserData " Meera N " "Meera.N@Example.org" "Secret1" None.

(** A request to record the fee of [Sample.event]. *)
Definition eventFee : Payments.PaymentData :=
  Payments.mkPaymentData Sample.memberId 750 "Event Registration" "Online"
                         (Some "  Stall fee ") (Some Sample.eventId) None.


(** [Sample.store] with one more member, whose renewal date is
    2024-11-15, and a renewal request for three months whose period is
    sent as the string "3". *)
Definition novemberMemberId : ObjectId.t := "64b7f0c2a1d3e4f5a6b7c8c6".
Definition novemberMember : Member.t :=
  Member.mk "64b7f0c2a1d3e4f5a6b7c8a4" "MEMLX1A2B3C4G" "Nila" "+91 98 7654 3213"
            Sample.zoneId "Basic" "Active" (Sample.day 2024 10 15) None true.
Definition renewals : Store :=
  set_members (insert novemberMemberId novemberMember) Sample.store.
Definition threeAsString : MemberService.RenewalData :=
  MemberService.mkRenewalData (Js.JStr "3") 1500 "Online" (Some "TXN-2291").

End Fixture.

(** The cases of a lookup in a map that is given by its entries. *)
Ltac lookup_cases H :=
  repeat (apply lookup_insert_Some in H as [[<- <-]|[_ H]]);
  try (rewrite lookup_empty in H; discriminate H).

(** Membership in a list that is given by its elements. *)
Ltac solve_In := simpl; repeat (first [left; reflexivity | right]).

(* ===================================================================== *)
(** * Lemmas on queries *)
(* ===================================================================== *)

Section QueryLemmas.
Context {D : Type}.
Implicit Types (coll : gmap string D) (p : string -> D -> bool).

Lemma find_spec coll p k d :
  In (k, d) (Query.find coll p) <-> coll !! k = Some d /\ p k d = true.
Proof.
  unfold Query.find, Query.docs. rewrite filter_In. simpl.
  rewrite <- list_elem_of_In, elem_of_map_to_list. reflexivity.
Qed.

Lemma NoDup_fst_filter (f : string * D -> bool) (l : list (string * D)) :
  List.NoDup (List.map fst l) -> List.NoDup (List.map fst (List.filter f l)).
Proof.
  induction l as [|x l IH]; simpl; intros H; [constructor|].
  inversion H as [|? ? Hnotin Hnd]; subst.
  destruct (f x); simpl; [constructor|]; auto.
  intros Hin. apply Hnotin.
  apply in_map_iff in Hin as (y & Hy & Hin).
  apply filter_In in Hin as [Hin _].
  apply in_map_iff. eauto.
Qed.

Lemma find_keys_NoDup coll p : List.NoDup (List.map fst (Query.find coll p)).
Proof.
  unfold Query.find, Query.docs. apply NoDup_fst_filter.
  apply NoDup_ListNoDup, NoDup_fst_map_to_list.
Qed.


Lemma findOne_Some_inv coll p k d :
  Query.findOne coll p = Some (k, d) -> coll !! k = Some d /\ p k d = true.
Proof.
  unfold Query.findOne. intros H.
  destruct (Query.find coll p) as [|x l] eqn:E; [discriminate|].
  simpl in H. injection H as ->.
  apply find_spec. rewrite E. left; reflexivity.
Qed.

Lemma findOne_unique coll p k d :
  coll !! k = Some d -> p k d = true ->
  (forall k' d', coll !! k' = Some d' -> p k' d' = true -> k' = k) ->
  Query.findOne coll p = Some (k, d).
Proof.
  intros Hk Hp Huniq.
  destruct (Query.findOne coll p) as [[k' d']|] eqn:E.
  - apply findOne_Some_inv in E as [Hk' Hp'].
    pose proof (Huniq _ _ Hk' Hp') as ->.
    rewrite Hk in Hk'. injection Hk' as ->. reflexivity.
  - unfold Query.findOne in E.
    destruct (Query.find coll p) as [|x l] eqn:E'; [|discriminate].
    assert (Hin : In (k, d) (Query.find coll p)) by (apply find_spec; auto).
    rewrite E' in Hin. destruct Hin.
Qed.

Lemma countDocuments_pos coll p :
  0 < Query.countDocuments coll p <-> exists k d, coll !! k = Some d /\ p k d = true.
Proof.
  unfold Query.countDocuments. split.
  - intros H. destruct (Query.find coll p) as [|[k d] l] eqn:E; [simpl in H; lia|].
    exists k, d. apply find_spec. rewrite E. left; reflexivity.
  - intros (k & d & Hk & Hp).
    assert (Hin : In (k, d) (Query.find coll p)) by (apply find_spec; auto).
    destruct (Query.find coll p); [destruct Hin | simpl; lia].
Qed.

End QueryLemmas.

(* ===================================================================== *)
(** * The error layer *)
(* ===================================================================== *)

(** A plain [new Error(msg)] reaches the client as a 500. *)
Lemma errorHandler_newError msg :
  errorHandler (Js.newError msg) =
  mkResponse 500 false (orString msg "Server Error").
Proof. reflexivity. Qed.

(** An error that carries [statusCode = 404] reaches the client as a 404:
    what [PaymentService.uploadReceipt] does for a missing payment. *)
Lemma uploadReceipt_soft_deleted_responds_404 :
  snd (PaymentController.uploadReceipt Sample.deletedPaymentId "https://files/r.png"
                                       Sample.store)
  = mkResponse 404 false "Payment not found".
Proof. reflexivity. Qed.

(** A [CastError] is the only not-found shape the handler recognises. *)
Lemma errorHandler_castError path :
  status (errorHandler (Js.castError path)) = HTTP_STATUS.NOT_FOUND.
Proof. reflexivity. Qed.

Lemma getMemberById_disabled_responds_500 st id mid m :
  ObjectId.cast id = Some mid ->
  members st !! mid = Some m ->
  Member.isActive m = false ->
  MemberController.getMemberById id st = mkResponse 500 false "Member not found".
Proof.
  intros Hc Hm Ha.
  unfold MemberController.getMemberById, MemberService.getMemberById, Query.findById.
  rewrite Hc, Hm, Ha. reflexivity.
Qed.

Lemma cast_isValid id oid : ObjectId.cast id = Some oid -> ObjectId.isValid id = true.
Proof. unfold ObjectId.cast. destruct (ObjectId.isValid id); [reflexivity | discriminate]. Qed.

(** C5 (the code departs from the claim).  Reading by id a payment that is
    soft-deleted ([isActive = false]) is answered by the error-handling
    layer with status 500 and the message "Payment not found", not with
    status 404: the service throws a plain [Error] without [statusCode],
    and the handler falls back on 500. *)
Theorem getPaymentById_soft_deleted_responds_500 st id pid p :
  ObjectId.cast id = Some pid ->
  payments st !! pid = Some p ->
  Payment.isActive p = false ->
  PaymentRoutes.get_id id st = mkResponse 500 false "Payment not found"
  /\ status (PaymentRoutes.get_id id st) <> HTTP_STATUS.NOT_FOUND.
Proof.
  intros Hc Hp Ha.
  assert (E : PaymentRoutes.get_id id st = mkResponse 500 false "Payment not found").
  { unfold PaymentRoutes.get_id, Validators.paymentParamsSchema.
    rewrite (cast_isValid _ _ Hc). simpl.
    unfold PaymentController.getPaymentById, PaymentService.getPaymentById, Query.findById.
    rewrite Hc, Hp, Ha. reflexivity. }
  split; [exact E|]. rewrite E. discriminate.
Qed.

Lemma getPaymentById_soft_deleted_responds_500_witness :
  PaymentRoutes.get_id Sample.deletedPaymentId Sample.store
  = mkResponse 500 false "Payment not found"
  /\ status (PaymentRoutes.get_id Sample.deletedPaymentId Sample.store)
     <> HTTP_STATUS.NOT_FOUND.
Proof.
  apply (getPaymentById_soft_deleted_responds_500
           Sample.store Sample.deletedPaymentId Sample.deletedPaymentId
           Sample.deletedPayment); reflexivity.
Defined.

(* ===================================================================== *)
(** * Login *)
(* ===================================================================== *)


Lemma login_finds_user st uid u email :
  Spec.uniqueEmails st ->
  users st !! uid = Some u ->
  Js.toLowerCase email = User.email u ->
  Query.findOne (users st) (AuthService.byEmail email) = Some (uid, u).
Proof.
  intros Hu Hk He. apply findOne_unique; auto.
  - unfold AuthService.byEmail. rewrite He. apply String.eqb_refl.
  - intros k' u' Hk' Hp. unfold AuthService.byEmail in Hp.
    apply String.eqb_eq in Hp. rewrite He in Hp. eauto.
Qed.



Lemma Sample_uniqueEmails : Spec.uniqueEmails Sample.store.
Proof.
  intros k1 k2 u1 u2 H1 H2 He. simpl in H1, H2.
  lookup_cases H1; lookup_cases H2; first [reflexivity | discriminate He].
Qed.





(** A login with the right password succeeds. *)
Example login_succeeds :
  AuthController.login Sample.compare Sample.sign "asha@example.org" "hash" Sample.store
  = mkResponse 200 true "Login successful".
Proof. reflexivity. Qed.

(* ===================================================================== *)
(** * Event attendees *)
(* ===================================================================== *)

Lemma countStatus_cons s a l :
  EventService.countStatus s (a :: l)
  = (if String.eqb (Attendee.attendanceStatus a) s then 1 else 0)
    + EventService.countStatus s l.
Proof.
  unfold EventService.countStatus. simpl.
  destruct (String.eqb (Attendee.attendanceStatus a) s); simpl length; lia.
Qed.

Lemma countStatus_partition (l : list Attendee.t) :
  Forall (fun a => In (Attendee.attendanceStatus a) Spec.attendanceStatuses) l ->
  Z.of_nat (length l)
  = EventService.countStatus "Attended" l
    + EventService.countStatus "No Show" l
    + EventService.countStatus "Registered" l.
Proof.
  induction 1 as [|a l Ha _ IH].
  - reflexivity.
  - rewrite !countStatus_cons. simpl length. rewrite Nat2Z.inj_succ, IH.
    destruct Ha as [<-|[<-|[<-|[]]]]; simpl; lia.
Qed.

(** C10.  For an active event whose attendees all carry one of the three
    values of the [attendanceStatus] enum, [getEventAttendees] returns the
    attendee list of the event with a summary in which [totalRegistered]
    is [attended + noShow + pending], the numbers of attendees with status
    "Attended", "No Show" and "Registered". *)
Theorem getEventAttendees_summary_partitions st eventId eid e :
  ObjectId.cast eventId = Some eid ->
  events st !! eid = Some e ->
  Event.isActive e = true ->
  Forall (fun a => In (Attendee.attendanceStatus a) Spec.attendanceStatuses)
         (Event.attendees e) ->
  exists r,
    EventService.getEventAttendees eventId st = Ok r
    /\ EventService.attendees r = Event.attendees e
    /\ EventService.attended (EventService.summary r)
       = EventService.countStatus "Attended" (Event.attendees e)
    /\ EventService.noShow (EventService.summary r)
       = EventService.countStatus "No Show" (Event.attendees e)
    /\ EventService.pending (EventService.summary r)
       = EventService.countStatus "Registered" (Event.attendees e)
    /\ EventService.totalRegistered (EventService.summary r)
       = EventService.attended (EventService.summary r)
         + EventService.noShow (EventService.summary r)
         + EventService.pending (EventService.summary r).
Proof.
  intros Hc He Ha Hall.
  unfold EventService.getEventAttendees, Query.findById.
  rewrite Hc, He, Ha. simpl.
  eexists. split; [reflexivity|]. simpl.
  repeat split. apply countStatus_partition, Hall.
Qed.

Lemma getEventAttendees_summary_partitions_witness :
  exists r,
    EventService.getEventAttendees Sample.pastEventId Sample.store = Ok r
    /\ EventService.totalRegistered (EventService.summary r) = 4
    /\ EventService.attended (EventService.summary r) = 2
    /\ EventService.noShow (EventService.summary r) = 1
    /\ EventService.pending (EventService.summary r) = 1.
Proof.
  destruct (getEventAttendees_summary_partitions
              Sample.store Sample.pastEventId Sample.pastEventId Sample.pastEvent)
    as (r & Hr & _ & _ & _ & _ & _).
  - reflexivity.
  - reflexivity.
  - reflexivity.
  - simpl. repeat (constructor; [solve_In|]). constructor.
  - exists r. split; [exact Hr|].
    injection Hr as <-. repeat split.
Defined.

(* ===================================================================== *)
(** * Zones *)
(* ===================================================================== *)

Lemma activeInZone_true zid k m :
  ZoneService.activeInZone zid k m = true <-> Member.zone m = zid /\ Member.isActive m = true.
Proof.
  unfold ZoneService.activeInZone.
  rewrite andb_true_iff, String.eqb_eq. reflexivity.
Qed.

Lemma countDocuments_zero {D} (coll : gmap string D) p :
  (forall k d, coll !! k = Some d -> p k d = false) -> Query.countDocuments coll p = 0.
Proof.
  intros H.
  destruct (Z.eq_dec (Query.countDocuments coll p) 0) as [E|E]; [exact E|].
  assert (Hpos : 0 < Query.countDocuments coll p)
    by (unfold Query.countDocuments in *; lia).
  apply countDocuments_pos in Hpos as (k & d & Hk & Hp).
  rewrite (H _ _ Hk) in Hp. discriminate.
Qed.

(** C7 (the code departs from the claim).  [DELETE /zones/:id] on an
    existing active zone.  When at least one member with [isActive = true]
    references the zone, the service throws a plain [Error] whose message
    is "Cannot delete zone. It has N active member(s). Please reassign or
    remove members first.", N the number of those members, and the store,
    with the zone's [isActive] flag, is as before; the error carries no
    [statusCode], so the request is answered with status 500 and not with
    a conflict status (400, as the route documents, or 409).  When no
    active member references the zone, the request is answered with 200
    "Zone deleted successfully", the zone stays in the store with
    [isActive = false] and nothing else changes. *)
Theorem deleteZone_blocked_responds_500 st zoneId zid zone :
  ObjectId.cast zoneId = Some zid ->
  zones st !! zid = Some zone ->
  Zone.isActive zone = true ->
  ((exists k m, members st !! k = Some m
                /\ Member.zone m = zid /\ Member.isActive m = true) ->
   exists n,
     0 < n
     /\ n = Query.countDocuments (members st) (ZoneService.activeInZone zid)
     /\ ZoneService.deleteZone zoneId st
        = (st, Throw (Js.mkError
                        "Error"
                        ("Cannot delete zone. It has " +:+ pretty n
                         +:+ " active member(s). Please reassign or remove members first.")
                        None None None None))
     /\ ZoneRoutes.delete_id zoneId st
        = (st, mkResponse
                 500 false
                 ("Cannot delete zone. It has " +:+ pretty n
                  +:+ " active member(s). Please reassign or remove members first."))
     /\ status (snd (ZoneRoutes.delete_id zoneId st)) <> HTTP_STATUS.BAD_REQUEST
     /\ status (snd (ZoneRoutes.delete_id zoneId st)) <> HTTP_STATUS.CONFLICT)
  /\ ((forall k m, members st !! k = Some m -> Member.zone m = zid ->
                   Member.isActive m = false) ->
      exists st' zone',
        ZoneService.deleteZone zoneId st = (st', Ok zone')
        /\ ZoneRoutes.delete_id zoneId st
           = (st', mkResponse 200 true "Zone deleted successfully")
        /\ zones st' !! zid = Some zone'
        /\ Zone.isActive zone' = false
        /\ Zone.name zone' = Zone.name zone
        /\ Zone.description zone' = Zone.description zone
        /\ (forall k, k <> zid -> zones st' !! k = zones st !! k)
        /\ members st' = members st).
Proof.
  intros Hc Hz Ha.
  assert (Hroute : ZoneRoutes.delete_id zoneId st = ZoneController.deleteZone zoneId st).
  { unfold ZoneRoutes.delete_id, Validators.zoneParamsSchema.
    rewrite (cast_isValid _ _ Hc). reflexivity. }
  rewrite Hroute. unfold ZoneController.deleteZone.
  split.
  - intros (k & m & Hk & Hzone & Hact).
    exists (Query.countDocuments (members st) (ZoneService.activeInZone zid)).
    assert (Hpos : 0 < Query.countDocuments (members st) (ZoneService.activeInZone zid)).
    { apply countDocuments_pos. exists k, m. split; [exact Hk|].
      apply activeInZone_true. auto. }
    split; [exact Hpos|]. split; [reflexivity|].
    assert (E : ZoneService.deleteZone zoneId st
                = (st, Throw (Js.mkError
                                "Error"
                                ("Cannot delete zone. It has "
                                 +:+ pretty (Query.countDocuments
                                               (members st) (ZoneService.activeInZone zid))
                                 +:+ " active member(s). Please reassign or remove members first.")
                                None None None None))).
    { unfold ZoneService.deleteZone. rewrite Hc, Hz, Ha. cbn [negb].
      apply Z.ltb_lt in Hpos. rewrite Hpos. reflexivity. }
    rewrite E. split; [reflexivity|].
    assert (R : respond (A := Zone.t) HTTP_STATUS.OK "Zone deleted successfully"
                  (Throw (Js.mkError
                            "Error"
                            ("Cannot delete zone. It has "
                             +:+ pretty (Query.countDocuments
                                           (members st) (ZoneService.activeInZone zid))
                             +:+ " active member(s). Please reassign or remove members first.")
                            None None None None))
                = mkResponse
                    500 false
                    ("Cannot delete zone. It has "
                     +:+ pretty (Query.countDocuments
                                   (members st) (ZoneService.activeInZone zid))
                     +:+ " active member(s). Please reassign or remove members first.")).
    { reflexivity. }
    rewrite R. cbn [snd status].
    split; [reflexivity|]. split; discriminate.
  - intros Hnone.
    assert (E : ZoneService.deleteZone zoneId st
                = (set_zones (insert zid (Zone.set_isActive false zone)) st,
                   Ok (Zone.set_isActive false zone))).
    { unfold ZoneService.deleteZone. rewrite Hc, Hz, Ha. cbn [negb].
      rewrite countDocuments_zero; [reflexivity|].
      intros k m Hk.
      destruct (ZoneService.activeInZone zid k m) eqn:E; [|reflexivity].
      apply activeInZone_true in E as [Hzone Hact].
      rewrite (Hnone _ _ Hk Hzone) in Hact. discriminate. }
    rewrite E. do 2 eexists. split; [reflexivity|]. split; [reflexivity|].
    cbn [zones members set_zones].
    split; [apply lookup_insert_eq|].
    repeat split. intros k Hne. apply lookup_insert_ne. congruence.
Qed.

Lemma deleteZone_blocked_responds_500_witness :
  ZoneRoutes.delete_id Sample.zoneId Sample.store
  = (Sample.store,
     mkResponse 500 false
                "Cannot delete zone. It has 2 active member(s). Please reassign or remove members first.")
  /\ (exists st' zone',
         ZoneService.deleteZone Sample.emptyZoneId Sample.store = (st', Ok zone')
         /\ ZoneRoutes.delete_id Sample.emptyZoneId Sample.store
            = (st', mkResponse 200 true "Zone deleted successfully")
         /\ zones st' !! Sample.emptyZoneId = Some zone'
         /\ Zone.isActive zone' = false).
Proof.
  split.
  - destruct (proj1 (deleteZone_blocked_responds_500
                       Sample.store Sample.zoneId Sample.zoneId Sample.zone
                       eq_refl eq_refl eq_refl))
      as (n & _ & Hn & _ & H & _).
    + exists Sample.memberId, Sample.member. repeat split.
    + rewrite H. rewrite Hn. vm_compute. reflexivity.
  - destruct (proj2 (deleteZone_blocked_responds_500
                       Sample.store Sample.emptyZoneId Sample.emptyZoneId Sample.emptyZone
                       eq_refl eq_refl eq_refl))
      as (st' & zone' & H1 & H2 & H3 & H4 & _).
    + intros k m Hk Hzone. simpl in Hk.
      lookup_cases Hk; first [reflexivity | discriminate Hzone].
    + exists st', zone'. auto.
Defined.

(* ===================================================================== *)
(** * Notifications *)
(* ===================================================================== *)

Lemma castAll_length l : forall oids,
  NotificationService.castAll l = Some oids -> length oids = length l.
Proof.
  induction l as [|s l IH]; simpl; intros oids H.
  - injection H as <-. reflexivity.
  - destruct (ObjectId.cast s); [|discriminate].
    destruct (NotificationService.castAll l) as [oids'|]; [|discriminate].
    injection H as <-. simpl. f_equal. apply IH. reflexivity.
Qed.

Lemma existsb_eqb_In (x : string) (l : list string) :
  existsb (String.eqb x) l = true <-> In x l.
Proof.
  rewrite existsb_exists. split.
  - intros (y & Hy & E). apply String.eqb_eq in E. subst. exact Hy.
  - intros H. exists x. split; [exact H | apply String.eqb_refl].
Qed.

(** The members a [$in] query finds are no more than the distinct ids asked
    for: with an id asked for twice, they are fewer than the ids. *)
Lemma find_targeted_lt (coll : gmap string Member.t) (oids : list ObjectId.t) :
  ~ List.NoDup oids ->
  (length (Query.find coll (NotificationService.targeted oids)) < length oids)%nat.
Proof.
  intros Hdup.
  set (found := Query.find coll (NotificationService.targeted oids)).
  destruct (Nat.lt_ge_cases (length found) (length oids)) as [Hlt|Hge]; [exact Hlt|].
  exfalso. apply Hdup.
  apply (@NoDup_incl_NoDup _ (List.map fst found) oids).
  - apply find_keys_NoDup.
  - rewrite length_map. exact Hge.
  - intros k Hin. apply in_map_iff in Hin as ([k' m] & <- & Hin).
    apply find_spec in Hin as [_ Hp]. simpl.
    unfold NotificationService.targeted in Hp.
    apply andb_true_iff in Hp as [Hp _]. apply existsb_eqb_In. exact Hp.
Qed.

(** C9.  When the target list of [createNotification] holds the id of the
    same active member at two positions, the call throws "One or more
    target members not found" and creates no notification, although every
    id of the list is the id of an existing active member. *)
Theorem createNotification_repeated_target_rejected
        newId data sentBy st targets (oids : list ObjectId.t) i j oid :
  NotificationService.targetMembers data = Some targets ->
  NotificationService.castAll targets = Some oids ->
  (forall o, In o oids ->
             exists m, members st !! o = Some m /\ Member.isActive m = true) ->
  i <> j -> oids !! i = Some oid -> oids !! j = Some oid ->
  NotificationService.createNotification newId data sentBy st
  = (st, Throw (Js.newError "One or more target members not found")).
Proof.
  intros Ht Hc _ Hij Hi Hj.
  unfold NotificationService.createNotification. rewrite Ht. simpl. rewrite Hc.
  assert (Hdup : ~ List.NoDup oids).
  { intros Hnd. apply NoDup_ListNoDup in Hnd.
    apply Hij. eapply NoDup_lookup; eauto. }
  pose proof (find_targeted_lt (members st) oids Hdup) as Hlt.
  pose proof (castAll_length _ _ Hc) as Hlen.
  assert (Hpos : (0 < length targets)%nat).
  { apply lookup_lt_Some in Hi. lia. }
  apply Nat.ltb_lt in Hpos. rewrite Hpos. simpl.
  destruct (Nat.eqb_spec (length (Query.find (members st)
                                            (NotificationService.targeted oids)))
                         (length targets)) as [E|E]; [lia|].
  reflexivity.
Qed.

Lemma createNotification_repeated_target_rejected_witness :
  let data :=
    NotificationService.mkData "Dues" "Your dues are pending" "Payment" None
                               (Some [Sample.memberId; Sample.memberIdUpper]) None in
  NotificationService.createNotification Sample.newId data Sample.adminId Sample.store
  = (Sample.store, Throw (Js.newError "One or more target members not found"))
  /\ notifications Sample.store = ∅.
Proof.
  split; [|reflexivity].
  apply (createNotification_repeated_target_rejected
           Sample.newId _ Sample.adminId Sample.store
           [Sample.memberId; Sample.memberIdUpper]
           [Sample.memberId; Sample.memberId] 0%nat 1%nat Sample.memberId);
    try reflexivity; try lia.
  intros o [<-|[<-|[]]]; exists Sample.member; split; reflexivity.
Defined.

(* ===================================================================== *)
(** * Payments *)
(* ===================================================================== *)

Lemma sameFrame_refl p : Spec.sameFrame p p.
Proof. unfold Spec.sameFrame. repeat split. Qed.

Lemma sameFrame_trans p q r : Spec.sameFrame p q -> Spec.sameFrame q r -> Spec.sameFrame p r.
Proof. unfold Spec.sameFrame. intuition congruence. Qed.

(** A key that [updatePaymentSchema] accepts is one of the three it names,
    with a string for value. *)
Lemma updatePaymentSchema_key_accepts key v :
  Validators.updatePaymentSchema_key (key, v) = [] ->
  (key = "status" \/ key = "transactionId" \/ key = "description")
  /\ exists s, v = Js.JStr s.
Proof.
  unfold Validators.updatePaymentSchema_key.
  destruct (String.eqb_spec key "status") as [->|_].
  { intros H. split; [auto|].
    destruct v; simpl in H; try discriminate. eauto. }
  destruct (String.eqb_spec key "transactionId") as [->|_].
  { intros H. split; [auto|].
    destruct v; simpl in H; try discriminate. eauto. }
  destruct (String.eqb_spec key "description") as [->|_].
  { intros H. split; [auto|].
    destruct v; simpl in H; try discriminate. eauto. }
  discriminate.
Qed.

Lemma updatePaymentSchema_accepts body :
  Validators.updatePaymentSchema body = [] ->
  Forall (fun kv => (fst kv = "status" \/ fst kv = "transactionId"
                     \/ fst kv = "description")
                    /\ exists s, snd kv = Js.JStr s) body.
Proof.
  unfold Validators.updatePaymentSchema.
  induction body as [|[key v] body IH]; simpl; intros H; constructor.
  - apply app_eq_nil in H as [H _]. simpl.
    apply updatePaymentSchema_key_accepts. exact H.
  - apply app_eq_nil in H as [_ H]. apply IH. exact H.
Qed.

Lemma assignPath_frame key s p :
  key = "status" \/ key = "transactionId" \/ key = "description" ->
  exists p', PaymentService.assignPath (key, Js.JStr s) p = Some p'
             /\ Spec.sameFrame p p'.
Proof.
  destruct p. intros [-> | [-> | ->]]; simpl; eexists; (split; [reflexivity|]);
    unfold Spec.sameFrame; simpl; repeat split.
Qed.

Lemma assign_frame body : forall p,
  Forall (fun kv => (fst kv = "status" \/ fst kv = "transactionId"
                     \/ fst kv = "description")
                    /\ exists s, snd kv = Js.JStr s) body ->
  exists p', PaymentService.assign body p = Some p' /\ Spec.sameFrame p p'.
Proof.
  induction body as [|[key v] body IH]; intros p H.
  - exists p. split; [reflexivity | apply sameFrame_refl].
  - inversion H as [|? ? [Hkey [s Hs]] Hrest]; subst. simpl in Hkey, Hs. subst v.
    destruct (assignPath_frame key s p Hkey) as (p1 & E1 & F1).
    destruct (IH p1 Hrest) as (p2 & E2 & F2).
    exists p2. split.
    + cbn [PaymentService.assign]. rewrite E1. exact E2.
    + eapply sameFrame_trans; eauto.
Qed.

Lemma framePreserved_refl st : Spec.framePreserved st st.
Proof.
  intros pid. destruct (payments st !! pid) as [p|] eqn:E; [|reflexivity].
  exists p. split; [reflexivity | apply sameFrame_refl].
Qed.

Lemma framePreserved_insert st pid p p' :
  payments st !! pid = Some p -> Spec.sameFrame p p' ->
  Spec.framePreserved st (set_payments (insert pid p') st).
Proof.
  intros Hp Hf k. simpl.
  destruct (decide (pid = k)) as [<-|Hne].
  - rewrite Hp. exists p'. split; [apply lookup_insert_eq | exact Hf].
  - rewrite lookup_insert_ne by exact Hne.
    destruct (payments st !! k) as [q|]; [|reflexivity].
    exists q. split; [reflexivity | apply sameFrame_refl].
Qed.

(** C8.  Whatever the payment id and the body of a request to update a
    payment, the request is answered, and every payment of the store is in
    the store after it with the same [paymentId], [member], [amount],
    [paymentType], [paymentMethod], [event], [receiptFile], [paymentDate],
    [processedBy] and [isActive]: at most [status], [transactionId] and
    [description] change, and no payment is added or removed. *)
Theorem updatePayment_changes_only_status_transactionId_description
        (id : string) (body : Validators.Body) (st : Store) :
  exists st' res,
    PaymentRoutes.put_id id body st = Some (st', res)
    /\ (forall pid p,
           payments st !! pid = Some p ->
           exists p', payments st' !! pid = Some p' /\ Spec.sameFrame p p')
    /\ (forall pid, payments st !! pid = None -> payments st' !! pid = None).
Proof.
  assert (H : exists st' res,
             PaymentRoutes.put_id id body st = Some (st', res) /\ Spec.framePreserved st st').
  { unfold PaymentRoutes.put_id.
    destruct (Validators.validate (Validators.paymentParamsSchema id)) as [res|].
    { exists st, res. split; [reflexivity | apply framePreserved_refl]. }
    destruct (Validators.updatePaymentSchema body) as [|msg msgs] eqn:Ev; simpl.
    2:{ do 2 eexists. split; [reflexivity | apply framePreserved_refl]. }
    apply updatePaymentSchema_accepts in Ev.
    unfold PaymentController.updatePayment, PaymentService.updatePayment.
    destruct (ObjectId.cast id) as [pid|].
    2:{ do 2 eexists. split; [reflexivity | apply framePreserved_refl]. }
    destruct (payments st !! pid) as [p|] eqn:Ep.
    2:{ do 2 eexists. split; [reflexivity | apply framePreserved_refl]. }
    destruct (Payment.isActive p); simpl.
    2:{ do 2 eexists. split; [reflexivity | apply framePreserved_refl]. }
    destruct (assign_frame body p Ev) as (p' & Ea & Hf). rewrite Ea.
    destruct (Payment.validate (Payment.modified p p') p').
    2:{ do 2 eexists. split; [reflexivity | apply framePreserved_refl]. }
    destruct (Query.findOne _ _).
    { do 2 eexists. split; [reflexivity | apply framePreserved_refl]. }
    do 2 eexists. split; [reflexivity|].
    apply framePreserved_insert with (p := p); assumption. }
  destruct H as (st' & res & E & Hf).
  exists st', res. split; [exact E|]. split.
  - intros pid p Hp. specialize (Hf pid). rewrite Hp in Hf. exact Hf.
  - intros pid Hp. specialize (Hf pid). rewrite Hp in Hf. exact Hf.
Qed.

(** The update does change what the request names. *)
Example updatePayment_sets_status :
  exists st' p',
    PaymentRoutes.put_id Sample.paymentId
                         [("status", Js.JStr "Completed");
                          ("transactionId", Js.JStr "TXN-1042")]
                         Sample.store
    = Some (st', mkResponse 200 true "Payment updated successfully")
    /\ payments st' !! Sample.paymentId = Some p'
    /\ Payment.status p' = "Completed"
    /\ Payment.transactionId p' = Some "TXN-1042"
    /\ Payment.amount p' = 500.
Proof. do 2 eexists. vm_compute. repeat split. Qed.

(** It is the validator that keeps the other fields out of reach: the
    service assigns whatever path its argument names. *)
Example updatePayment_service_assigns_any_path :
  exists st' p',
    PaymentService.updatePayment Sample.paymentId [("amount", Js.JNum 1)] Sample.store
    = Some (st', Ok p')
    /\ payments st' !! Sample.paymentId = Some p'
    /\ Payment.amount p' = 1.
Proof. do 2 eexists. vm_compute. repeat split. Qed.

(** A key outside of the three is refused before the service is called. *)
Example updatePayment_refuses_amount :
  option_map fst
    (PaymentRoutes.put_id Sample.paymentId [("amount", Js.JNum 1)] Sample.store)
  = Some Sample.store
  /\ option_map (fun r => status (snd r))
       (PaymentRoutes.put_id Sample.paymentId [("amount", Js.JNum 1)] Sample.store)
     = Some HTTP_STATUS.BAD_REQUEST.
Proof. split; reflexivity. Qed.

(* ===================================================================== *)
(** * Event registration *)
(* ===================================================================== *)

(** A registration that throws leaves the store as it was. *)
Lemma registerMemberForEvent_throw_unchanged now eventId memberId st st' err :
  EventService.registerMemberForEvent now eventId memberId st = (st', Throw err) ->
  st' = st.
Proof.
  unfold EventService.registerMemberForEvent.
  repeat match goal with
         | |- context [match ?x with _ => _ end] => destruct x
         end; intros H; inversion H; reflexivity.
Qed.

(** What a registration that succeeds has checked and done. *)
Lemma registerMemberForEvent_Ok_inv now eventId memberId st st' event' :
  EventService.registerMemberForEvent now eventId memberId st = (st', Ok event') ->
  exists eid mid event,
    ObjectId.cast eventId = Some eid
    /\ ObjectId.cast memberId = Some mid
    /\ events st !! eid = Some event
    /\ List.find (EventService.sameMember memberId) (Event.attendees event) = None
    /\ EventService.atCapacity event = false
    /\ event' = Event.set_attendees
                  (Event.attendees event ++ [EventService.newAttendee now mid event])%list
                  event
    /\ st' = set_events (insert eid event') st.
Proof.
  unfold EventService.registerMemberForEvent.
  destruct (ObjectId.cast eventId) as [eid|]; [|intros H; inversion H].
  destruct (ObjectId.cast memberId) as [mid|]; [|intros H; inversion H].
  destruct (events st !! eid) as [event|] eqn:Ee; [|intros H; inversion H].
  destruct (negb (Event.isActive event)); [intros H; inversion H|].
  destruct (match members st !! mid with
            | Some member => negb (Member.isActive member)
            | None => true
            end); [intros H; inversion H|].
  destruct (negb (Event.status event =? "Upcoming")%string); [intros H; inversion H|].
  destruct (List.find _ _) eqn:Ef; [intros H; inversion H|].
  destruct (EventService.atCapacity event) eqn:Ec; [intros H; inversion H|].
  intros H. inversion H; subst.
  exists eid, mid, event. repeat split; auto.
Qed.

(** The capacity invariant is kept by every registration. *)
Lemma registerMemberForEvent_withinCapacity now eventId memberId st st' event' eid event :
  ObjectId.cast eventId = Some eid ->
  events st !! eid = Some event ->
  Spec.withinCapacity event ->
  EventService.registerMemberForEvent now eventId memberId st = (st', Ok event') ->
  Spec.withinCapacity event' /\ events st' !! eid = Some event'.
Proof.
  intros Hc He Hcap H.
  apply registerMemberForEvent_Ok_inv in H
    as (eid' & mid & event0 & Hc' & _ & He' & _ & Hat & -> & ->).
  rewrite Hc in Hc'. injection Hc' as <-. rewrite He in He'. injection He' as <-.
  split; [|apply lookup_insert_eq].
  intros n Hn Hn0. simpl in *.
  unfold EventService.atCapacity, truthyNumber in Hat. rewrite Hn in Hat.
  destruct (Z.eqb_spec n 0) as [|_]; [contradiction|]. simpl in Hat.
  apply Z.leb_gt in Hat. rewrite length_app. simpl. lia.
Qed.

(** At capacity, with a member that is not yet among the attendees, the
    registration is refused and the attendee list stays as it is. *)
Lemma registerMemberForEvent_at_capacity now eventId memberId st eid mid event member n :
  ObjectId.cast eventId = Some eid ->
  ObjectId.cast memberId = Some mid ->
  events st !! eid = Some event -> Event.isActive event = true ->
  members st !! mid = Some member -> Member.isActive member = true ->
  Event.status event = "Upcoming" ->
  List.find (EventService.sameMember memberId) (Event.attendees event) = None ->
  Event.maxAttendees event = Some n -> n <> 0 ->
  n <= Z.of_nat (length (Event.attendees event)) ->
  EventService.registerMemberForEvent now eventId memberId st
  = (st, Throw (Js.newError "Event is at maximum capacity")).
Proof.
  intros Hce Hcm He Hea Hm Hma Hs Hf Hn Hn0 Hle.
  unfold EventService.registerMemberForEvent.
  rewrite Hce, Hcm, He, Hea, Hm, Hma, Hs, Hf. simpl.
  unfold EventService.atCapacity, truthyNumber. rewrite Hn.
  destruct (Z.eqb_spec n 0) as [|_]; [contradiction|]. simpl.
  apply Z.leb_le in Hle. rewrite Hle. reflexivity.
Qed.

(** The first three checks, in their order. *)
Lemma registerMemberForEvent_first_checks now eventId memberId st eid mid :
  ObjectId.cast eventId = Some eid ->
  ObjectId.cast memberId = Some mid ->
  ((events st !! eid = None
    \/ exists e, events st !! eid = Some e /\ Event.isActive e = false) ->
   EventService.registerMemberForEvent now eventId memberId st
   = (st, Throw (Js.newError "Event not found")))
  /\ (forall e,
         events st !! eid = Some e -> Event.isActive e = true ->
         ((members st !! mid = None
           \/ exists m, members st !! mid = Some m /\ Member.isActive m = false) ->
          EventService.registerMemberForEvent now eventId memberId st
          = (st, Throw (Js.newError "Member not found")))
         /\ (forall m,
                members st !! mid = Some m -> Member.isActive m = true ->
                Event.status e <> "Upcoming" ->
                EventService.registerMemberForEvent now eventId memberId st
                = (st, Throw (Js.newError "Event is not accepting registrations")))).
Proof.
  intros Hce Hcm. unfold EventService.registerMemberForEvent. rewrite Hce, Hcm.
  split.
  - intros [->|(e & -> & ->)]; reflexivity.
  - intros e -> ->. simpl. split.
    + intros [->|(m & -> & ->)]; reflexivity.
    + intros m -> -> Hs. simpl.
      apply String.eqb_neq in Hs. rewrite Hs. reflexivity.
Qed.

(** A registration that passes the five checks appends one attendee:
    "Registered", and "Pending" when the event has a fee, "Paid" when it
    has none. *)
Lemma registerMemberForEvent_success now eventId memberId st eid mid e m :
  ObjectId.cast eventId = Some eid ->
  ObjectId.cast memberId = Some mid ->
  events st !! eid = Some e -> Event.isActive e = true ->
  members st !! mid = Some m -> Member.isActive m = true ->
  Event.status e = "Upcoming" ->
  List.find (EventService.sameMember memberId) (Event.attendees e) = None ->
  EventService.atCapacity e = false ->
  exists st' e',
    EventService.registerMemberForEvent now eventId memberId st = (st', Ok e')
    /\ events st' !! eid = Some e'
    /\ Event.attendees e'
       = (Event.attendees e
          ++ [Attendee.mk mid now "Registered"
                          (if 0 <? Event.registrationFee e then "Pending" else "Paid")])%list.
Proof.
  intros Hce Hcm He Hea Hm Hma Hs Hf Hcap.
  unfold EventService.registerMemberForEvent.
  rewrite Hce, Hcm, He, Hea, Hm, Hma, Hs, Hf, Hcap. simpl.
  do 2 eexists. split; [reflexivity|]. split; [apply lookup_insert_eq | reflexivity].
Qed.

Lemma find_sameMember_None memberId l :
  List.find (EventService.sameMember memberId) l = None ->
  ~ In memberId (List.map Attendee.member l).
Proof.
  induction l as [|a l IH]; simpl; [tauto|].
  unfold EventService.sameMember at 1, ObjectId.toString.
  destruct (String.eqb_spec (Attendee.member a) memberId) as [|Hne]; [discriminate|].
  intros Hf [E|Hin]; [contradiction | exact (IH Hf Hin)].
Qed.

Lemma find_sameMember_Some memberId l :
  In memberId (List.map Attendee.member l) ->
  exists a, List.find (EventService.sameMember memberId) l = Some a.
Proof.
  induction l as [|a l IH]; simpl; [tauto|].
  unfold EventService.sameMember at 1, ObjectId.toString.
  destruct (String.eqb_spec (Attendee.member a) memberId) as [|Hne]; [eauto|].
  intros [E|Hin]; [contradiction | exact (IH Hin)].
Qed.

(** With the member id in the spelling [toString()] gives it (lowercase
    digits), a member that is among the attendees is refused, and a
    registration keeps the member references distinct. *)
Lemma registerMemberForEvent_lowercase_duplicate now eventId memberId st eid event member :
  ObjectId.cast eventId = Some eid ->
  ObjectId.cast memberId = Some memberId ->
  events st !! eid = Some event -> Event.isActive event = true ->
  members st !! memberId = Some member -> Member.isActive member = true ->
  Event.status event = "Upcoming" ->
  Spec.registered memberId event ->
  EventService.registerMemberForEvent now eventId memberId st
  = (st, Throw (Js.newError "Member is already registered for this event")).
Proof.
  intros Hce Hcm He Hea Hm Hma Hs Hreg.
  unfold EventService.registerMemberForEvent.
  rewrite Hce, Hcm, He, Hea, Hm, Hma, Hs. simpl.
  destruct (find_sameMember_Some _ _ Hreg) as [a ->]. reflexivity.
Qed.

Lemma registerMemberForEvent_lowercase_unique now eventId memberId st st' event' eid event :
  ObjectId.cast eventId = Some eid ->
  ObjectId.cast memberId = Some memberId ->
  events st !! eid = Some event ->
  Spec.uniqueAttendees event ->
  EventService.registerMemberForEvent now eventId memberId st = (st', Ok event') ->
  Spec.uniqueAttendees event'.
Proof.
  intros Hc Hcm He Hu H.
  apply registerMemberForEvent_Ok_inv in H
    as (eid' & mid & event0 & Hc' & Hcm' & He' & Hf & _ & -> & _).
  rewrite Hc in Hc'. injection Hc' as <-. rewrite He in He'. injection He' as <-.
  rewrite Hcm in Hcm'. injection Hcm' as <-.
  unfold Spec.uniqueAttendees in *. simpl.
  rewrite map_app. simpl.
  apply NoDup_ListNoDup, NoDup_app. apply NoDup_ListNoDup in Hu.
  split; [exact Hu|]. split.
  - intros x Hx Hx'. apply list_elem_of_In in Hx. apply list_elem_of_In in Hx'.
    destruct Hx' as [<-|[]]. exact (find_sameMember_None _ _ Hf Hx).
  - apply NoDup_singleton.
Qed.

(** C3 (the code departs from the claim).  Registering twice the member
    whose id is sent with uppercase hexadecimal digits succeeds twice: the
    event then holds the same member reference two times in its attendees,
    and the attendee count went from one to two.  The check for an existing
    attendee compares [attendee.member.toString()], which is in lowercase,
    with the id as it was sent. *)
Theorem registerMemberForEvent_same_member_twice :
  let first :=
    EventService.registerMemberForEvent Sample.today Sample.eventId Sample.memberIdUpper
                                        Sample.store in
  let second :=
    EventService.registerMemberForEvent Sample.today Sample.eventId Sample.memberIdUpper
                                        (fst first) in
  exists event1 event2,
    snd first = Ok event1
    /\ Spec.uniqueAttendees event1
    /\ snd second = Ok event2
    /\ events (fst second) !! Sample.eventId = Some event2
    /\ List.map Attendee.member (Event.attendees event2)
       = [Sample.memberId; Sample.memberId]
    /\ ~ Spec.uniqueAttendees event2.
Proof.
  simpl. do 2 eexists.
  split; [vm_compute; reflexivity|].
  split; [unfold Spec.uniqueAttendees; simpl; repeat constructor; simpl; tauto|].
  split; [vm_compute; reflexivity|].
  split; [vm_compute; reflexivity|].
  split; [reflexivity|].
  unfold Spec.uniqueAttendees. simpl. intros H.
  inversion H as [|? ? Hnotin _]. apply Hnotin. left. reflexivity.
Qed.

(** C4 (the code departs from the claim).  A member that is in the
    attendees list of the event is registered again, without the error
    "Member is already registered for this event", when its id is sent with
    uppercase hexadecimal digits; the checks on event and member, which go
    through [findById], take that spelling for the same member. *)
Theorem registerMemberForEvent_accepts_registered_member :
  let first :=
    EventService.registerMemberForEvent Sample.today Sample.eventId Sample.memberId
                                        Sample.store in
  let second :=
    EventService.registerMemberForEvent Sample.today Sample.eventId Sample.memberIdUpper
                                        (fst first) in
  exists event1 event2,
    events (fst first) !! Sample.eventId = Some event1
    /\ Spec.registered Sample.memberId event1
    /\ ObjectId.cast Sample.memberIdUpper = Some Sample.memberId
    /\ snd second = Ok event2
    /\ length (Event.attendees event2) = 2%nat
    /\ snd (EventService.registerMemberForEvent Sample.today Sample.eventId Sample.memberId
                                                (fst first))
       = Throw (Js.newError "Member is already registered for this event").
Proof.
  simpl. do 2 eexists.
  split; [vm_compute; reflexivity|].
  split; [left; reflexivity|].
  split; [reflexivity|].
  split; [vm_compute; reflexivity|].
  split; reflexivity.
Qed.

(** After any sequence of registrations, whatever the ids sent, every event
    of the store is within its capacity, when every event was so before. *)
Lemma registerMemberForEvent_allWithinCapacity now eventId memberId st :
  Spec.allWithinCapacity st ->
  Spec.allWithinCapacity (fst (EventService.registerMemberForEvent now eventId memberId st)).
Proof.
  intros Hall.
  destruct (EventService.registerMemberForEvent now eventId memberId st)
    as [st' [event'|err]] eqn:E; simpl.
  - pose proof E as Hinv.
    apply registerMemberForEvent_Ok_inv in Hinv
      as (eid & mid & event & Hc & _ & He & _ & _ & _ & Hst).
    destruct (registerMemberForEvent_withinCapacity
                _ _ _ _ _ _ _ _ Hc He (Hall _ _ He) E) as [Hcap _].
    intros k e Hk. subst st'. simpl in Hk.
    apply lookup_insert_Some in Hk as [[_ <-]|[_ Hk]]; [exact Hcap | eauto].
  - apply registerMemberForEvent_throw_unchanged in E. subst. exact Hall.
Qed.

Lemma registerAll_allWithinCapacity now calls : forall st,
  Spec.allWithinCapacity st -> Spec.allWithinCapacity (Spec.registerAll now calls st).
Proof.
  unfold Spec.registerAll.
  induction calls as [|c calls IH]; intros st Hall; simpl; [exact Hall|].
  apply IH, registerMemberForEvent_allWithinCapacity, Hall.
Qed.

(* ===================================================================== *)
(** * The sweep of expired memberships *)
(* ===================================================================== *)

(** C2 (the code departs from the claim).  The class [MemberService] has no
    method [updateExpiredMembers]; the controller method of that name calls
    it all the same, the call throws a [TypeError], and the request is
    answered with status 500: no member is updated and no count is
    returned.  In the sample store the member whose renewal date lies in
    the past keeps the status "Active". *)
Theorem updateExpiredMembers_is_not_a_function :
  ~ In "updateExpiredMembers" MemberService.methods
  /\ (forall st,
         MemberController.updateExpiredMembers st
         = (st, mkResponse 500 false
                           "MemberService.updateExpiredMembers is not a function"))
  /\ members Sample.store !! Sample.memberId = Some Sample.member
  /\ lapsed Sample.today Sample.member = true
  /\ members (fst (MemberController.updateExpiredMembers Sample.store)) !! Sample.memberId
     = Some Sample.member
  /\ Member.status Sample.member = "Active".
Proof.
  split.
  { simpl. intros H. repeat (destruct H as [H|H]; [discriminate H|]). exact H. }
  split; [intros st; reflexivity|].
  repeat split.
Qed.

(* ===================================================================== *)
(** * Renewal *)
(* ===================================================================== *)

Lemma addDays_within k : forall y m d t,
  d + Z.of_nat k <= JsDate.daysInMonth y m ->
  JsDate.addDays k (JsDate.mk y m d t) = JsDate.mk y m (d + Z.of_nat k) t.
Proof.
  induction k as [|k IH]; intros y m d t H.
  - simpl. f_equal. lia.
  - cbn [JsDate.addDays]. unfold JsDate.nextDay. simpl.
    destruct (Z.ltb_spec d (JsDate.daysInMonth y m)) as [_|Hge]; [|lia].
    rewrite IH by lia. f_equal. lia.
Qed.

(** When the day of the month exists in the month that [setMonth] is given,
    the date moves to that month and keeps its day and time. *)
Lemma setMonth_same_day (d : JsDate.t) (m : Z) :
  1 <= JsDate.date d ->
  JsDate.date d <= JsDate.daysInMonth (JsDate.fullYear d + m / 12) (m mod 12) ->
  JsDate.setMonth d m
  = JsDate.mk (JsDate.fullYear d + m / 12) (m mod 12) (JsDate.date d)
              (JsDate.timeWithinDay d).
Proof.
  intros H1 H2. unfold JsDate.setMonth, JsDate.makeDay.
  rewrite addDays_within by lia. f_equal. lia.
Qed.

Lemma plusMonths_fields (d : JsDate.t) (n : Z) :
  Spec.plusMonths d n
  = JsDate.mk (JsDate.fullYear d + (JsDate.month d + n) / 12)
              ((JsDate.month d + n) mod 12) (JsDate.date d) (JsDate.timeWithinDay d).
Proof.
  unfold Spec.plusMonths, JsDate.monthIndex.
  replace (JsDate.fullYear d * 12 + JsDate.month d + n)
    with (JsDate.fullYear d * 12 + (JsDate.month d + n)) by lia.
  assert (E1 : (JsDate.fullYear d * 12 + (JsDate.month d + n)) / 12
               = JsDate.fullYear d + (JsDate.month d + n) / 12)
    by (rewrite Z.div_add_l by lia; reflexivity).
  assert (E2 : (JsDate.fullYear d * 12 + (JsDate.month d + n)) mod 12
               = (JsDate.month d + n) mod 12)
    by (rewrite Z.add_comm, Z.mod_add by lia; reflexivity).
  rewrite E1, E2. reflexivity.
Qed.

Lemma monthIndex_plusMonths (d : JsDate.t) (n : Z) :
  JsDate.monthIndex (Spec.plusMonths d n) = JsDate.monthIndex d + n.
Proof.
  unfold Spec.plusMonths, JsDate.monthIndex at 1. simpl.
  pose proof (Z.div_mod (JsDate.monthIndex d + n) 12). lia.
Qed.

(** [setMonth(getMonth() + n)] is the date [n] calendar months later, when
    that month has the day of the month. *)
Lemma setMonth_plusMonths (d : JsDate.t) (n : Z) :
  1 <= JsDate.date d ->
  JsDate.date d <= JsDate.daysInMonth (JsDate.fullYear (Spec.plusMonths d n))
                                      (JsDate.month (Spec.plusMonths d n)) ->
  JsDate.setMonth d (JsDate.getMonth d + n) = Spec.plusMonths d n.
Proof.
  rewrite plusMonths_fields. simpl. intros H1 H2.
  unfold JsDate.getMonth. apply setMonth_same_day; assumption.
Qed.

Lemma daysInMonth_ge_28 y m : 28 <= JsDate.daysInMonth y m.
Proof.
  unfold JsDate.daysInMonth.
  repeat match goal with |- context [if ?b then _ else _] => destruct b end; lia.
Qed.

Lemma upperChar_idem c : Js.upperChar (Js.upperChar c) = Js.upperChar c.
Proof. destruct c as [[] [] [] [] [] [] [] []]; reflexivity. Qed.

Lemma toUpperCase_idem s : Js.toUpperCase (Js.toUpperCase s) = Js.toUpperCase s.
Proof. induction s as [|c s IH]; simpl; [reflexivity|]. rewrite upperChar_idem, IH. reflexivity. Qed.

(** The identifiers that [generatePaymentId] returns are in upper case. *)
Lemma generatePaymentId_upper seed :
  Js.toUpperCase (Helpers.generatePaymentId seed) = Helpers.generatePaymentId seed.
Proof. unfold Helpers.generatePaymentId, Helpers.generateId. apply toUpperCase_idem. Qed.

Lemma generatePaymentId_not_empty seed :
  String.eqb (Helpers.generatePaymentId seed) EmptyString = false.
Proof. reflexivity. Qed.

(** The loop that draws the payment identifier ends on the first
    identifier generated that no payment has. *)
Lemma uniquePaymentId_terminates st seeds :
  Spec.someFreeSeed st seeds ->
  exists seed,
    MemberService.uniquePaymentId (payments st) seeds
    = Some (Helpers.generatePaymentId seed)
    /\ In seed seeds
    /\ Spec.freePaymentId st (Helpers.generatePaymentId seed).
Proof.
  unfold Spec.someFreeSeed.
  induction seeds as [|g seeds IH]; intros (c & Hin & Hfree); [destruct Hin|].
  cbn [MemberService.uniquePaymentId].
  destruct (Query.findOne (payments st)
              (MemberService.byPaymentId (Helpers.generatePaymentId g)))
    as [[k p]|] eqn:E.
  - destruct Hin as [->|Hin].
    + apply findOne_Some_inv in E as [Hk Hp].
      unfold MemberService.byPaymentId in Hp. apply String.eqb_eq in Hp.
      rewrite generatePaymentId_upper in Hp.
      destruct (Hfree _ _ Hk Hp).
    + destruct IH as (seed & H1 & H2 & H3); [exists c; split; assumption|].
      exists seed. split; [exact H1|]. split; [right; exact H2 | exact H3].
  - exists g. split; [reflexivity|]. split; [left; reflexivity|].
    intros k p Hk Heq.
    unfold Query.findOne in E.
    destruct (Query.find (payments st)
                (MemberService.byPaymentId (Helpers.generatePaymentId g)))
      as [|x l] eqn:E'; [|discriminate].
    assert (Hin' : In (k, p) (Query.find (payments st)
                                (MemberService.byPaymentId (Helpers.generatePaymentId g)))).
    { apply find_spec. split; [exact Hk|].
      unfold MemberService.byPaymentId. rewrite generatePaymentId_upper.
      apply String.eqb_eq. exact Heq. }
    rewrite E' in Hin'. destruct Hin'.
Qed.

Lemma validate_renewal_payment seed mid amount method tid now processedBy desc :
  0 <= amount ->
  In method Payment.paymentMethods ->
  Payment.validate (fun _ => true)
    (Payment.mk (Js.toUpperCase (Helpers.generatePaymentId seed)) mid
                amount "Membership Fee" method "Completed"
                tid desc None None now processedBy true)
  = [].
Proof.
  intros Hamount Hmethod.
  unfold Payment.validate.
  cbn [Payment.paymentId Payment.amount Payment.paymentType Payment.paymentMethod
       Payment.status andb].
  rewrite generatePaymentId_upper, generatePaymentId_not_empty.
  destruct (Z.ltb_spec amount 0) as [|_]; [lia|].
  assert (E : Payment.inb method Payment.paymentMethods = true)
    by (apply existsb_eqb_In; exact Hmethod).
  rewrite E. reflexivity.
Qed.

(** Renewing for one month, the period sent as a number, a membership
    whose renewal date is 2024-01-31 gives 2024-03-02, which is not the
    same day one calendar month later and not even a day of the following
    month; [setMonth] carries the days that February lacks over into
    March. *)
Lemma renewMembership_month_end_overflows :
  exists st' r,
    MemberService.renewMembership Sample.env Sample.monthEndMemberId Sample.oneMonth
                                  Sample.adminId Sample.store
    = Some (st', Ok r)
    /\ MemberService.previousRenewalDate r = Sample.day 2024 0 31
    /\ MemberService.newRenewalDate r = Sample.day 2024 2 2
    /\ MemberService.newRenewalDate r
       <> Spec.plusMonths (MemberService.previousRenewalDate r) 1
    /\ JsDate.monthIndex (MemberService.newRenewalDate r)
       <> JsDate.monthIndex (MemberService.previousRenewalDate r) + 1.
Proof.
  do 2 eexists. split; [vm_compute; reflexivity|].
  split; [reflexivity|]. split; [reflexivity|].
  split; vm_compute; discriminate.
Qed.

(** A renewal for a member that is missing or has [isActive = false] is
    answered with status 500 and the message "Member not found", where
    the route documents 404: the service throws a plain [Error]. *)
Lemma renewMembership_missing_member_responds_500 env memberId mid rd processedBy st :
  ObjectId.cast memberId = Some mid ->
  (members st !! mid = None
   \/ exists m, members st !! mid = Some m /\ Member.isActive m = false) ->
  MemberService.renewMembership env memberId rd processedBy st
  = Some (st, Throw (Js.newError "Member not found"))
  /\ MemberController.renewMembership env memberId rd processedBy st
     = Some (st, mkResponse 500 false "Member not found").
Proof.
  intros Hc H.
  assert (E : MemberService.renewMembership env memberId rd processedBy st
              = Some (st, Throw (Js.newError "Member not found"))).
  { unfold MemberService.renewMembership. rewrite Hc.
    destruct H as [Hnone|(m & Hm & Ha)]; [rewrite Hnone | rewrite Hm, Ha]; reflexivity. }
  split; [exact E|].
  unfold MemberController.renewMembership. rewrite E. reflexivity.
Qed.

(** Where the new renewal date is the previous one plus the period in
    calendar months.  For a
    renewal request that the validator accepts and whose [renewalPeriod]
    is the JSON number [n], on a member id in the form of an ObjectId and
    a member that exists with [isActive = true]: when the day of the month
    of the renewal date exists in the month [n] months later (as 15 does
    for 2024-01-15 and 3 months, and as every day up to 28 does), the call
    returns [{member, payment, previousRenewalDate, newRenewalDate}] where
    [newRenewalDate] is the previous renewal date plus [n] calendar
    months, the payment has type "Membership Fee", status "Completed", the
    amount of the request and the member as its member, and is added to
    the payments, and the stored member has status "Active" and the new
    renewal date. *)
Lemma renewMembership_adds_calendar_months
      (env : MemberService.Env) (memberId : string) (mid : ObjectId.t)
      (rd : MemberService.RenewalData) (n : Z) (processedBy : ObjectId.t) (st : Store) :
  ObjectId.cast memberId = Some mid ->
  Spec.validRenewal rd n ->
  payments st !! MemberService.newPaymentOid env = None ->
  Spec.someFreeSeed st (MemberService.seeds env) ->
  forall m,
    members st !! mid = Some m ->
    Member.isActive m = true ->
    JsDate.valid (Member.renewalDate m) ->
    let target := Spec.plusMonths (Member.renewalDate m) n in
    JsDate.date (Member.renewalDate m)
    <= JsDate.daysInMonth (JsDate.fullYear target) (JsDate.month target) ->
    exists st' r,
      MemberService.renewMembership env memberId rd processedBy st
      = Some (st', Ok r)
      /\ MemberService.previousRenewalDate r = Member.renewalDate m
      /\ MemberService.newRenewalDate r = target
      /\ JsDate.monthIndex (MemberService.newRenewalDate r)
         = JsDate.monthIndex (Member.renewalDate m) + n
      /\ JsDate.date (MemberService.newRenewalDate r)
         = JsDate.date (Member.renewalDate m)
      /\ Payment.paymentType (MemberService.payment r) = "Membership Fee"
      /\ Payment.status (MemberService.payment r) = "Completed"
      /\ Payment.amount (MemberService.payment r) = MemberService.paymentAmount rd
      /\ Payment.member (MemberService.payment r) = mid
      /\ Spec.freePaymentId st (Payment.paymentId (MemberService.payment r))
      /\ payments st' = <[MemberService.newPaymentOid env := MemberService.payment r]>
                          (payments st)
      /\ (forall k p, payments st !! k = Some p -> payments st' !! k = Some p)
      /\ Member.status (MemberService.member r) = "Active"
      /\ Member.renewalDate (MemberService.member r) = target
      /\ Member.isActive (MemberService.member r) = true
      /\ members st' = <[mid := MemberService.member r]> (members st).
Proof.
  intros Hc (Hp & _ & Hamount & Hmethod) Hfresh Hgen m Hm Ha [_ [Hday _]] target Hfits.
  unfold MemberService.renewMembership. rewrite Hc, Hm, Ha, Hp.
  cbn [negb Js.plus Js.toNumber Js.toString].
  destruct (uniquePaymentId_terminates st _ Hgen) as (seed & -> & _ & Hfree).
  rewrite validate_renewal_payment by assumption.
  rewrite setMonth_plusMonths by assumption. fold target.
  do 2 eexists. split; [reflexivity|].
  cbn [MemberService.previousRenewalDate MemberService.newRenewalDate
       MemberService.payment MemberService.member
       Payment.paymentType Payment.status Payment.amount Payment.member
       Payment.paymentId Member.status Member.renewalDate Member.isActive
       Member.set_status Member.set_renewalDate
       payments members set_payments set_members].
  split; [reflexivity|]. split; [reflexivity|].
  split; [apply monthIndex_plusMonths|].
  split; [reflexivity|].
  do 4 (split; [reflexivity|]).
  split; [rewrite generatePaymentId_upper; exact Hfree|].
  split; [reflexivity|].
  split.
  { intros k p Hk. rewrite lookup_insert_ne; [exact Hk|].
    intros E. rewrite <- E, Hfresh in Hk. discriminate Hk. }
  do 2 (split; [reflexivity|]).
  split; [exact Ha | reflexivity].
Qed.

Lemma Sample_someFreeSeed : Spec.someFreeSeed Sample.store (MemberService.seeds Sample.env).
Proof.
  exists Sample.freeSeed. split; [solve_In|].
  intros k p Hk. simpl in Hk. lookup_cases Hk; discriminate.
Qed.

Lemma renewMembership_adds_calendar_months_witness :
  exists st' r,
    MemberService.renewMembership Sample.env Sample.memberId Sample.quarter
                                  Sample.adminId Sample.store
    = Some (st', Ok r)
    /\ MemberService.previousRenewalDate r = Sample.day 2024 0 15
    /\ MemberService.newRenewalDate r = Sample.day 2024 3 15
    /\ Payment.amount (MemberService.payment r) = 1500
    /\ Member.status (MemberService.member r) = "Active".
Proof.
  assert (Hvalid : Spec.validRenewal Sample.quarter 3).
  { unfold Spec.validRenewal. simpl. split; [reflexivity|]. split; [lia|].
    split; [lia|]. solve_In. }
  destruct (renewMembership_adds_calendar_months
              Sample.env Sample.memberId Sample.memberId
              Sample.quarter 3 Sample.adminId Sample.store
              eq_refl Hvalid eq_refl Sample_someFreeSeed
              Sample.member eq_refl eq_refl)
    as (st' & r & H1 & H2 & H3 & _ & _ & _ & _ & H4 & _ & _ & _ & _ & H5 & _).
  - unfold JsDate.valid. vm_compute. repeat split; discriminate.
  - vm_compute. discriminate.
  - exists st', r. repeat split; assumption.
Defined.

(** The numeral of a month (0 to 11) followed by the numeral of a period
    (1 to 60) reads as the month shifted by one or two decimal places
    plus the period. *)
Lemma numberOfString_month_numeral m n :
  0 <= m <= 11 -> 1 <= n <= 60 ->
  Js.numberOfString (pretty m +:+ pretty n)
  = Some (m * (if n <? 10 then 10 else 100) + n).
Proof.
  intros Hm Hn.
  assert (H : forallb
                (fun m =>
                   forallb
                     (fun n =>
                        match Js.numberOfString (pretty m +:+ pretty n) with
                        | Some v => v =? m * (if n <? 10 then 10 else 100) + n
                        | None => false
                        end)
                     (seqZ 1 60))
                (seqZ 0 12) = true) by (vm_compute; reflexivity).
  rewrite forallb_forall in H.
  assert (Him : In m (seqZ 0 12)) by (apply list_elem_of_In, elem_of_seqZ; lia).
  specialize (H m Him). rewrite forallb_forall in H.
  assert (Hin : In n (seqZ 1 60)) by (apply list_elem_of_In, elem_of_seqZ; lia).
  specialize (H n Hin).
  destruct (Js.numberOfString (pretty m +:+ pretty n)) as [v|]; [|discriminate H].
  apply Z.eqb_eq in H. rewrite H. reflexivity.
Qed.

(** C1 (the code departs from the claim).  [validate(renewMembershipSchema)]
    accepts a [renewalPeriod] sent as a string that holds a numeral, such
    as "3", and leaves the body as it is; [getMonth() + "3"] is then a
    concatenation and [setMonth] is given the number that the two numerals
    side by side denote.  For a member that exists with [isActive = true],
    whose renewal date is in a month other than January and on a day up to
    28, and a period of [n] months (1 to 60) sent as its numeral, the call
    succeeds, is answered with 200 "Membership renewed successfully", and
    stores as the new renewal date the date [month * 10 + n] months (for
    [n] below 10, [month * 100 + n] otherwise) after January of the year
    of the previous date, which is not the previous renewal date plus [n]
    calendar months. *)
Theorem renewMembership_string_period_concatenates
        (env : MemberService.Env) (memberId : string) (mid : ObjectId.t)
        (rd : MemberService.RenewalData) (n : Z) (processedBy : ObjectId.t) (st : Store)
        (m : Member.t) :
  ObjectId.cast memberId = Some mid ->
  Spec.numeralRenewal rd n ->
  Spec.someFreeSeed st (MemberService.seeds env) ->
  members st !! mid = Some m ->
  Member.isActive m = true ->
  JsDate.valid (Member.renewalDate m) ->
  1 <= JsDate.month (Member.renewalDate m) ->
  JsDate.date (Member.renewalDate m) <= 28 ->
  let previous := Member.renewalDate m in
  let months := JsDate.month previous * (if n <? 10 then 10 else 100) + n in
  exists st' r,
    MemberService.renewMembership env memberId rd processedBy st = Some (st', Ok r)
    /\ MemberController.renewMembership env memberId rd processedBy st
       = Some (st', mkResponse 200 true "Membership renewed successfully")
    /\ MemberService.previousRenewalDate r = previous
    /\ MemberService.newRenewalDate r
       = JsDate.mk (JsDate.fullYear previous + months / 12) (months mod 12)
                   (JsDate.date previous) (JsDate.timeWithinDay previous)
    /\ JsDate.monthIndex (MemberService.newRenewalDate r)
       = JsDate.fullYear previous * 12 + months
    /\ JsDate.monthIndex (MemberService.newRenewalDate r)
       <> JsDate.monthIndex previous + n
    /\ MemberService.newRenewalDate r <> Spec.plusMonths previous n
    /\ members st' !! mid = Some (MemberService.member r)
    /\ Member.renewalDate (MemberService.member r) = MemberService.newRenewalDate r
    /\ Member.status (MemberService.member r) = "Active"
    /\ Payment.description (MemberService.payment r)
       = Some ("Membership renewal for " +:+ pretty n +:+ " months").
Proof.
  intros Hc (Hp & Hn & Hamount & Hmethod) Hgen Hm Ha [Hmonth [Hday _]] Hnotjan H28
         previous months.
  assert (Hnum : Js.toNumber (Js.plus (JsDate.getMonth previous)
                                      (MemberService.renewalPeriod rd))
                 = Some months).
  { rewrite Hp. cbn [Js.plus Js.toNumber]. unfold JsDate.getMonth.
    apply numberOfString_month_numeral; assumption. }
  assert (Hset : JsDate.setMonth previous months
                 = JsDate.mk (JsDate.fullYear previous + months / 12) (months mod 12)
                             (JsDate.date previous) (JsDate.timeWithinDay previous)).
  { apply setMonth_same_day; [exact Hday|].
    pose proof (daysInMonth_ge_28 (JsDate.fullYear previous + months / 12)
                                  (months mod 12)).
    subst previous. lia. }
  assert (Hidx : JsDate.monthIndex
                   (JsDate.mk (JsDate.fullYear previous + months / 12) (months mod 12)
                              (JsDate.date previous) (JsDate.timeWithinDay previous))
                 = JsDate.fullYear previous * 12 + months).
  { unfold JsDate.monthIndex. cbn [JsDate.fullYear JsDate.month].
    pose proof (Z.div_mod months 12). lia. }
  assert (Hne : JsDate.fullYear previous * 12 + months
                <> JsDate.monthIndex previous + n).
  { unfold JsDate.monthIndex. subst months previous.
    destruct (n <? 10); lia. }
  destruct (uniquePaymentId_terminates st _ Hgen) as (seed & Hseed & _ & _).
  set (payment :=
         Payment.mk (Js.toUpperCase (Helpers.generatePaymentId seed)) mid
                    (MemberService.paymentAmount rd) "Membership Fee"
                    (MemberService.paymentMethod rd) "Completed"
                    (MemberService.transactionId rd)
                    (Some ("Membership renewal for " +:+ pretty n +:+ " months"))
                    None None (MemberService.now env) (Some processedBy) true).
  set (member' :=
         Member.set_status "Active"
           (Member.set_renewalDate (JsDate.setMonth previous months) m)).
  assert (E : MemberService.renewMembership env memberId rd processedBy st
              = Some (set_members (insert mid member')
                        (set_payments (insert (MemberService.newPaymentOid env) payment)
                                      st),
                      Ok (MemberService.mkRenewal member' payment previous
                                                  (JsDate.setMonth previous months)))).
  { unfold MemberService.renewMembership. rewrite Hc, Hm, Ha. cbn [negb]. cbv zeta.
    fold previous. rewrite Hnum, Hseed.
    rewrite validate_renewal_payment by assumption.
    rewrite Hp. reflexivity. }
  do 2 eexists. split; [exact E|].
  split; [unfold MemberController.renewMembership; rewrite E; reflexivity|].
  subst payment member'.
  cbn [MemberService.previousRenewalDate MemberService.newRenewalDate
       MemberService.payment MemberService.member Payment.description
       Member.status Member.renewalDate Member.set_status Member.set_renewalDate
       members set_members].
  split; [reflexivity|].
  split; [exact Hset|].
  rewrite Hset, Hidx.
  split; [reflexivity|].
  split; [exact Hne|].
  split.
  { intros Heq. apply Hne. rewrite <- Hidx, Heq. apply monthIndex_plusMonths. }
  split; [apply lookup_insert_eq|].
  repeat split.
Qed.

Lemma renewMembership_string_period_concatenates_witness :
  exists st' r,
    MemberService.renewMembership Sample.env Fixture.novemberMemberId Fixture.threeAsString
                                  Sample.adminId Fixture.renewals
    = Some (st', Ok r)
    /\ MemberService.previousRenewalDate r = Sample.day 2024 10 15
    /\ MemberService.newRenewalDate r = Sample.day 2032 7 15
    /\ MemberService.newRenewalDate r <> Sample.day 2025 1 15
    /\ Spec.plusMonths (Sample.day 2024 10 15) 3 = Sample.day 2025 1 15.
Proof.
  assert (Hvalid : Spec.numeralRenewal Fixture.threeAsString 3).
  { unfold Spec.numeralRenewal. simpl. split; [reflexivity|]. split; [lia|].
    split; [lia|]. solve_In. }
  assert (Hgen : Spec.someFreeSeed Fixture.renewals (MemberService.seeds Sample.env)).
  { exists Sample.freeSeed. split; [solve_In|].
    intros k p Hk. simpl in Hk. lookup_cases Hk; discriminate. }
  destruct (renewMembership_string_period_concatenates
              Sample.env Fixture.novemberMemberId Fixture.novemberMemberId
              Fixture.threeAsString 3 Sample.adminId Fixture.renewals
              Fixture.novemberMember eq_refl Hvalid Hgen eq_refl eq_refl)
    as (st' & r & H1 & _ & H2 & H3 & _ & _ & H4 & _).
  - unfold JsDate.valid. vm_compute. repeat split; discriminate.
  - vm_compute. discriminate.
  - vm_compute. discriminate.
  - exists st', r. split; [exact H1|]. split; [exact H2|]. split; [exact H3|].
    split; [rewrite H3; vm_compute; discriminate | reflexivity].
Defined.

(* ===================================================================== *)
(** * Attendance *)
(* ===================================================================== *)

Lemma findIndex_Some {A} (p : A -> bool) (l : list A) i :
  Events.findIndex p l = Some i ->
  exists a, nth_error l i = Some a /\ p a = true
            /\ forall j b, (j < i)%nat -> nth_error l j = Some b -> p b = false.
Proof.
  revert i. induction l as [|x l IH]; intros i H; [discriminate|].
  simpl in H. destruct (p x) eqn:Hp.
  - injection H as <-. exists x. split; [reflexivity|]. split; [exact Hp|].
    intros j b Hj. lia.
  - destruct (Events.findIndex p l) as [i'|]; [|discriminate].
    injection H as <-. destruct (IH i' eq_refl) as (a & Ha & Hpa & Hfirst).
    exists a. split; [exact Ha|]. split; [exact Hpa|].
    intros [|j] b Hj Hb.
    + simpl in Hb. injection Hb as <-. exact Hp.
    + simpl in Hb. apply (Hfirst j b); [lia | exact Hb].
Qed.

Lemma findIndex_None {A} (p : A -> bool) (l : list A) :
  Events.findIndex p l = None <-> List.find p l = None.
Proof.
  induction l as [|x l IH]; simpl; [tauto|].
  destruct (p x); [split; discriminate|].
  destruct (Events.findIndex p l); simpl.
  - split; [discriminate|]. intros H. apply IH in H. discriminate.
  - split; intros _; [apply IH; reflexivity | reflexivity].
Qed.

Lemma updateAt_length {A} i (f : A -> A) l : length (Events.updateAt i f l) = length l.
Proof. revert i. induction l as [|x l IH]; intros [|i]; simpl; auto. Qed.

Lemma updateAt_nth_eq {A} i (f : A -> A) l a :
  nth_error l i = Some a -> nth_error (Events.updateAt i f l) i = Some (f a).
Proof.
  revert i. induction l as [|x l IH]; intros [|i]; simpl; try discriminate.
  - intros H. injection H as <-. reflexivity.
  - apply IH.
Qed.

Lemma updateAt_nth_ne {A} i j (f : A -> A) l :
  i <> j -> nth_error (Events.updateAt i f l) j = nth_error l j.
Proof.
  revert i j. induction l as [|x l IH]; intros [|i] [|j] H; simpl; auto;
    try contradiction; try (apply IH; lia).
Qed.

Lemma updateAt_map {A B} i (f : A -> A) (g : A -> B) l :
  (forall a, g (f a) = g a) ->
  List.map g (Events.updateAt i f l) = List.map g l.
Proof.
  intros H. revert i. induction l as [|x l IH]; intros [|i]; simpl; auto.
  - rewrite H. reflexivity.
  - rewrite IH. reflexivity.
Qed.

(** X1.  When [recordAttendance] succeeds, one attendee record has changed:
    the first whose member reference prints as the [memberId] sent has the
    new [attendanceStatus].  The number of attendees, their member
    references, registration dates and payment statuses, every other
    attendee and the other fields of the event are as before, and the
    event is stored. *)
Theorem recordAttendance_updates_one_attendee
        eventId memberId attendanceStatus st st' event' :
  Events.recordAttendance eventId memberId attendanceStatus st = (st', Ok event') ->
  exists eid event i a,
    ObjectId.cast eventId = Some eid
    /\ events st !! eid = Some event
    /\ events st' !! eid = Some event'
    /\ nth_error (Event.attendees event) i = Some a
    /\ ObjectId.toString (Attendee.member a) = memberId
    /\ (forall j b, (j < i)%nat -> nth_error (Event.attendees event) j = Some b ->
                    ObjectId.toString (Attendee.member b) <> memberId)
    /\ nth_error (Event.attendees event') i
       = Some (Events.set_attendanceStatus attendanceStatus a)
    /\ (forall j, j <> i ->
                  nth_error (Event.attendees event') j = nth_error (Event.attendees event) j)
    /\ length (Event.attendees event') = length (Event.attendees event)
    /\ List.map Attendee.member (Event.attendees event')
       = List.map Attendee.member (Event.attendees event)
    /\ List.map Attendee.paymentStatus (Event.attendees event')
       = List.map Attendee.paymentStatus (Event.attendees event)
    /\ Inv.sameEventFields event event'.
Proof.
  unfold Events.recordAttendance.
  destruct (ObjectId.cast eventId) as [eid|]; [|intros H; inversion H].
  destruct (events st !! eid) as [event|] eqn:He; [|intros H; inversion H].
  destruct (negb (Event.isActive event)); [intros H; inversion H|].
  destruct (Events.findIndex _ _) as [i|] eqn:Hi; [|intros H; inversion H].
  destruct (_ && _); intros H; inversion H; subst; clear H.
  destruct (findIndex_Some _ _ _ Hi) as (a & Ha & Hpa & Hfirst).
  exists eid, event, i, a.
  split; [reflexivity|]. split; [exact He|].
  split; [apply lookup_insert_eq|]. split; [exact Ha|].
  split; [apply String.eqb_eq; exact Hpa|].
  split.
  { intros j b Hj Hb. apply String.eqb_neq. exact (Hfirst j b Hj Hb). }
  simpl.
  split; [apply updateAt_nth_eq; exact Ha|].
  split; [intros j Hj; apply updateAt_nth_ne; congruence|].
  split; [apply updateAt_length|].
  split; [apply updateAt_map; reflexivity|].
  split; [apply updateAt_map; reflexivity|].
  unfold Inv.sameEventFields. simpl. repeat split.
Qed.

Lemma recordAttendance_updates_one_attendee_witness :
  exists st' event',
    Events.recordAttendance Sample.pastEventId Sample.disabledMemberId "Attended"
                            Sample.store = (st', Ok event')
    /\ List.map Attendee.attendanceStatus (Event.attendees event')
       = ["Attended"; "Attended"; "Registered"; "Attended"]
    /\ length (Event.attendees event') = 4%nat.
Proof.
  destruct (Events.recordAttendance Sample.pastEventId Sample.disabledMemberId "Attended"
                                    Sample.store) as [st' [event'|err]] eqn:H;
    [|vm_compute in H; discriminate H].
  exists st', event'. split; [reflexivity|].
  destruct (recordAttendance_updates_one_attendee _ _ _ _ _ _ H)
    as (eid & event & i & a & _ & _ & _ & _ & _ & _ & _ & _ & Hlen & _).
  vm_compute in H. injection H as _ <-. split; reflexivity.
Defined.

(** A call of [recordAttendance] that throws leaves the store as it was. *)
Lemma recordAttendance_throw_unchanged eventId memberId attendanceStatus st st' err :
  Events.recordAttendance eventId memberId attendanceStatus st = (st', Throw err) ->
  st' = st.
Proof.
  unfold Events.recordAttendance.
  repeat match goal with
         | |- context [match ?x with _ => _ end] => destruct x
         end; intros H; inversion H; reflexivity.
Qed.

Lemma findIndex_app_last {A} (p : A -> bool) (l : list A) (x : A) :
  List.find p l = None -> p x = true ->
  Events.findIndex p (l ++ [x]) = Some (length l).
Proof.
  induction l as [|y l IH]; simpl; intros Hf Hx.
  - rewrite Hx. reflexivity.
  - destruct (p y); [discriminate|]. rewrite (IH Hf Hx). reflexivity.
Qed.

Lemma updateAt_app_last {A} (f : A -> A) (l : list A) (x : A) :
  Events.updateAt (length l) f (l ++ [x]) = (l ++ [f x])%list.
Proof. induction l as [|y l IH]; simpl; [reflexivity|]. rewrite IH. reflexivity. Qed.

Lemma nth_error_app_last {A} (l : list A) (x : A) :
  nth_error (l ++ [x]) (length l) = Some x.
Proof. induction l as [|y l IH]; simpl; auto. Qed.

Lemma countStatus_app s l1 l2 :
  EventService.countStatus s (l1 ++ l2)
  = EventService.countStatus s l1 + EventService.countStatus s l2.
Proof.
  unfold EventService.countStatus.
  rewrite List.filter_app, length_app. lia.
Qed.

(** X2.  Check-in after registration: when a member, its id sent in
    lowercase, is registered for an event and then recorded as "Attended",
    the recording succeeds, the attendees of the event are those of before
    the registration followed by the member, and in the summary of
    [getEventAttendees] [totalRegistered] and [attended] are one more than
    before the registration, [noShow] and [pending] as before. *)
Theorem register_then_recordAttendance
        now eventId memberId st st1 event1 :
  ObjectId.cast memberId = Some memberId ->
  EventService.registerMemberForEvent now eventId memberId st = (st1, Ok event1) ->
  exists st2 event2 before after,
    Events.recordAttendance eventId memberId "Attended" st1 = (st2, Ok event2)
    /\ EventService.getEventAttendees eventId st = Ok before
    /\ EventService.getEventAttendees eventId st2 = Ok after
    /\ EventService.attendees after
       = (EventService.attendees before
          ++ [Attendee.mk memberId now "Attended"
                          (if 0 <? Event.registrationFee event1 then "Pending" else "Paid")])%list
    /\ EventService.totalRegistered (EventService.summary after)
       = EventService.totalRegistered (EventService.summary before) + 1
    /\ EventService.attended (EventService.summary after)
       = EventService.attended (EventService.summary before) + 1
    /\ EventService.noShow (EventService.summary after)
       = EventService.noShow (EventService.summary before)
    /\ EventService.pending (EventService.summary after)
       = EventService.pending (EventService.summary before).
Proof.
  intros Hcm H.
  pose proof H as Hinv.
  apply registerMemberForEvent_Ok_inv in Hinv
    as (eid & mid & event & Hce & Hcm' & He & Hfind & _ & -> & ->).
  rewrite Hcm in Hcm'. injection Hcm' as <-.
  assert (Hact : Event.isActive event = true).
  { unfold EventService.registerMemberForEvent in H. rewrite Hce, Hcm, He in H.
    destruct (Event.isActive event); [reflexivity | inversion H]. }
  set (new := EventService.newAttendee now memberId event).
  assert (Hsame : EventService.sameMember memberId new = true).
  { unfold EventService.sameMember, ObjectId.toString. simpl. apply String.eqb_refl. }
  unfold Events.recordAttendance. rewrite Hce. simpl events.
  rewrite lookup_insert_eq. simpl. rewrite Hact. simpl.
  fold new.
  rewrite (findIndex_app_last _ _ _ Hfind Hsame), nth_error_app_last.
  simpl. rewrite updateAt_app_last.
  do 4 eexists. split; [reflexivity|].
  unfold EventService.getEventAttendees, Query.findById. rewrite Hce, He, Hact. simpl.
  split; [reflexivity|].
  rewrite lookup_insert_eq. simpl. rewrite Hact. simpl.
  split; [reflexivity|]. simpl.
  split; [reflexivity|].
  rewrite !countStatus_app, !countStatus_cons, length_app.
  assert (Hnil : forall s, EventService.countStatus s [] = 0) by reflexivity.
  rewrite !Hnil. simpl.
  repeat split; try reflexivity; lia.
Qed.

Lemma register_then_recordAttendance_witness :
  exists st2 event2 after,
    Events.recordAttendance
      Sample.eventId Sample.memberId "Attended"
      (fst (EventService.registerMemberForEvent Sample.today Sample.eventId Sample.memberId
                                                Sample.store))
    = (st2, Ok event2)
    /\ EventService.getEventAttendees Sample.eventId st2 = Ok after
    /\ EventService.attended (EventService.summary after) = 1
    /\ EventService.pending (EventService.summary after) = 0.
Proof.
  destruct (EventService.registerMemberForEvent Sample.today Sample.eventId Sample.memberId
                                                Sample.store)
    as [st1 [event1|err]] eqn:H; [|vm_compute in H; discriminate H].
  destruct (register_then_recordAttendance
              Sample.today Sample.eventId Sample.memberId Sample.store st1 event1 eq_refl H)
    as (st2 & event2 & before & after & H1 & H2 & H3 & _ & _ & H4 & _ & H5).
  exists st2, event2, after. split; [exact H1|]. split; [exact H3|].
  vm_compute in H2. injection H2 as <-.
  split; [exact H4 | exact H5].
Defined.

(* ===================================================================== *)
(** * Soft deletion *)
(* ===================================================================== *)

Lemma set_events_insert_twice st eid (e1 e2 : Event.t) :
  set_events (insert eid e2) (set_events (insert eid e1) st) = set_events (insert eid e2) st.
Proof. unfold set_events. simpl. rewrite insert_insert_eq. reflexivity. Qed.

(** X3.  [deleteEvent] keeps the event in the store, with its attendees and
    its other fields, and sets [isActive] to false.  From then on
    [getEventById], [getEventAttendees], [registerMemberForEvent] and
    [recordAttendance] answer "Event not found" for it, while a second
    [deleteEvent] succeeds and changes nothing. *)
Theorem deleteEvent_soft_deletes eventId eid event st :
  ObjectId.cast eventId = Some eid ->
  events st !! eid = Some event ->
  exists st' event',
    Events.deleteEvent eventId st = (st', Ok event')
    /\ events st' !! eid = Some event'
    /\ Event.isActive event' = false
    /\ Event.attendees event' = Event.attendees event
    /\ Event.title event' = Event.title event
    /\ Event.status event' = Event.status event
    /\ (forall k, k <> eid -> events st' !! k = events st !! k)
    /\ Events.getEventById eventId st' = Throw (Js.newError "Event not found")
    /\ EventService.getEventAttendees eventId st' = Throw (Js.newError "Event not found")
    /\ (forall now memberId mid,
           ObjectId.cast memberId = Some mid ->
           EventService.registerMemberForEvent now eventId memberId st'
           = (st', Throw (Js.newError "Event not found")))
    /\ (forall memberId attendanceStatus,
           Events.recordAttendance eventId memberId attendanceStatus st'
           = (st', Throw (Js.newError "Event not found")))
    /\ Events.deleteEvent eventId st' = (st', Ok event').
Proof.
  intros Hc He. unfold Events.deleteEvent. rewrite Hc, He.
  do 2 eexists. split; [reflexivity|].
  split; [apply lookup_insert_eq|].
  do 4 (split; [reflexivity|]).
  split; [intros k Hk; apply lookup_insert_ne; congruence|].
  split.
  { unfold Events.getEventById, Query.findById. rewrite Hc. simpl.
    rewrite lookup_insert_eq. reflexivity. }
  split.
  { unfold EventService.getEventAttendees, Query.findById. rewrite Hc. simpl.
    rewrite lookup_insert_eq. reflexivity. }
  split.
  { intros now memberId mid Hm. unfold EventService.registerMemberForEvent.
    rewrite Hc, Hm. simpl. rewrite lookup_insert_eq. reflexivity. }
  split.
  { intros memberId attendanceStatus. unfold Events.recordAttendance.
    rewrite Hc. simpl. rewrite lookup_insert_eq. reflexivity. }
  simpl. rewrite lookup_insert_eq. rewrite set_events_insert_twice. reflexivity.
Qed.

Lemma deleteEvent_soft_deletes_witness :
  exists st' event',
    Events.deleteEvent Sample.pastEventId Sample.store = (st', Ok event')
    /\ length (Event.attendees event') = 4%nat
    /\ EventService.getEventAttendees Sample.pastEventId st'
       = Throw (Js.newError "Event not found").
Proof.
  destruct (deleteEvent_soft_deletes Sample.pastEventId Sample.pastEventId Sample.pastEvent
                                     Sample.store eq_refl eq_refl)
    as (st' & event' & H1 & _ & _ & H2 & _ & _ & _ & _ & H3 & _).
  exists st', event'. split; [exact H1|]. split; [rewrite H2; reflexivity | exact H3].
Defined.

Lemma set_members_insert_twice st mid (m1 m2 : Member.t) :
  set_members (insert mid m2) (set_members (insert mid m1) st)
  = set_members (insert mid m2) st.
Proof. unfold set_members. simpl. rewrite insert_insert_eq. reflexivity. Qed.

(** X4.  [disableMember] keeps the member in the store and sets [isActive]
    to false and [status] to "Inactive", the other fields as they were.
    From then on [getMemberById] and [renewMembership] answer "Member not
    found" for it, and no event accepts its registration, while a second
    [disableMember] succeeds and changes nothing. *)
Theorem disableMember_soft_deletes memberId mid member st :
  ObjectId.cast memberId = Some mid ->
  members st !! mid = Some member ->
  exists st' member',
    Members.disableMember memberId st = (st', Ok member')
    /\ members st' !! mid = Some member'
    /\ Member.isActive member' = false
    /\ Member.status member' = "Inactive"
    /\ member'
       = Member.mk (Member.user member) (Member.memberId member) (Member.name member)
                   (Member.phone member) (Member.zone member)
                   (Member.membershipType member) "Inactive"
                   (Member.renewalDate member) (Member.qrCode member) false
    /\ Member.user member' = Member.user member
    /\ Member.memberId member' = Member.memberId member
    /\ Member.name member' = Member.name member
    /\ Member.phone member' = Member.phone member
    /\ Member.zone member' = Member.zone member
    /\ Member.membershipType member' = Member.membershipType member
    /\ Member.renewalDate member' = Member.renewalDate member
    /\ Member.qrCode member' = Member.qrCode member
    /\ (forall k, k <> mid -> members st' !! k = members st !! k)
    /\ MemberService.getMemberById memberId st' = Throw (Js.newError "Member not found")
    /\ (forall env renewalData processedBy,
           MemberService.renewMembership env memberId renewalData processedBy st'
           = Some (st', Throw (Js.newError "Member not found")))
    /\ (forall now eventId,
           exists err,
             EventService.registerMemberForEvent now eventId memberId st'
             = (st', Throw err))
    /\ Members.disableMember memberId st' = (st', Ok member').
Proof.
  intros Hc Hm. unfold Members.disableMember. rewrite Hc, Hm.
  do 2 eexists. split; [reflexivity|].
  split; [apply lookup_insert_eq|].
  do 11 (split; [reflexivity|]).
  split; [intros k Hk; apply lookup_insert_ne; congruence|].
  split.
  { unfold MemberService.getMemberById, Query.findById. rewrite Hc. simpl.
    rewrite lookup_insert_eq. reflexivity. }
  split.
  { intros env renewalData processedBy. unfold MemberService.renewMembership.
    rewrite Hc. simpl. rewrite lookup_insert_eq. reflexivity. }
  split.
  { intros now eventId. unfold EventService.registerMemberForEvent. rewrite Hc.
    destruct (ObjectId.cast eventId) as [eid|]; [|eexists; reflexivity].
    simpl. destruct (events st !! eid) as [event|]; [|eexists; reflexivity].
    destruct (negb (Event.isActive event)); [eexists; reflexivity|].
    rewrite lookup_insert_eq. simpl. eexists; reflexivity. }
  simpl. rewrite lookup_insert_eq. rewrite set_members_insert_twice. reflexivity.
Qed.

Lemma disableMember_soft_deletes_witness :
  exists st' member',
    Members.disableMember Sample.memberId Sample.store = (st', Ok member')
    /\ Member.status member' = "Inactive"
    /\ MemberService.getMemberById Sample.memberId st'
       = Throw (Js.newError "Member not found").
Proof.
  destruct (disableMember_soft_deletes Sample.memberId Sample.memberId Sample.member
                                       Sample.store eq_refl eq_refl)
    as (st' & member' & H1 & _ & _ & H2 & _ & _ & _ & _ & _ & _ & _ & _ & _ & _ & H3 & _).
  exists st', member'. split; [exact H1|]. split; [exact H2 | exact H3].
Defined.

Lemma countDocuments_one {D} (coll : gmap string D) p k d :
  coll !! k = Some d -> p k d = true ->
  (forall k' d', k' <> k -> coll !! k' = Some d' -> p k' d' = false) ->
  Query.countDocuments coll p = 1.
Proof.
  intros Hk Hp Hothers. unfold Query.countDocuments.
  pose proof (find_keys_NoDup coll p) as Hnd.
  assert (Hin : In (k, d) (Query.find coll p)) by (apply find_spec; auto).
  assert (Hall : forall x, In x (Query.find coll p) -> fst x = k).
  { intros [k' d'] Hx. apply find_spec in Hx as [Hk' Hp']. simpl.
    destruct (String.eqb_spec k' k) as [E|E]; [exact E|].
    rewrite (Hothers _ _ E Hk') in Hp'. discriminate. }
  destruct (Query.find coll p) as [|x [|y l]]; [destruct Hin | reflexivity |].
  exfalso. simpl in Hnd. inversion Hnd as [|? ? Hnotin _]; subst.
  apply Hnotin. left.
  rewrite (Hall x), (Hall y); [reflexivity | right; left; reflexivity | left; reflexivity].
Qed.

(** X5.  A zone whose only active member is [member] cannot be deleted
    (the error counts one active member and the store is unchanged);
    once [disableMember] has run on that member, [deleteZone] succeeds:
    it keeps the zone record with [isActive] false, and a second
    [deleteZone] answers "Zone not found". *)
Theorem disableMember_then_deleteZone zoneId zid zone memberId mid member st :
  ObjectId.cast zoneId = Some zid ->
  zones st !! zid = Some zone ->
  Zone.isActive zone = true ->
  ObjectId.cast memberId = Some mid ->
  members st !! mid = Some member ->
  Member.zone member = zid ->
  Member.isActive member = true ->
  (forall k m, k <> mid -> members st !! k = Some m ->
               Member.zone m = zid -> Member.isActive m = false) ->
  ZoneService.deleteZone zoneId st
  = (st, Throw (Js.newError (ZoneService.hasMembersMessage 1)))
  /\ exists st1 member1 st2 zone2,
      Members.disableMember memberId st = (st1, Ok member1)
      /\ ZoneService.deleteZone zoneId st1 = (st2, Ok zone2)
      /\ zones st2 !! zid = Some zone2
      /\ Zone.isActive zone2 = false
      /\ Zone.name zone2 = Zone.name zone
      /\ members st2 = members st1
      /\ ZoneService.deleteZone zoneId st2 = (st2, Throw (Js.newError "Zone not found")).
Proof.
  intros Hcz Hz Hza Hcm Hm Hmz Hma Hothers.
  assert (Hothers' : forall k m, k <> mid -> members st !! k = Some m ->
                                 ZoneService.activeInZone zid k m = false).
  { intros k m Hk Hl. unfold ZoneService.activeInZone.
    destruct (String.eqb_spec (Member.zone m) zid) as [E|E]; [|reflexivity].
    rewrite (Hothers _ _ Hk Hl E). reflexivity. }
  split.
  - unfold ZoneService.deleteZone. rewrite Hcz, Hz, Hza. simpl.
    rewrite (countDocuments_one (members st) (ZoneService.activeInZone zid) mid member);
      [reflexivity | exact Hm | apply activeInZone_true; auto | exact Hothers'].
  - unfold Members.disableMember. rewrite Hcm, Hm.
    do 4 eexists. split; [reflexivity|].
    unfold ZoneService.deleteZone. rewrite Hcz. simpl. rewrite Hz, Hza. simpl.
    rewrite countDocuments_zero.
    + simpl. split; [reflexivity|].
      split; [apply lookup_insert_eq|].
      do 3 (split; [reflexivity|]).
      cbn [zones set_zones set_members]. rewrite lookup_insert_eq. reflexivity.
    + intros k m Hl. apply lookup_insert_Some in Hl as [[<- <-]|[Hne Hl]].
      * unfold ZoneService.activeInZone. simpl. apply andb_false_r.
      * apply Hothers'; auto.
Qed.

Lemma disableMember_then_deleteZone_witness :
  exists st1 member1 st2 zone2,
    Members.disableMember Sample.memberId Fixture.oneMember = (st1, Ok member1)
    /\ ZoneService.deleteZone Sample.zoneId st1 = (st2, Ok zone2)
    /\ Zone.isActive zone2 = false.
Proof.
  destruct (disableMember_then_deleteZone
              Sample.zoneId Sample.zoneId Sample.zone
              Sample.memberId Sample.memberId Sample.member Fixture.oneMember
              eq_refl eq_refl eq_refl eq_refl eq_refl eq_refl eq_refl)
    as (_ & st1 & member1 & st2 & zone2 & H1 & H2 & _ & H3 & _).
  - intros k m Hk Hl. simpl in Hl. lookup_cases Hl. contradiction.
  - exists st1, member1, st2, zone2. auto.
Defined.

(* ===================================================================== *)
(** * QR codes *)
(* ===================================================================== *)

(** X6.  Once [getMemberQRCode] has answered with a code that is not the
    empty string, the code is the stored [qrCode] of the member, and every
    later call answers with the same object and leaves the store as it
    is, whatever the time and whatever the QR library would produce: the
    code is generated at most once. *)
Theorem getMemberQRCode_generates_once
        toDataURL timestamp memberId st st1 result :
  Members.getMemberQRCode toDataURL timestamp memberId st = (st1, Ok result) ->
  Members.qrCode result <> EmptyString ->
  (exists mid member1,
      ObjectId.cast memberId = Some mid
      /\ members st1 !! mid = Some member1
      /\ Member.qrCode member1 = Some (Members.qrCode result)
      /\ Member.memberId member1 = Members.memberId result
      /\ Member.name member1 = Members.memberName result)
  /\ forall toDataURL' timestamp',
      Members.getMemberQRCode toDataURL' timestamp' memberId st1 = (st1, Ok result).
Proof.
  unfold Members.getMemberQRCode. intros H Hne.
  destruct (ObjectId.cast memberId) as [mid|] eqn:Hc; [|discriminate H].
  destruct (members st !! mid) as [member|] eqn:Hm; [|discriminate H].
  destruct (Member.isActive member) eqn:Ha; simpl in H; [|discriminate H].
  destruct (Member.qrCode member) as [q|] eqn:Hq.
  - destruct (String.eqb_spec q EmptyString) as [E|E].
    + destruct (QRCodeService.generateMemberQR toDataURL timestamp mid
                                               (Member.memberId member))
        as [code|e]; [|discriminate H].
      injection H as <- <-. simpl in Hne. split.
      * exists mid, (Members.set_qrCode (Some code) member).
        split; [reflexivity|]. split; [apply lookup_insert_eq|]. auto.
      * intros toDataURL' timestamp'. simpl. rewrite lookup_insert_eq. simpl.
        rewrite Ha. simpl.
        destruct (String.eqb_spec code EmptyString) as [E'|_]; [contradiction|].
        reflexivity.
    + injection H as <- <-. simpl in Hne. split.
      * exists mid, member. rewrite Hq. auto.
      * intros toDataURL' timestamp'. rewrite Hm, Ha, Hq. simpl.
        destruct (String.eqb_spec q EmptyString) as [E'|_]; [contradiction|].
        reflexivity.
  - destruct (QRCodeService.generateMemberQR toDataURL timestamp mid
                                             (Member.memberId member))
      as [code|e]; [|discriminate H].
    injection H as <- <-. simpl in Hne. split.
    + exists mid, (Members.set_qrCode (Some code) member).
      split; [reflexivity|]. split; [apply lookup_insert_eq|]. auto.
    + intros toDataURL' timestamp'. simpl. rewrite lookup_insert_eq. simpl.
      rewrite Ha. simpl.
      destruct (String.eqb_spec code EmptyString) as [E'|_]; [contradiction|].
      reflexivity.
Qed.

Lemma getMemberQRCode_generates_once_witness :
  exists st1 result,
    Members.getMemberQRCode Fixture.toDataURL "2026-11-03T09:00:00.000Z" Sample.memberId
                            Sample.store
    = (st1, Ok result)
    /\ Members.getMemberQRCode Fixture.failing "2026-11-04T09:00:00.000Z" Sample.memberId st1
       = (st1, Ok result).
Proof.
  destruct (Members.getMemberQRCode Fixture.toDataURL "2026-11-03T09:00:00.000Z"
                                    Sample.memberId Sample.store)
    as [st1 [result|err]] eqn:H; [|vm_compute in H; discriminate H].
  exists st1, result. split; [reflexivity|].
  apply (getMemberQRCode_generates_once _ _ _ _ _ _ H).
  vm_compute in H. injection H as _ <-. discriminate.
Defined.

(** X7.  When the QR library fails, [getMemberQRCode] on an active member
    without a code fails with the library's message behind the prefix
    "Failed to generate QR code: ", as a plain error (answered with status
    500), and stores nothing. *)
Theorem getMemberQRCode_library_failure
        toDataURL timestamp memberId mid member st cause :
  ObjectId.cast memberId = Some mid ->
  members st !! mid = Some member ->
  Member.isActive member = true ->
  Member.qrCode member = None ->
  toDataURL (QRCodeService.memberQrString mid (Member.memberId member) timestamp)
  = Throw cause ->
  exists err,
    Members.getMemberQRCode toDataURL timestamp memberId st = (st, Throw err)
    /\ Js.message err = "Failed to generate QR code: " +:+ Js.message cause
    /\ status (errorHandler err) = 500.
Proof.
  intros Hc Hm Ha Hq Hlib. unfold Members.getMemberQRCode.
  rewrite Hc, Hm, Ha, Hq. simpl.
  unfold QRCodeService.generateMemberQR. rewrite Hlib.
  eexists. split; [reflexivity|]. split; [reflexivity|].
  reflexivity.
Qed.

Lemma getMemberQRCode_library_failure_witness :
  exists err,
    Members.getMemberQRCode Fixture.failing "2026-11-03T09:00:00.000Z" Sample.memberId
                            Sample.store
    = (Sample.store, Throw err)
    /\ Js.message err = "Failed to generate QR code: Input too long".
Proof.
  destruct (getMemberQRCode_library_failure
              Fixture.failing "2026-11-03T09:00:00.000Z" Sample.memberId Sample.memberId
              Sample.member Sample.store (Js.newError "Input too long")
              eq_refl eq_refl eq_refl eq_refl eq_refl)
    as (err & H1 & H2 & _).
  exists err. split; [exact H1 | exact H2].
Defined.

(* ===================================================================== *)
(** * Payments *)
(* ===================================================================== *)

Lemma findOne_None_inv {D} (coll : gmap string D) p :
  Query.findOne coll p = None -> forall k d, coll !! k = Some d -> p k d = false.
Proof.
  unfold Query.findOne. intros H k d Hk.
  destruct (p k d) eqn:Hp; [|reflexivity].
  assert (Hin : In (k, d) (Query.find coll p)) by (apply find_spec; auto).
  destruct (Query.find coll p); [destruct Hin | discriminate H].
Qed.

Lemma uniquePaymentId_Some_inv coll seeds paymentId :
  MemberService.uniquePaymentId coll seeds = Some paymentId ->
  exists seed,
    In seed seeds
    /\ paymentId = Helpers.generatePaymentId seed
    /\ forall k p, coll !! k = Some p -> Payment.paymentId p <> Js.toUpperCase paymentId.
Proof.
  induction seeds as [|g seeds IH]; [discriminate|].
  cbn [MemberService.uniquePaymentId].
  destruct (Query.findOne coll (MemberService.byPaymentId (Helpers.generatePaymentId g)))
    as [x|] eqn:E.
  - intros H. destruct (IH H) as (seed & Hin & Hrest). exists seed. split; [right|]; auto.
  - intros H. injection H as <-. exists g. split; [left; reflexivity|].
    split; [reflexivity|].
    intros k p Hk Heq. pose proof (findOne_None_inv _ _ E k p Hk) as Hf.
    unfold MemberService.byPaymentId in Hf. rewrite Heq, String.eqb_refl in Hf.
    discriminate Hf.
Qed.

Lemma uniquePaymentIds_insert st oid payment :
  Inv.uniquePaymentIds st ->
  (forall k p, payments st !! k = Some p -> Payment.paymentId p <> Payment.paymentId payment) ->
  Inv.uniquePaymentIds (set_payments (insert oid payment) st).
Proof.
  unfold Inv.uniquePaymentIds. intros Hu Hfresh k1 k2 p1 p2 H1 H2 Heq.
  cbn [payments set_payments] in H1, H2.
  apply lookup_insert_Some in H1 as [[<- <-]|[Hne1 H1]];
    apply lookup_insert_Some in H2 as [[<- <-]|[Hne2 H2]].
  - reflexivity.
  - exfalso. apply (Hfresh _ _ H2). congruence.
  - exfalso. apply (Hfresh _ _ H1). congruence.
  - eapply Hu; eauto.
Qed.

Lemma uniquePaymentIds_set_members st f :
  Inv.uniquePaymentIds st -> Inv.uniquePaymentIds (set_members f st).
Proof. intros H. exact H. Qed.

(** X8.  A payment that [createPayment] returns is for an existing active
    member and, when the request names an event, an existing active
    event; it is stored under the new id with status "Pending", active,
    without receipt, with the amount (not negative), type and method of
    the request, and its [paymentId] is one that the generator drew and
    that no stored payment had. *)
Theorem createPayment_stores_pending_payment env paymentData processedBy st st' payment :
  Payments.createPayment env paymentData processedBy st = Some (st', Ok payment) ->
  exists mid member seed,
    ObjectId.cast (Payments.memberId paymentData) = Some mid
    /\ members st !! mid = Some member
    /\ Member.isActive member = true
    /\ (Payments.truthy (Payments.eventId paymentData) = true ->
        exists eid event,
          Payment.event payment = Some eid
          /\ events st !! eid = Some event
          /\ Event.isActive event = true)
    /\ In seed (MemberService.seeds env)
    /\ Payment.paymentId payment = Helpers.generatePaymentId seed
    /\ (forall k p, payments st !! k = Some p ->
                    Payment.paymentId p <> Payment.paymentId payment)
    /\ Payment.member payment = mid
    /\ Payment.status payment = "Pending"
    /\ Payment.isActive payment = true
    /\ Payment.receiptFile payment = None
    /\ Payment.processedBy payment = Some processedBy
    /\ Payment.amount payment = Payments.amount paymentData
    /\ 0 <= Payment.amount payment
    /\ In (Payment.paymentType payment) Payment.paymentTypes
    /\ In (Payment.paymentMethod payment) Payment.paymentMethods
    /\ st' = set_payments (insert (MemberService.newPaymentOid env) payment) st.
Proof.
  unfold Payments.createPayment. intros H.
  destruct (ObjectId.cast (Payments.memberId paymentData)) as [mid|] eqn:Hc;
    [|discriminate H].
  destruct (members st !! mid) as [member|] eqn:Hm; [|discriminate H].
  destruct (Member.isActive member) eqn:Ha; cbn [negb] in H; [|discriminate H].
  match type of H with
  | match ?c with _ => _ end = _ => destruct c as [e|] eqn:Hev; [discriminate H|]
  end.
  destruct (MemberService.uniquePaymentId (payments st) (MemberService.seeds env))
    as [paymentId|] eqn:Hid; [|discriminate H].
  apply uniquePaymentId_Some_inv in Hid as (seed & Hin & -> & Hfree).
  rewrite generatePaymentId_upper in H, Hfree.
  match type of H with
  | match ?c with _ => _ end = _ => destruct c as [ev|] eqn:Hcast; [|discriminate H]
  end.
  match type of H with
  | match ?c with _ => _ end = _ => destruct c as [|msg msgs] eqn:Hv; [|discriminate H]
  end.
  injection H as <- <-.
  exists mid, member, seed.
  do 3 (split; [reflexivity || assumption|]).
  split.
  { intros Ht. rewrite Ht in Hev.
    destruct (Payments.eventId paymentData) as [s|] eqn:Hs; [|discriminate Ht].
    cbn [default from_option] in Hev. unfold id, Query.findById in Hev.
    destruct (ObjectId.cast s) as [eid|] eqn:Hce;
      cbv beta iota in Hev; [|discriminate Hev].
    destruct (events st !! eid) as [event|] eqn:He;
      cbv beta iota in Hev; [|discriminate Hev].
    destruct (Event.isActive event) eqn:Hea;
      cbn [negb] in Hev; cbv beta iota in Hev; [|discriminate Hev].
    cbn [option_map] in Hcast. injection Hcast as <-.
    exists eid, event. auto. }
  split; [exact Hin|].
  split; [reflexivity|].
  split; [exact Hfree|].
  do 6 (split; [reflexivity|]).
  unfold Payment.validate in Hv.
  cbn [Payment.paymentId Payment.amount Payment.paymentType Payment.paymentMethod
       Payment.status andb] in Hv.
  destruct (Payments.amount paymentData <? 0) eqn:Hamt;
    [apply app_eq_nil in Hv as [_ Hv]; discriminate Hv|].
  destruct (Payment.inb (Payments.paymentType paymentData) Payment.paymentTypes) eqn:Hty;
    [|apply app_eq_nil in Hv as [_ Hv]; apply app_eq_nil in Hv as [_ Hv];
      discriminate Hv].
  destruct (Payment.inb (Payments.paymentMethod paymentData) Payment.paymentMethods)
    eqn:Hme;
    [|apply app_eq_nil in Hv as [_ Hv]; apply app_eq_nil in Hv as [_ Hv];
      apply app_eq_nil in Hv as [_ Hv]; discriminate Hv].
  cbn [Payment.amount Payment.paymentType Payment.paymentMethod].
  split; [lia|].
  split; [apply existsb_eqb_In; exact Hty|].
  split; [apply existsb_eqb_In; exact Hme|].
  reflexivity.
Qed.

Lemma createPayment_stores_pending_payment_witness :
  exists st' payment,
    Payments.createPayment Sample.env Fixture.eventFee Sample.adminId Sample.store
    = Some (st', Ok payment)
    /\ Payment.status payment = "Pending"
    /\ Payment.event payment = Some Sample.eventId
    /\ st' = set_payments (insert Sample.newId payment) Sample.store.
Proof.
  destruct (Payments.createPayment Sample.env Fixture.eventFee Sample.adminId Sample.store)
    as [[st' [payment|err]]|] eqn:H;
    [|vm_compute in H; discriminate H|vm_compute in H; discriminate H].
  exists st', payment. split; [reflexivity|].
  destruct (createPayment_stores_pending_payment _ _ _ _ _ _ H)
    as (mid & member & seed & _ & _ & _ & Hev & _ & _ & _ & _ & Hst & _ & _ & _ & _ & _
        & _ & _ & Hst').
  split; [exact Hst|]. split; [|exact Hst'].
  destruct (Hev eq_refl) as (eid & event & He & _).
  vm_compute in H. injection H as _ <-. reflexivity.
Defined.

Lemma createPayment_store env paymentData processedBy st st' r :
  Payments.createPayment env paymentData processedBy st = Some (st', r) ->
  st' = st
  \/ exists payment,
      (forall k p, payments st !! k = Some p ->
                   Payment.paymentId p <> Payment.paymentId payment)
      /\ st' = set_payments (insert (MemberService.newPaymentOid env) payment) st.
Proof.
  unfold Payments.createPayment. intros H.
  repeat match type of H with
         | Some (_, _) = Some (_, _) => injection H as <- <-
         | match MemberService.uniquePaymentId ?c ?s with _ => _ end = _ =>
             let Hid := fresh "Hid" in
             destruct (MemberService.uniquePaymentId c s) eqn:Hid; [|discriminate H]
         | match ?c with _ => _ end = _ => destruct c eqn:?
         | (if ?c then _ else _) = _ => destruct c eqn:?
         end;
    try (left; reflexivity).
  right. eexists. split; [|reflexivity].
  apply uniquePaymentId_Some_inv in Hid as (seed & _ & -> & Hfree).
  exact Hfree.
Qed.

Lemma renewMembership_store env memberId renewalData processedBy st st' r :
  MemberService.renewMembership env memberId renewalData processedBy st = Some (st', r) ->
  st' = st
  \/ exists payment f,
      (forall k p, payments st !! k = Some p ->
                   Payment.paymentId p <> Payment.paymentId payment)
      /\ st' = set_members f (set_payments (insert (MemberService.newPaymentOid env) payment)
                                           st).
Proof.
  unfold MemberService.renewMembership. intros H.
  repeat match type of H with
         | Some (_, _) = Some (_, _) => injection H as <- <-
         | None = Some _ => discriminate H
         | match MemberService.uniquePaymentId ?c ?s with _ => _ end = _ =>
             let Hid := fresh "Hid" in
             destruct (MemberService.uniquePaymentId c s) eqn:Hid; [|discriminate H]
         | match ?c with _ => _ end = _ => destruct c eqn:?
         | (if ?c then _ else _) = _ => destruct c eqn:?
         end;
    try (left; reflexivity).
  right. do 2 eexists. split; [|reflexivity].
  apply uniquePaymentId_Some_inv in Hid as (seed & _ & -> & Hfree).
  exact Hfree.
Qed.

Lemma Sample_uniquePaymentIds : Inv.uniquePaymentIds Sample.store.
Proof.
  intros k1 k2 p1 p2 H1 H2 Heq. simpl in H1, H2.
  lookup_cases H1; lookup_cases H2; first [reflexivity | discriminate Heq].
Qed.

(** X9.  [createPayment] keeps the [paymentId]s of the stored payments
    pairwise different (the unique index of the schema is never put to the
    test), whether it succeeds or fails. *)
Theorem createPayment_keeps_paymentIds_unique env paymentData processedBy st st' r :
  Inv.uniquePaymentIds st ->
  Payments.createPayment env paymentData processedBy st = Some (st', r) ->
  Inv.uniquePaymentIds st'.
Proof.
  intros Hu H. apply createPayment_store in H as [->|(payment & Hfree & ->)];
    [exact Hu|].
  apply uniquePaymentIds_insert; assumption.
Qed.

Lemma createPayment_keeps_paymentIds_unique_witness :
  exists st' r,
    Payments.createPayment Sample.env Fixture.eventFee Sample.adminId Sample.store
    = Some (st', r)
    /\ Inv.uniquePaymentIds st'.
Proof.
  destruct (Payments.createPayment Sample.env Fixture.eventFee Sample.adminId Sample.store)
    as [[st' r]|] eqn:H; [|vm_compute in H; discriminate H].
  exists st', r. split; [reflexivity|].
  exact (createPayment_keeps_paymentIds_unique _ _ _ _ _ _ Sample_uniquePaymentIds H).
Defined.

(** X10.  [renewMembership] keeps the [paymentId]s of the stored payments
    pairwise different, whether it succeeds or fails. *)
Theorem renewMembership_keeps_paymentIds_unique
        env memberId renewalData processedBy st st' r :
  Inv.uniquePaymentIds st ->
  MemberService.renewMembership env memberId renewalData processedBy st = Some (st', r) ->
  Inv.uniquePaymentIds st'.
Proof.
  intros Hu H. apply renewMembership_store in H as [->|(payment & f & Hfree & ->)];
    [exact Hu|].
  apply uniquePaymentIds_set_members, uniquePaymentIds_insert; assumption.
Qed.

Lemma renewMembership_keeps_paymentIds_unique_witness :
  exists st' r,
    MemberService.renewMembership Sample.env Sample.memberId Sample.quarter Sample.adminId
                                  Sample.store
    = Some (st', r)
    /\ Inv.uniquePaymentIds st'.
Proof.
  destruct (MemberService.renewMembership Sample.env Sample.memberId Sample.quarter
                                          Sample.adminId Sample.store)
    as [[st' r]|] eqn:H; [|vm_compute in H; discriminate H].
  exists st', r. split; [reflexivity|].
  exact (renewMembership_keeps_paymentIds_unique _ _ _ _ _ _ _ Sample_uniquePaymentIds H).
Defined.

(* ===================================================================== *)
(** * Sorting by date *)
(* ===================================================================== *)




Section SortLemmas.
Context {D : Type} (key : D -> JsDate.t).

Lemma insertDesc_Permutation x l : Permutation (Paging.insertDesc key x l) (x :: l).
Proof.
  induction l as [|y l IH]; simpl; [reflexivity|].
  destruct (JsDate.ltb (key x) (key y)); [|reflexivity].
  rewrite IH. apply perm_swap.
Qed.

Lemma sortDesc_Permutation l : Permutation (Paging.sortDesc key l) l.
Proof.
  induction l as [|x l IH]; simpl; [reflexivity|].
  rewrite insertDesc_Permutation, IH. reflexivity.
Qed.


Lemma length_sortDesc l : length (Paging.sortDesc key l) = length l.
Proof. apply Permutation_length, sortDesc_Permutation. Qed.



End SortLemmas.













Lemma createPayment_Ok_store env paymentData processedBy st st' payment :
  Payments.createPayment env paymentData processedBy st = Some (st', Ok payment) ->
  Payment.isActive payment = true
  /\ Payment.receiptFile payment = None
  /\ st' = set_payments (insert (MemberService.newPaymentOid env) payment) st.
Proof.
  unfold Payments.createPayment. intros H.
  repeat match type of H with
         | Some (_, _) = Some (_, _) => injection H as <- <-
         | Some (_, Throw _) = Some (_, Ok _) => discriminate H
         | None = Some _ => discriminate H
         | match ?c with _ => _ end = _ => destruct c eqn:?
         | (if ?c then _ else _) = _ => destruct c eqn:?
         end.
  repeat split.
Qed.

(** X13.  A payment that [createPayment] has just stored can be given a
    receipt and read back: [uploadReceipt] on its id succeeds,
    [getPaymentById] then returns the same document, which is the
    payment created with [receiptFile] set to the URL and nothing else
    changed, and no other payment is touched. *)
Theorem createPayment_uploadReceipt_getPaymentById
        env paymentData processedBy receiptUrl st st1 payment :
  ObjectId.cast (MemberService.newPaymentOid env) = Some (MemberService.newPaymentOid env) ->
  Payments.createPayment env paymentData processedBy st = Some (st1, Ok payment) ->
  exists st2 payment2,
    PaymentService.uploadReceipt (MemberService.newPaymentOid env) receiptUrl st1
    = (st2, Ok payment2)
    /\ PaymentService.getPaymentById (MemberService.newPaymentOid env) st2 = Ok payment2
    /\ payment2 = PaymentService.set_receiptFile (Some receiptUrl) payment
    /\ Payment.status payment2 = "Pending"
    /\ (forall k, k <> MemberService.newPaymentOid env ->
                  payments st2 !! k = payments st !! k).
Proof.
  intros Hc H.
  pose proof (createPayment_Ok_store _ _ _ _ _ _ H) as (Ha & _ & ->).
  assert (Hstatus : Payment.status payment = "Pending").
  { revert H. unfold Payments.createPayment. intros H.
    repeat match type of H with
           | Some (_, _) = Some (_, _) => injection H as _ <-
           | Some (_, Throw _) = Some (_, Ok _) => discriminate H
           | None = Some _ => discriminate H
           | match ?c with _ => _ end = _ => destruct c eqn:?
           | (if ?c then _ else _) = _ => destruct c eqn:?
           end.
    reflexivity. }
  unfold PaymentService.uploadReceipt. rewrite Hc.
  cbn [payments set_payments]. rewrite lookup_insert_eq, Ha. cbn [negb].
  do 2 eexists. split; [reflexivity|].
  split.
  { unfold PaymentService.getPaymentById, Query.findById. rewrite Hc.
    cbn [payments set_payments]. rewrite lookup_insert_eq. cbn [PaymentService.set_receiptFile
      Payment.isActive]. rewrite Ha. reflexivity. }
  split; [reflexivity|].
  split; [exact Hstatus|].
  intros k Hk. cbn [payments set_payments].
  rewrite !lookup_insert_ne by congruence. reflexivity.
Qed.

Lemma createPayment_uploadReceipt_getPaymentById_witness :
  exists st1 payment st2 payment2,
    Payments.createPayment Sample.env Fixture.eventFee Sample.adminId Sample.store
    = Some (st1, Ok payment)
    /\ PaymentService.uploadReceipt Sample.newId "https://cdn.example.org/r/1.png" st1
       = (st2, Ok payment2)
    /\ PaymentService.getPaymentById Sample.newId st2 = Ok payment2
    /\ Payment.receiptFile payment2 = Some "https://cdn.example.org/r/1.png".
Proof.
  destruct (Payments.createPayment Sample.env Fixture.eventFee Sample.adminId Sample.store)
    as [[st1 [payment|err]]|] eqn:H;
    [|vm_compute in H; discriminate H|vm_compute in H; discriminate H].
  destruct (createPayment_uploadReceipt_getPaymentById
              Sample.env Fixture.eventFee Sample.adminId "https://cdn.example.org/r/1.png"
              Sample.store st1 payment eq_refl H)
    as (st2 & payment2 & H1 & H2 & H3 & _).
  exists st1, payment, st2, payment2.
  split; [reflexivity|]. split; [exact H1|]. split; [exact H2|].
  rewrite H3. reflexivity.
Defined.

(* ===================================================================== *)
(** * Notifications: the senders *)
(* ===================================================================== *)

Lemma find_targeted_all (coll : gmap string Member.t) (oids : list ObjectId.t) :
  length (Query.find coll (NotificationService.targeted oids)) = length oids ->
  List.NoDup oids
  /\ forall o, In o oids -> exists m, coll !! o = Some m /\ Member.isActive m = true.
Proof.
  intros Hlen.
  set (found := Query.find coll (NotificationService.targeted oids)) in *.
  assert (Hincl : incl (List.map fst found) oids).
  { intros k Hin. apply in_map_iff in Hin as ([k' m] & <- & Hin).
    apply find_spec in Hin as [_ Hp]. simpl.
    unfold NotificationService.targeted in Hp.
    apply andb_true_iff in Hp as [Hp _]. apply existsb_eqb_In. exact Hp. }
  assert (Hle : (length oids <= length (List.map fst found))%nat)
    by (rewrite length_map; lia).
  split.
  - apply (@NoDup_incl_NoDup _ (List.map fst found) oids);
      [apply find_keys_NoDup | exact Hle | exact Hincl].
  - intros o Ho.
    assert (Hin : In o (List.map fst found)).
    { apply (@NoDup_length_incl _ (List.map fst found) oids);
        [apply find_keys_NoDup | exact Hle | exact Hincl | exact Ho]. }
    apply in_map_iff in Hin as ([k m] & E & Hin). simpl in E. subst k.
    apply find_spec in Hin as [Hk Hp]. exists m. split; [exact Hk|].
    unfold NotificationService.targeted in Hp.
    apply andb_true_iff in Hp as [_ Hp]. exact Hp.
Qed.

Lemma createNotification_Ok_inv newId data sentBy st st' notification :
  NotificationService.createNotification newId data sentBy st = (st', Ok notification) ->
  exists oids,
    NotificationService.castAll (default [] (NotificationService.targetMembers data))
    = Some oids
    /\ ((0 < length oids)%nat ->
        length (Query.find (members st) (NotificationService.targeted oids)) = length oids)
    /\ notification
       = Notification.mk (Js.trim (NotificationService.title data))
                         (Js.trim (NotificationService.message data))
                         (NotificationService.type data)
                         (default "Medium" (NotificationService.priority data))
                         oids sentBy
                         (default "Sent" (NotificationService.status data))
                         false true
    /\ NotificationService.validate notification = []
    /\ st' = set_notifications (insert newId notification) st.
Proof.
  unfold NotificationService.createNotification. intros H.
  destruct (NotificationService.castAll
              (default [] (NotificationService.targetMembers data)))
    as [oids|] eqn:Hc; [|discriminate H].
  pose proof (castAll_length _ _ Hc) as Hlen.
  match type of H with
  | (if ?c then _ else _) = _ => destruct c eqn:Hcheck; [discriminate H|]
  end.
  match type of H with
  | match ?c with _ => _ end = _ => destruct c eqn:Hv; [|discriminate H]
  end.
  injection H as <- <-. exists oids. split; [reflexivity|].
  split; [|repeat split; exact Hv].
  intros Hpos. apply andb_false_iff in Hcheck as [Hcheck|Hcheck].
  - apply Nat.ltb_ge in Hcheck. lia.
  - apply negb_false_iff, Nat.eqb_eq in Hcheck. lia.
Qed.

(** X14.  A notification that [sendToMembers] returns is addressed to
    existing active members, each named once in the list; it is stored
    under the new id as an active, unread notification with status "Sent",
    with type "General" and priority "Medium" unless the caller gives
    others; members are not changed. *)
Theorem sendToMembers_targets_distinct_active
        newId targetMembers title message type priority sentBy st st' notification :
  Notifications.sendToMembers newId targetMembers title message type priority sentBy st
  = (st', Ok notification) ->
  NotificationService.castAll targetMembers = Some (Notification.targetMembers notification)
  /\ List.NoDup (Notification.targetMembers notification)
  /\ (forall o, In o (Notification.targetMembers notification) ->
                exists m, members st !! o = Some m /\ Member.isActive m = true)
  /\ Notification.type notification = default "General" type
  /\ Notification.priority notification = default "Medium" priority
  /\ Notification.status notification = "Sent"
  /\ Notification.isRead notification = false
  /\ Notification.isActive notification = true
  /\ Notification.sentBy notification = sentBy
  /\ notifications st' !! newId = Some notification
  /\ members st' = members st.
Proof.
  unfold Notifications.sendToMembers. intros H.
  apply createNotification_Ok_inv in H as (oids & Hc & Hfound & -> & _ & ->).
  cbn [NotificationService.targetMembers NotificationService.type
       NotificationService.priority NotificationService.status default from_option id
       Notification.targetMembers Notification.type Notification.priority
       Notification.status Notification.isRead Notification.isActive Notification.sentBy]
    in *.
  split; [exact Hc|].
  assert (Hall : List.NoDup oids
                 /\ forall o, In o oids ->
                              exists m, members st !! o = Some m /\ Member.isActive m = true).
  { destruct oids as [|o oids'] eqn:E; [split; [constructor | intros o []]|].
    rewrite <- E in *. apply find_targeted_all, Hfound. rewrite E. simpl. lia. }
  destruct Hall as [Hnd Hact].
  split; [exact Hnd|]. split; [exact Hact|].
  do 6 (split; [reflexivity|]).
  split; [apply lookup_insert_eq | reflexivity].
Qed.

Lemma sendToMembers_targets_distinct_active_witness :
  exists st' notification,
    Notifications.sendToMembers
      Sample.newId [Sample.memberIdUpper; Sample.monthEndMemberId]
      "Renewal due" "Your membership is due for renewal." (Some "Reminder") None
      Sample.adminId Sample.store
    = (st', Ok notification)
    /\ Notification.targetMembers notification = [Sample.memberId; Sample.monthEndMemberId]
    /\ Notification.priority notification = "Medium".
Proof.
  destruct (Notifications.sendToMembers
              Sample.newId [Sample.memberIdUpper; Sample.monthEndMemberId]
              "Renewal due" "Your membership is due for renewal." (Some "Reminder") None
              Sample.adminId Sample.store)
    as [st' [notification|err]] eqn:H; [|vm_compute in H; discriminate H].
  exists st', notification. split; [reflexivity|].
  destruct (sendToMembers_targets_distinct_active _ _ _ _ _ _ _ _ _ _ H)
    as (Hc & _ & _ & _ & Hp & _).
  split; [|exact Hp].
  assert (E : NotificationService.castAll [Sample.memberIdUpper; Sample.monthEndMemberId]
              = Some [Sample.memberId; Sample.monthEndMemberId]) by reflexivity.
  rewrite E in Hc. injection Hc as <-. reflexivity.
Defined.

(** X15.  The life of a broadcast: a notification that [sendToAllMembers]
    returns has no target members; [getNotificationById] on its id returns
    it; after [deleteNotification], which keeps the record with [isActive]
    false, [getNotificationById] answers "Notification not found". *)
Theorem sendToAllMembers_get_delete
        newId title message type priority sentBy st st1 notification :
  ObjectId.cast newId = Some newId ->
  Notifications.sendToAllMembers newId title message type priority sentBy st
  = (st1, Ok notification) ->
  Notification.targetMembers notification = []
  /\ Notifications.getNotificationById newId st1 = Ok notification
  /\ exists st2 deleted,
      Notifications.deleteNotification newId st1 = (st2, Ok deleted)
      /\ notifications st2 !! newId = Some deleted
      /\ deleted = Notifications.set_isActive false notification
      /\ Notifications.getNotificationById newId st2
         = Throw (Js.newError "Notification not found").
Proof.
  unfold Notifications.sendToAllMembers. intros Hid H.
  apply createNotification_Ok_inv in H as (oids & Hc & _ & -> & _ & ->).
  cbn [NotificationService.targetMembers default from_option id
       NotificationService.castAll] in Hc.
  injection Hc as <-.
  split; [reflexivity|].
  unfold Notifications.getNotificationById, Notifications.deleteNotification,
    Query.findById.
  rewrite Hid. cbn [notifications set_notifications]. rewrite lookup_insert_eq.
  split; [reflexivity|].
  do 2 eexists. split; [reflexivity|].
  cbn [notifications set_notifications]. rewrite lookup_insert_eq.
  split; [reflexivity|]. split; reflexivity.
Qed.

Lemma sendToAllMembers_get_delete_witness :
  exists st1 notification,
    Notifications.sendToAllMembers
      Sample.newId "  Office closed " "The office is closed on Friday." None (Some "Low")
      Sample.adminId Sample.store
    = (st1, Ok notification)
    /\ Notification.title notification = "Office closed"
    /\ Notifications.getNotificationById Sample.newId st1 = Ok notification.
Proof.
  destruct (Notifications.sendToAllMembers
              Sample.newId "  Office closed " "The office is closed on Friday." None
              (Some "Low") Sample.adminId Sample.store)
    as [st1 [notification|err]] eqn:H; [|vm_compute in H; discriminate H].
  exists st1, notification. split; [reflexivity|].
  destruct (sendToAllMembers_get_delete Sample.newId _ _ _ _ _ _ _ _ eq_refl H)
    as (_ & Hg & _).
  split; [|exact Hg].
  vm_compute in H. injection H as _ <-. reflexivity.
Defined.

(* ===================================================================== *)
(** * Registration *)
(* ===================================================================== *)

Lemma register_inv hashPassword generateToken newId userData st st' r :
  AuthRegistration.register hashPassword generateToken newId userData st = (st', r) ->
  (st' = st /\ exists e, r = Throw e)
  \/ (Spec.unknownEmail st (AuthRegistration.email userData)
      /\ UserSchema.validate (AuthRegistration.newUser userData) = []
      /\ let user := AuthRegistration.set_password
                       (hashPassword (AuthRegistration.password userData))
                       (AuthRegistration.newUser userData) in
         st' = mkStore (<[newId := user]> (users st)) (members st) (zones st) (events st)
                       (payments st) (notifications st)
         /\ r = Ok (AuthService.mkSession
                      (AuthService.mkUserResponse newId (User.name user) (User.email user)
                                                  (User.role user) (User.isActive user))
                      (generateToken newId))).
Proof.
  unfold AuthRegistration.register. intros H.
  destruct (Query.findOne (users st) (AuthService.byEmail (AuthRegistration.email userData)))
    as [x|] eqn:E.
  - injection H as <- <-. left. split; [reflexivity | eexists; reflexivity].
  - destruct (UserSchema.validate (AuthRegistration.newUser userData)) as [|msg msgs] eqn:Hv.
    + injection H as <- <-. right. split; [|repeat split].
      intros k u Hk Heq. pose proof (findOne_None_inv _ _ E k u Hk) as Hf.
      unfold AuthService.byEmail in Hf. rewrite Heq, String.eqb_refl in Hf.
      discriminate Hf.
    + injection H as <- <-. left. split; [reflexivity | eexists; reflexivity].
Qed.

Lemma uniqueEmails_insert st newId user :
  Spec.uniqueEmails st ->
  (forall k u, users st !! k = Some u -> User.email u <> User.email user) ->
  Spec.uniqueEmails (mkStore (<[newId := user]> (users st)) (members st) (zones st)
                             (events st) (payments st) (notifications st)).
Proof.
  intros Hu Hunknown k1 k2 u1 u2 H1 H2 Heq. cbn [users] in H1, H2.
  apply lookup_insert_Some in H1 as [[<- <-]|[Hne1 H1]];
    apply lookup_insert_Some in H2 as [[<- <-]|[Hne2 H2]].
  - reflexivity.
  - exfalso. apply (Hunknown _ _ H2). rewrite <- Heq. reflexivity.
  - exfalso. apply (Hunknown _ _ H1). rewrite Heq. reflexivity.
  - eapply Hu; eauto.
Qed.

(** X16.  [register] keeps the emails of the stored users pairwise
    different, whether it succeeds or fails: the unique index on [email]
    is never put to the test. *)
Theorem register_keeps_emails_unique hashPassword generateToken newId userData st st' r :
  Spec.uniqueEmails st ->
  AuthRegistration.register hashPassword generateToken newId userData st = (st', r) ->
  Spec.uniqueEmails st'.
Proof.
  intros Hu H.
  apply register_inv in H as [[-> _]|(Hunknown & _ & -> & _)]; [exact Hu|].
  apply uniqueEmails_insert; [exact Hu | exact Hunknown].
Qed.

Lemma register_keeps_emails_unique_witness :
  exists st' session,
    AuthRegistration.register Fixture.hash Sample.sign Sample.newId Fixture.meera
                              Sample.store
    = (st', Ok session)
    /\ Spec.uniqueEmails st'.
Proof.
  destruct (AuthRegistration.register Fixture.hash Sample.sign Sample.newId Fixture.meera
                                      Sample.store)
    as [st' [session|err]] eqn:H; [|vm_compute in H; discriminate H].
  exists st', session. split; [reflexivity|].
  exact (register_keeps_emails_unique _ _ _ _ _ _ _ Sample_uniqueEmails H).
Defined.

(** X17.  Registration and login fit together.  After a successful
    [register], a [login] with the registered password and the registered
    email, in whatever letter case, succeeds, provided [bcrypt.compare]
    accepts the password against its own hash: it returns the user that
    [register] returned (without password) and a token that is signed, at
    the time of the login, for the id of the new user; the two tokens
    need not be the same.  A further [register] with that email, in
    whatever letter case, is refused with "User already exists with this
    email" and stores nothing. *)
Theorem register_then_login
        hashPassword comparePassword generateToken generateToken'
        newId userData st st1 session :
  Spec.uniqueEmails st ->
  comparePassword (AuthRegistration.password userData)
                  (hashPassword (AuthRegistration.password userData)) = true ->
  AuthRegistration.register hashPassword generateToken newId userData st
  = (st1, Ok session) ->
  AuthService.token session = generateToken newId
  /\ AuthService._id (AuthService.user session) = newId
  /\ forall email,
      Js.toLowerCase email = Js.toLowerCase (AuthRegistration.email userData) ->
      AuthService.login comparePassword generateToken' email
                        (AuthRegistration.password userData) st1
      = Ok (AuthService.mkSession (AuthService.user session) (generateToken' newId))
      /\ forall newId' name password role,
          AuthRegistration.register hashPassword generateToken' newId'
                                    (AuthRegistration.mkUserData name email password role)
                                    st1
          = (st1, Throw (Js.newError "User already exists with this email")).
Proof.
  intros Hu Hcmp H.
  apply register_inv in H as [[_ [e He]]|(Hunknown & _ & -> & Hs)]; [discriminate He|].
  injection Hs as ->.
  split; [reflexivity|]. split; [reflexivity|].
  intros email Hemail.
  pose proof (uniqueEmails_insert
                st newId
                (AuthRegistration.set_password
                   (hashPassword (AuthRegistration.password userData))
                   (AuthRegistration.newUser userData)) Hu Hunknown) as Hu1.
  set (user := AuthRegistration.set_password
                 (hashPassword (AuthRegistration.password userData))
                 (AuthRegistration.newUser userData)) in *.
  set (st1 := mkStore _ _ _ _ _ _) in *.
  assert (Hfind : Query.findOne (users st1) (AuthService.byEmail email) = Some (newId, user)).
  { apply login_finds_user; [exact Hu1 | apply lookup_insert_eq | exact Hemail]. }
  split.
  - unfold AuthService.login. rewrite Hfind. cbn [User.isActive user
      AuthRegistration.set_password AuthRegistration.newUser negb User.password].
    rewrite Hcmp. reflexivity.
  - intros newId' name password role. unfold AuthRegistration.register.
    cbn [AuthRegistration.email]. rewrite Hfind. reflexivity.
Qed.

Lemma register_then_login_witness :
  exists st1 session session',
    AuthRegistration.register Fixture.hash (Fixture.signAt "1762160400") Sample.newId
                              Fixture.meera Sample.store
    = (st1, Ok session)
    /\ AuthService.login Sample.compare (Fixture.signAt "1762246800")
                         "MEERA.N@example.ORG" "Secret1" st1
       = Ok session'
    /\ AuthService.user session' = AuthService.user session
    /\ AuthService.email (AuthService.user session') = "meera.n@example.org"
    /\ AuthService.token session' <> AuthService.token session.
Proof.
  destruct (AuthRegistration.register Fixture.hash (Fixture.signAt "1762160400")
                                      Sample.newId Fixture.meera Sample.store)
    as [st1 [session|err]] eqn:H; [|vm_compute in H; discriminate H].
  destruct (register_then_login Fixture.hash Sample.compare
                                (Fixture.signAt "1762160400") (Fixture.signAt "1762246800")
                                Sample.newId Fixture.meera Sample.store st1 session
                                Sample_uniqueEmails eq_refl H) as (Ht & _ & Hl).
  destruct (Hl "MEERA.N@example.ORG" eq_refl) as [Hlogin _].
  exists st1, session, (AuthService.mkSession (AuthService.user session)
                                              (Fixture.signAt "1762246800" Sample.newId)).
  split; [reflexivity|]. split; [exact Hlogin|]. split; [reflexivity|].
  split.
  - vm_compute in H. injection H as _ <-. reflexivity.
  - rewrite Ht. vm_compute. discriminate.
Defined.

(* ===================================================================== *)
(** * Authentication and authorization of a request *)
(* ===================================================================== *)

(** X18.  A request passes [authenticate] and [authorize(...roles)] only
    with an Authorization header "Bearer <token>" whose token verifies and
    carries the id of a stored user who is active and whose role is one
    of [roles]; that user is the one put on the request. *)
Theorem guard_next_sound verify roles authHeader st uid user :
  AuthMiddleware.guard verify roles authHeader st = AuthMiddleware.Next (uid, user) ->
  exists header id,
    authHeader = Some header
    /\ AuthMiddleware.startsWith "Bearer " header = true
    /\ verify (AuthMiddleware.tokenOf header) = Some id
    /\ ObjectId.cast id = Some uid
    /\ users st !! uid = Some user
    /\ User.isActive user = true
    /\ In (User.role user) roles.
Proof.
  unfold AuthMiddleware.guard, AuthMiddleware.authenticate, AuthMiddleware.authorize,
    Query.findById.
  intros H.
  destruct authHeader as [header|]; [|discriminate H].
  destruct (String.eqb header EmptyString); [discriminate H|]. cbn [orb] in H.
  destruct (AuthMiddleware.startsWith "Bearer " header) eqn:Hb; [|discriminate H].
  cbn [negb] in H.
  destruct (verify (AuthMiddleware.tokenOf header)) as [id|] eqn:Hv; [|discriminate H].
  destruct (ObjectId.cast id) as [oid|] eqn:Hc; [|discriminate H].
  destruct (users st !! oid) as [u|] eqn:Hu; [|discriminate H].
  destruct (User.isActive u) eqn:Ha; [|discriminate H]. cbn [negb snd] in H.
  destruct (Payment.inb (User.role u) roles) eqn:Hr; [|discriminate H].
  cbn [negb] in H. injection H as <- <-.
  exists header, id. repeat split; try assumption.
  apply existsb_eqb_In. exact Hr.
Qed.

Lemma guard_next_sound_witness :
  exists user,
    AuthMiddleware.guard Fixture.verify ["Admin"; "Member"]
                         (Some "Bearer jwt.64b7f0c2a1d3e4f5a6b7c8a1") Sample.store
    = AuthMiddleware.Next (Sample.userId, user)
    /\ users Sample.store !! Sample.userId = Some user
    /\ User.isActive user = true.
Proof.
  exists Sample.user.
  assert (H : AuthMiddleware.guard Fixture.verify ["Admin"; "Member"]
                                   (Some "Bearer jwt.64b7f0c2a1d3e4f5a6b7c8a1") Sample.store
              = AuthMiddleware.Next (Sample.userId, Sample.user)) by reflexivity.
  split; [exact H|].
  destruct (guard_next_sound _ _ _ _ _ _ H) as (header & id & _ & _ & _ & _ & Hu & Ha & _).
  split; [exact Hu | exact Ha].
Defined.

(** X19.  Every response that [authenticate] followed by
    [authorize(...roles)] sends is a failure with status 401 or 403; it is
    403 exactly when the request is authenticated (the token verifies and
    names a stored active user) and the user's role is none of [roles].
    A deactivated user, a user that no longer exists and a token that
    does not verify are all answered with 401. *)
Theorem guard_sent_status verify roles authHeader st res :
  AuthMiddleware.guard verify roles authHeader st = AuthMiddleware.Sent res ->
  success res = false
  /\ (status res = HTTP_STATUS.UNAUTHORIZED \/ status res = HTTP_STATUS.FORBIDDEN)
  /\ (status res = HTTP_STATUS.FORBIDDEN
      <-> exists uid user,
          AuthMiddleware.authenticate verify authHeader st = AuthMiddleware.Next (uid, user)
          /\ ~ In (User.role user) roles).
Proof.
  unfold AuthMiddleware.guard. intros H.
  destruct (AuthMiddleware.authenticate verify authHeader st) as [res'|[uid user]] eqn:Ha.
  - injection H as ->.
    assert (Hs : success res = false /\ status res = HTTP_STATUS.UNAUTHORIZED).
    { revert Ha. unfold AuthMiddleware.authenticate.
      repeat match goal with
             | |- AuthMiddleware.Sent _ = AuthMiddleware.Sent _ -> _ =>
                 let E := fresh in intros E; injection E as <-; split; reflexivity
             | |- AuthMiddleware.Next _ = AuthMiddleware.Sent _ -> _ => discriminate
             | |- match ?c with _ => _ end = _ -> _ => destruct c
             | |- (if ?c then _ else _) = _ -> _ => destruct c
             end. }
    destruct Hs as [Hs1 Hs2]. split; [exact Hs1|]. split; [left; exact Hs2|].
    rewrite Hs2. split; [discriminate|]. intros (uid & user & E & _). discriminate E.
  - unfold AuthMiddleware.authorize in H. cbn [snd] in H.
    destruct (Payment.inb (User.role user) roles) eqn:Hr; [discriminate H|].
    cbn [negb] in H. injection H as <-.
    split; [reflexivity|]. split; [right; reflexivity|].
    split; [|reflexivity]. intros _. exists uid, user. split; [reflexivity|].
    intros Hin. apply existsb_eqb_In in Hin. unfold Payment.inb in Hr. congruence.
Qed.

Lemma guard_sent_status_witness :
  exists res,
    AuthMiddleware.guard Fixture.verify ["Admin"]
                         (Some "Bearer jwt.64b7f0c2a1d3e4f5a6b7c8a1") Sample.store
    = AuthMiddleware.Sent res
    /\ status res = HTTP_STATUS.FORBIDDEN
    /\ exists res',
        AuthMiddleware.guard Fixture.verify ["Admin"]
                             (Some "Bearer jwt.64b7f0c2a1d3e4f5a6b7c8a2") Sample.store
        = AuthMiddleware.Sent res'
        /\ status res' = HTTP_STATUS.UNAUTHORIZED.
Proof.
  destruct (AuthMiddleware.guard Fixture.verify ["Admin"]
                                 (Some "Bearer jwt.64b7f0c2a1d3e4f5a6b7c8a1") Sample.store)
    as [res|u] eqn:H; [|vm_compute in H; discriminate H].
  exists res. split; [reflexivity|].
  destruct (guard_sent_status _ _ _ _ _ H) as (_ & _ & Hiff).
  split.
  - apply Hiff. exists Sample.userId, Sample.user. split; [reflexivity|].
    intros [E|[]]. discriminate E.
  - eexists. split; reflexivity.
Defined.

(* ===================================================================== *)
(** * Paging *)
(* ===================================================================== *)

Lemma ceilDiv_spec total limit :
  0 < limit ->
  (Paging.ceilDiv total limit - 1) * limit < total <= Paging.ceilDiv total limit * limit.
Proof.
  intros Hl. unfold Paging.ceilDiv.
  pose proof (Z.div_mod (- total) limit ltac:(lia)) as Hdm.
  pose proof (Z.mod_pos_bound (- total) limit Hl) as Hb.
  nia.
Qed.

Lemma paginate_reads {D} page limit p l (sorted : list D) :
  Inv.reads page 1 p -> Inv.reads limit 10 l ->
  1 <= p -> 1 <= l -> (p - 1) * l <= Js.MAX_SAFE_INTEGER ->
  Paging.paginate page limit sorted
  = Some (firstn (Z.to_nat l) (skipn (Z.to_nat ((p - 1) * l)) sorted),
          Paging.mkPagination p (Paging.ceilDiv (Z.of_nat (length sorted)) l)
                              (Z.of_nat (length sorted))
                              (p * l <? Z.of_nat (length sorted)) (1 <? p)).
Proof.
  intros [Hp1 Hp2] [Hl1 Hl2] Hp Hl Hsafe. unfold Paging.paginate.
  rewrite Hp1, Hl1, Hp2, Hl2. cbv zeta.
  destruct (Z.eqb_spec p 0) as [E|_]; [lia|].
  destruct (Z.eqb_spec l 0) as [E|_]; [lia|].
  destruct (Z.ltb_spec Js.MAX_SAFE_INTEGER ((p - 1) * l)) as [E|_]; [lia|].
  reflexivity.
Qed.

(** A run of decimal digits is read alike by [Number] and [parseInt]. *)
Lemma digits_all s : forall acc,
  forallb Js.isDigit (list_ascii_of_string s) = true ->
  snd (Js.digits acc s) = EmptyString.
Proof.
  induction s as [|c s IH]; intros acc H; [reflexivity|].
  simpl in H. apply andb_true_iff in H as [Hc Hs].
  cbn [Js.digits]. rewrite Hc. apply IH. exact Hs.
Qed.

Lemma digits_only_reads s default :
  Js.beginsWithDigit s = true ->
  Js.radixPrefix s = false ->
  forallb Js.isDigit (list_ascii_of_string s) = true ->
  fst (Js.digits 0 s) <= Js.MAX_SAFE_INTEGER ->
  Inv.reads (Some s) default (fst (Js.digits 0 s)).
Proof.
  intros Hb Hr Hall Hsafe.
  assert (Hs : Js.safe (fst (Js.digits 0 s)) = Some (fst (Js.digits 0 s))).
  { unfold Js.safe. destruct (Z.leb_spec (fst (Js.digits 0 s)) Js.MAX_SAFE_INTEGER); [reflexivity | lia]. }
  split.
  - unfold Paging.numberOf, Js.numberOfString. rewrite Hb, Hr. cbn [negb andb].
    pose proof (digits_all s 0 Hall) as Hrest.
    destruct (Js.digits 0 s) as [d rest]. simpl in Hrest. subst rest. exact Hs.
  - unfold Paging.parseIntOf, Js.parseInt. rewrite Hb, Hr. exact Hs.
Qed.

(** X20.  A list method whose [page] and [limit] are absent, or numerals
    that [Number] and [parseInt] read as the same numbers, [page] at least
    1 and [limit] at least 1, answers with [limit] documents, or with what
    is left of the matching documents after the earlier pages when that
    is less; [currentPage] is the page asked for, [hasNext] holds exactly
    when the page is before the last one, [hasPrev] exactly when it is
    after the first, and the pages counted are just enough to hold all
    the documents. *)
Theorem paginate_page_size {D} page limit p l (sorted : list D) :
  Inv.reads page 1 p -> Inv.reads limit 10 l ->
  1 <= p -> 1 <= l -> (p - 1) * l <= Js.MAX_SAFE_INTEGER ->
  exists docs pagination,
    Paging.paginate page limit sorted = Some (docs, pagination)
    /\ Z.of_nat (length docs)
       = Z.min l (Z.max 0 (Z.of_nat (length sorted) - (p - 1) * l))
    /\ Paging.currentPage pagination = p
    /\ Paging.total pagination = Z.of_nat (length sorted)
    /\ (Paging.hasNext pagination = true
        <-> Paging.currentPage pagination < Paging.totalPages pagination)
    /\ (Paging.hasPrev pagination = true <-> 1 < Paging.currentPage pagination)
    /\ (Paging.totalPages pagination - 1) * l
       < Paging.total pagination <= Paging.totalPages pagination * l
    /\ (docs = [] <-> Paging.totalPages pagination < p).
Proof.
  intros Hpage Hlimit Hp Hl Hsafe.
  rewrite (paginate_reads page limit p l) by assumption.
  do 2 eexists. split; [reflexivity|].
  pose proof (ceilDiv_spec (Z.of_nat (length sorted)) l ltac:(lia)) as Hc.
  cbn [Paging.hasNext Paging.hasPrev Paging.currentPage Paging.totalPages Paging.total].
  assert (Hlen : Z.of_nat (length (firstn (Z.to_nat l)
                                          (skipn (Z.to_nat ((p - 1) * l)) sorted)))
                 = Z.min l (Z.max 0 (Z.of_nat (length sorted) - (p - 1) * l))).
  { rewrite length_firstn, length_skipn. nia. }
  split; [exact Hlen|].
  split; [reflexivity|]. split; [reflexivity|].
  split; [rewrite Z.ltb_lt; nia|].
  split; [rewrite Z.ltb_lt; reflexivity|].
  split; [exact Hc|].
  split.
  - intros E. rewrite E in Hlen. simpl in Hlen. nia.
  - intros Hlt. apply length_zero_iff_nil. nia.
Qed.

(** The two readings part on a numeral with an exponent: asked for
    [page=1e1], the method skips nine pages and answers [currentPage: 1]
    with [hasPrev: true]. *)
Lemma paginate_exponent_page :
  Paging.paginate (Some "1e1") (Some "2") ["a"; "b"; "c"]
  = Some ([], Paging.mkPagination 1 2 3 false true).
Proof. reflexivity. Qed.

Lemma pages_firstn {D} limit l (sorted : list D) :
  Inv.reads limit 10 l -> 1 <= l ->
  forall requests first,
    1 <= first ->
    (first + Z.of_nat (length requests) - 2) * l <= Js.MAX_SAFE_INTEGER ->
    Forall2 (fun i request => Inv.reads (fst request) 1 i /\ snd request = sorted)
            (seqZ first (Z.of_nat (length requests))) requests ->
    Paging.pages limit requests
    = Some (firstn (length requests * Z.to_nat l)
                   (skipn (Z.to_nat ((first - 1) * l)) sorted)).
Proof.
  intros Hlimit Hl.
  induction requests as [|[page order] requests IH]; intros first Hfirst Hsafe Hall.
  - reflexivity.
  - cbn [length] in Hall, Hsafe.
    rewrite Nat2Z.inj_succ in Hall, Hsafe.
    rewrite seqZ_cons in Hall by lia.
    apply Forall2_cons_1 in Hall as [[Hpage Horder] Hall].
    cbn [fst snd] in Hpage, Horder. subst order.
    replace (Z.pred (Z.succ (Z.of_nat (length requests))))
      with (Z.of_nat (length requests)) in Hall by lia.
    cbn [Paging.pages].
    rewrite (paginate_reads page limit first l) by (try assumption; nia).
    rewrite (IH (Z.succ first)) by (try assumption; lia).
    f_equal. cbn [length].
    replace (S (length requests) * Z.to_nat l)%nat
      with (Z.to_nat l + length requests * Z.to_nat l)%nat by lia.
    rewrite <- take_take_drop. f_equal. f_equal. rewrite drop_drop. f_equal. nia.
Qed.

(** X21.  When the requests for the pages 1, 2, ..., [totalPages] of a
    list method, with the same [limit] (at least 1, read alike by
    [Number] and [parseInt], as the pages are), all see the matching
    documents in the same order, their documents one after the other are
    the matching documents in that order: no document is skipped and none
    is repeated.  The same order at each request means that the documents
    do not change between the requests and that the server's sort puts
    the documents that the sort key does not tell apart in the same order
    each time. *)
Theorem pages_cover_all {D} limit l (sorted : list D) requests :
  Inv.reads limit 10 l ->
  1 <= l ->
  Z.of_nat (length sorted) <= Js.MAX_SAFE_INTEGER ->
  Forall2 (fun i request => Inv.reads (fst request) 1 i /\ snd request = sorted)
          (seqZ 1 (Paging.ceilDiv (Z.of_nat (length sorted)) l)) requests ->
  Paging.pages limit requests = Some sorted.
Proof.
  intros Hlimit Hl Hsafe Hall.
  pose proof (ceilDiv_spec (Z.of_nat (length sorted)) l ltac:(lia)) as Hc.
  assert (Hlen : Z.of_nat (length requests)
                 = Paging.ceilDiv (Z.of_nat (length sorted)) l).
  { apply Forall2_length in Hall. rewrite length_seqZ in Hall. nia. }
  rewrite <- Hlen in Hall.
  rewrite (pages_firstn limit l sorted Hlimit Hl requests 1) by (try assumption; nia).
  change (Z.to_nat ((1 - 1) * l)) with O. cbn [skipn].
  f_equal. apply firstn_all2. nia.
Qed.

(** Without the same order at each request, the pages need not cover the
    documents: two documents that the sort key does not tell apart, given
    in one order to the request for page 1 and in the other to the
    request for page 2, with one document a page, make the first document
    come twice and the second not at all. *)
Lemma pages_tie_repeats_and_skips :
  Paging.pages (Some "1") [(Some "1", ["a"; "b"]); (Some "2", ["b"; "a"])]
  = Some ["a"; "a"].
Proof. reflexivity. Qed.

Lemma pages_cover_all_witness :
  Paging.pages (Some "2")
               [(Some "1", ["a"; "b"; "c"; "d"; "e"]);
                (Some "2", ["a"; "b"; "c"; "d"; "e"]);
                (Some "3", ["a"; "b"; "c"; "d"; "e"])]
  = Some ["a"; "b"; "c"; "d"; "e"].
Proof.
  apply (pages_cover_all (Some "2") 2 ["a"; "b"; "c"; "d"; "e"]).
  - split; reflexivity.
  - lia.
  - vm_compute. discriminate.
  - repeat constructor.
Defined.

Lemma paginate_page_size_witness :
  exists docs pagination,
    Paging.paginate (Some "2") None ["a"; "b"; "c"; "d"; "e"; "f"; "g"; "h"; "i"; "j"; "k"; "l"]
    = Some (docs, pagination)
    /\ Z.of_nat (length docs) = 2
    /\ Paging.currentPage pagination = 2
    /\ Paging.hasPrev pagination = true.
Proof.
  destruct (paginate_page_size
              (Some "2") None 2 10
              ["a"; "b"; "c"; "d"; "e"; "f"; "g"; "h"; "i"; "j"; "k"; "l"])
    as (docs & pagination & H1 & H2 & H3 & _ & _ & H4 & _).
  - split; reflexivity.
  - split; reflexivity.
  - lia.
  - lia.
  - vm_compute. discriminate.
  - exists docs, pagination. split; [exact H1|]. split; [exact H2|]. split; [exact H3|].
    apply H4. rewrite H3. lia.
Defined.

(* ===================================================================== *)
(** * Uploaded files *)
(* ===================================================================== *)

Lemma every_prefix signature buffer :
  UploadMiddleware.every signature buffer = true
  <-> exists rest, buffer = (signature ++ rest)%list.
Proof.
  revert buffer. induction signature as [|byte signature IH]; intros buffer.
  - simpl. split; [intros _; exists buffer; reflexivity | reflexivity].
  - destruct buffer as [|b buffer]; simpl.
    + split; [discriminate | intros [rest H]; discriminate H].
    + rewrite andb_true_iff, Z.eqb_eq, IH. split.
      * intros [-> [rest ->]]. exists rest. reflexivity.
      * intros [rest H]. injection H as -> ->. split; [reflexivity | exists rest; reflexivity].
Qed.

Lemma some_every_prefix fileSignatures buffer :
  existsb (fun signature => UploadMiddleware.every signature buffer) fileSignatures = true
  <-> exists signature rest,
      In signature fileSignatures /\ buffer = (signature ++ rest)%list.
Proof.
  rewrite existsb_exists. split.
  - intros (signature & Hin & H). apply every_prefix in H as [rest ->]. eauto.
  - intros (signature & rest & Hin & ->). exists signature. split; [exact Hin|].
    apply every_prefix. eauto.
Qed.

Lemma Ok_true_iff (b : bool) : @Ok bool b = Ok true <-> b = true.
Proof. split; [intros H; injection H as H; exact H | intros ->; reflexivity]. Qed.

Lemma not_inherited mimetype :
  In mimetype UploadMiddleware.allowedMimeTypes -> ~ In mimetype UploadMiddleware.inherited.
Proof.
  intros Hm Hin. simpl in Hm. destruct Hm as [E|[E|[E|[]]]]; rewrite <- E in Hin;
    simpl in Hin; repeat (destruct Hin as [Hin|Hin]; [discriminate Hin|]); exact Hin.
Qed.

Lemma validateFileSignature_Throw buffer mimetype :
  (exists e, UploadMiddleware.validateFileSignature buffer mimetype = Throw e)
  <-> In mimetype UploadMiddleware.inherited.
Proof.
  unfold UploadMiddleware.validateFileSignature. cbv zeta.
  destruct (String.eqb_spec mimetype "image/jpeg") as [->|Hj];
    [split; [intros [e H]; discriminate H | intros H; exfalso;
             revert H; apply not_inherited; solve_In]|].
  destruct (String.eqb_spec mimetype "image/png") as [->|Hp];
    [split; [intros [e H]; discriminate H | intros H; exfalso;
             revert H; apply not_inherited; solve_In]|].
  destruct (String.eqb_spec mimetype "image/webp") as [->|Hw];
    [split; [intros [e H]; discriminate H | intros H; exfalso;
             revert H; apply not_inherited; solve_In]|].
  unfold Payment.inb.
  destruct (existsb (String.eqb mimetype) UploadMiddleware.inherited) eqn:E.
  - split; [intros _; apply existsb_eqb_In; exact E | intros _; eexists; reflexivity].
  - split; [intros [e H]; discriminate H|].
    intros Hin. apply existsb_eqb_In in Hin. congruence.
Qed.

(** X22.  [validateFileSignature] answers true exactly when the declared
    type is one of image/jpeg, image/png and image/webp and the buffer
    begins with a signature of that type; a buffer shorter than the
    signature is refused. *)
Theorem validateFileSignature_true_iff buffer mimetype :
  UploadMiddleware.validateFileSignature buffer mimetype = Ok true
  <-> exists signature rest,
      (mimetype = "image/jpeg" /\ In signature UploadMiddleware.jpeg
       \/ mimetype = "image/png" /\ In signature UploadMiddleware.png
       \/ mimetype = "image/webp" /\ In signature UploadMiddleware.webp)
      /\ buffer = (signature ++ rest)%list.
Proof.
  unfold UploadMiddleware.validateFileSignature. cbv zeta.
  destruct (String.eqb_spec mimetype "image/jpeg") as [->|Hj].
  { rewrite Ok_true_iff, some_every_prefix. split.
    - intros (s & rest & Hin & ->). exists s, rest. auto.
    - intros (s & rest & [[_ Hin]|[[E _]|[E _]]] & ->); try discriminate E. eauto. }
  destruct (String.eqb_spec mimetype "image/png") as [->|Hp].
  { rewrite Ok_true_iff, some_every_prefix. split.
    - intros (s & rest & Hin & ->). exists s, rest. auto.
    - intros (s & rest & [[E _]|[[_ Hin]|[E _]]] & ->); try discriminate E. eauto. }
  destruct (String.eqb_spec mimetype "image/webp") as [->|Hw].
  { rewrite Ok_true_iff, some_every_prefix. split.
    - intros (s & rest & Hin & ->). exists s, rest. auto.
    - intros (s & rest & [[E _]|[[E _]|[_ Hin]]] & ->); try discriminate E. eauto. }
  split.
  - intros H. destruct (Payment.inb mimetype UploadMiddleware.inherited); discriminate H.
  - intros (s & rest & [[E _]|[[E _]|[E _]]] & _); contradiction.
Qed.

Lemma fileFilter_None mimetype originalname :
  UploadMiddleware.fileFilter mimetype originalname = None ->
  In mimetype UploadMiddleware.allowedMimeTypes
  /\ In (UploadMiddleware.fileExtension originalname) UploadMiddleware.allowedExtensions.
Proof.
  unfold UploadMiddleware.fileFilter. intros H.
  destruct (Payment.inb mimetype UploadMiddleware.allowedMimeTypes) eqn:Hm;
    [|discriminate H].
  destruct (Payment.inb (UploadMiddleware.fileExtension originalname)
                        UploadMiddleware.allowedExtensions) eqn:He; [|discriminate H].
  split; apply existsb_eqb_In; assumption.
Qed.

(** X23.  The two checks of an upload, one after the other.  A file that
    [fileFilter] lets through is never answered with the status 500 of
    [validateFileContent]: either the request goes on, which it does
    exactly when the buffer begins with a signature of the declared type,
    or the answer is 400 "File content does not match the declared type".
    The extension of the name is one of the four allowed; it is not
    compared with the declared type. *)
Theorem upload_checks_compose file :
  UploadMiddleware.fileFilter (UploadMiddleware.mimetype file)
                              (UploadMiddleware.originalname file) = None ->
  In (UploadMiddleware.fileExtension (UploadMiddleware.originalname file))
     UploadMiddleware.allowedExtensions
  /\ (UploadMiddleware.validateFileContent (Some file) = None
      \/ UploadMiddleware.validateFileContent (Some file)
         = Some (mkResponse 400 false "File content does not match the declared type"))
  /\ (UploadMiddleware.validateFileContent (Some file) = None
      <-> UploadMiddleware.validateFileSignature (UploadMiddleware.buffer file)
                                                 (UploadMiddleware.mimetype file)
          = Ok true).
Proof.
  intros H. apply fileFilter_None in H as [Hm He]. split; [exact He|].
  unfold UploadMiddleware.validateFileContent.
  destruct (UploadMiddleware.validateFileSignature (UploadMiddleware.buffer file)
                                                   (UploadMiddleware.mimetype file))
    as [[|]|e] eqn:Hv.
  - split; [left; reflexivity | split; reflexivity].
  - split; [right; reflexivity | split; discriminate].
  - exfalso. apply (not_inherited _ Hm).
    apply (validateFileSignature_Throw (UploadMiddleware.buffer file)).
    eexists; exact Hv.
Qed.

Lemma upload_checks_compose_witness :
  let file := UploadMiddleware.mkFile [137; 80; 78; 71; 13; 10; 26; 10; 0; 0; 0; 13]
                                      "image/png" "Receipt.March.JPG" in
  UploadMiddleware.fileFilter (UploadMiddleware.mimetype file)
                              (UploadMiddleware.originalname file) = None
  /\ UploadMiddleware.fileExtension (UploadMiddleware.originalname file) = ".jpg"
  /\ UploadMiddleware.validateFileContent (Some file) = None.
Proof.
  intros file. split; [reflexivity|]. split; [reflexivity|].
  apply (upload_checks_compose file eq_refl). reflexivity.
Defined.

(* ===================================================================== *)
(** * Generated identifiers *)
(* ===================================================================== *)

Lemma toUpperCase_app s t :
  Js.toUpperCase (s +:+ t) = Js.toUpperCase s +:+ Js.toUpperCase t.
Proof. induction s as [|c s IH]; simpl; [reflexivity|]. rewrite IH. reflexivity. Qed.

Lemma toUpperCase_length s : String.length (Js.toUpperCase s) = String.length s.
Proof. induction s as [|c s IH]; simpl; [reflexivity|]. rewrite IH. reflexivity. Qed.

Lemma append_length s t : String.length (s +:+ t) = (String.length s + String.length t)%nat.
Proof. induction s as [|c s IH]; simpl; [reflexivity|]. rewrite IH. reflexivity. Qed.

(** X24.  The identifiers of members begin with MEM and those of payments
    with PAY, so that no member identifier is a payment identifier,
    whatever the clock and the random bytes; an identifier is as long as
    its prefix, the timestamp and the random part together, and already
    in upper case, so that the [uppercase] setter of the schemas stores it
    as generated. *)
Theorem generateId_prefix_and_case seed seed' :
  AuthMiddleware.startsWith "MEM" (Helpers.generateMemberId seed) = true
  /\ AuthMiddleware.startsWith "PAY" (Helpers.generatePaymentId seed') = true
  /\ Helpers.generateMemberId seed <> Helpers.generatePaymentId seed'
  /\ (forall prefix,
         String.length (Helpers.generateId prefix seed)
         = (String.length prefix + String.length (Helpers.timestamp seed)
            + String.length (Helpers.randomHex seed))%nat
         /\ Js.toUpperCase (Helpers.generateId prefix seed) = Helpers.generateId prefix seed).
Proof.
  split; [reflexivity|]. split; [reflexivity|]. split; [discriminate|].
  intros prefix. unfold Helpers.generateId. split.
  - rewrite toUpperCase_length, !append_length, toUpperCase_length. lia.
  - apply toUpperCase_idem.
Qed.

(* ===================================================================== *)
(** * The error handler *)
(* ===================================================================== *)

Lemma orString_not_empty x d : d <> EmptyString -> orString x d <> EmptyString.
Proof.
  unfold orString. intros Hd. destruct (String.eqb_spec x EmptyString); assumption.
Qed.

Lemma orNumber_not_zero x d : d <> 0 -> orNumber x d <> 0.
Proof.
  unfold orNumber. intros Hd. destruct x as [n|]; [|exact Hd].
  destruct (Z.eqb_spec n 0); assumption.
Qed.

Lemma append_not_empty s t : t <> EmptyString -> s +:+ t <> EmptyString.
Proof. intros Ht. destruct s; simpl; [exact Ht | discriminate]. Qed.

Lemma orString_append s t d : t <> EmptyString -> orString (s +:+ t) d = s +:+ t.
Proof.
  intros Ht. unfold orString.
  destruct (String.eqb_spec (s +:+ t) EmptyString) as [E|_]; [|reflexivity].
  destruct (append_not_empty s t Ht E).
Qed.

(** X25.  For every error on which [errorHandler] does not itself throw
    (a duplicate-key error has its [keyValue], a validation error its
    [errors], and the status to send is within 100..999), the response is
    a failure with a message that is not empty.  The rules apply in the
    order of the source and a later one overrides an earlier one: a
    validation error is answered with 400 and a token error with 401
    whatever else the error carries; a duplicate-key error (code 11000)
    that is neither of these with 409 and the first key of [keyValue]
    followed by " already exists", a cast error among them; a cast error
    without that code with 404 "Resource not found"; and any other error
    with its own [statusCode], 500 when it has none or 0, and its own
    message, "Server Error" when that is empty. *)
Theorem errorHandler_rules err :
  errorHandler_throws err = false ->
  let res := errorHandler err in
  success res = false
  /\ 100 <= status res <= 999
  /\ message res <> EmptyString
  /\ (Js.name err = "ValidationError" -> status res = HTTP_STATUS.BAD_REQUEST)
  /\ (Js.name err = "JsonWebTokenError" \/ Js.name err = "TokenExpiredError" ->
      status res = HTTP_STATUS.UNAUTHORIZED)
  /\ (Js.code err = Some 11000 ->
      ~ In (Js.name err) ["ValidationError"; "JsonWebTokenError"; "TokenExpiredError"] ->
      status res = HTTP_STATUS.CONFLICT
      /\ exists keys,
          Js.keyValue err = Some keys
          /\ message res = hd "undefined" keys +:+ " already exists")
  /\ (Js.name err = "CastError" -> Js.code err <> Some 11000 ->
      status res = HTTP_STATUS.NOT_FOUND /\ message res = "Resource not found")
  /\ (~ In (Js.name err)
        ["CastError"; "ValidationError"; "JsonWebTokenError"; "TokenExpiredError"] ->
      Js.code err <> Some 11000 ->
      status res = orNumber (Js.statusCode err) HTTP_STATUS.INTERNAL_SERVER_ERROR
      /\ message res = orString (Js.message err) "Server Error").
Proof.
  unfold errorHandler_throws, errorHandler, errorHandler_error. cbv zeta.
  cbn [status success message].
  intros Hthrows.
  apply orb_false_iff in Hthrows as [Hthrows Hrange].
  apply orb_false_iff in Hthrows as [Hkeys _].
  apply orb_false_iff in Hrange as [Hlow Hhigh].
  apply Z.ltb_ge in Hlow. apply Z.ltb_ge in Hhigh.
  split; [reflexivity|].
  split; [split; assumption|].
  split; [apply orString_not_empty; discriminate|].
  clear Hlow Hhigh.
  destruct (String.eqb_spec (Js.name err) "TokenExpiredError") as [Ht|Ht];
    destruct (String.eqb_spec (Js.name err) "JsonWebTokenError") as [Hj|Hj];
    destruct (String.eqb_spec (Js.name err) "ValidationError") as [Hv|Hv];
    destruct (String.eqb_spec (Js.name err) "CastError") as [Hc|Hc];
    try (rewrite Ht in *); try (rewrite Hj in *); try (rewrite Hv in *);
    try (rewrite Hc in *); try discriminate;
    destruct (bool_decide_reflect (Js.code err = Some 11000)) as [Hd|Hd];
    destruct (Js.keyValue err) as [keys|]; try discriminate Hkeys;
    cbn [fst snd default from_option id];
    repeat split; intros;
    repeat match goal with
           | H : _ \/ _ |- _ => destruct H
           end;
    try solve [exfalso; match goal with H : ~ In _ _ |- _ => apply H; solve_In end];
    try (eexists; split; [reflexivity | apply orString_append; discriminate]);
    try (split; reflexivity);
    try reflexivity; try discriminate; try contradiction; try congruence.
Qed.

Lemma errorHandler_rules_witness :
  let err := Js.mkError "CastError" "E11000 duplicate key error" None (Some 11000)
                        (Some ["email"]) None in
  errorHandler_throws err = false
  /\ status (errorHandler err) = 409
  /\ message (errorHandler err) = "email already exists".
Proof.
  intros err. split; [reflexivity|].
  destruct (errorHandler_rules err eq_refl) as (_ & _ & _ & _ & _ & H & _).
  destruct H as (Hs & keys & Hk & Hm).
  - reflexivity.
  - intros [E|[E|[E|[]]]]; discriminate E.
  - split; [exact Hs|]. rewrite Hm. injection Hk as <-. reflexivity.
Defined.

(* ===================================================================== *)
(** * Reports *)
(* ===================================================================== *)

Lemma find_app_last {A} (p : A -> bool) l x :
  List.find p (l ++ [x])%list
  = match List.find p l with
    | Some y => Some y
    | None => if p x then Some x else None
    end.
Proof.
  induction l as [|y l IH]; simpl; [reflexivity|].
  destruct (p y); [reflexivity | exact IH].
Qed.

Lemma fold_assign_lookup data : forall (acc : gmap string Z) k,
  fold_left ReportService.assign data acc !! k
  = match List.find (fun item => String.eqb (ReportService.keyOf item) k) (rev data) with
    | Some item =>
        if String.eqb k "__proto__" then acc !! k else Some (ReportService.count item)
    | None => acc !! k
    end.
Proof.
  induction data as [|x data IH]; intros acc k; [reflexivity|].
  cbn [fold_left rev]. rewrite IH, find_app_last.
  destruct (List.find (fun item => String.eqb (ReportService.keyOf item) k) (rev data))
    as [item|].
  - destruct (String.eqb_spec k "__proto__") as [->|Hk]; [|reflexivity].
    unfold ReportService.assign.
    destruct (String.eqb_spec (ReportService.keyOf x) "__proto__") as [E|E]; [reflexivity|].
    apply lookup_insert_ne. exact E.
  - unfold ReportService.assign.
    destruct (String.eqb_spec (ReportService.keyOf x) k) as [<-|Hx].
    + destruct (String.eqb_spec (ReportService.keyOf x) "__proto__") as [E|E];
        [reflexivity | apply lookup_insert_eq].
    + destruct (String.eqb_spec (ReportService.keyOf x) "__proto__") as [E|E];
        [reflexivity | apply lookup_insert_ne; exact Hx].
Qed.

(** X26.  The object that [formatGroupedData] returns has, under a key,
    the count of the last group of the data with that key, and no
    property for a key that no group has; counts of groups with the same
    key are not added up.  The groups whose [_id] is null or the empty
    string all go under the key "Unknown", and a group named __proto__
    adds no property. *)
Theorem formatGroupedData_last_group_wins data k :
  ReportService.formatGroupedData data !! k
  = (if String.eqb k "__proto__" then None
     else option_map ReportService.count
                     (List.find (fun item => String.eqb (ReportService.keyOf item) k)
                                (rev data)))
  /\ (forall item, In item data ->
                   ReportService._id item = None
                   \/ ReportService._id item = Some EmptyString ->
                   ReportService.keyOf item = "Unknown")
  /\ ReportService.formatGroupedData data !! EmptyString = None.
Proof.
  unfold ReportService.formatGroupedData.
  assert (Hk : forall k',
             fold_left ReportService.assign data ∅ !! k'
             = (if String.eqb k' "__proto__" then None
                else option_map ReportService.count
                       (List.find (fun item => String.eqb (ReportService.keyOf item) k')
                                  (rev data)))).
  { intros k'. rewrite fold_assign_lookup.
    destruct (List.find (fun item => String.eqb (ReportService.keyOf item) k') (rev data))
      as [item|]; destruct (String.eqb k' "__proto__"); reflexivity. }
  split; [apply Hk|]. split.
  - intros item _ [E|E]; unfold ReportService.keyOf; rewrite E; reflexivity.
  - rewrite Hk. cbn [String.eqb].
    destruct (List.find (fun item => String.eqb (ReportService.keyOf item) EmptyString)
                        (rev data)) as [item|] eqn:E; [|reflexivity].
    apply find_some in E as [_ E]. apply String.eqb_eq in E.
    unfold ReportService.keyOf in E.
    destruct (ReportService._id item) as [s|]; [|discriminate E].
    destruct (String.eqb_spec s EmptyString); [discriminate E | contradiction].
Qed.

(* ===================================================================== *)
(** * The profile of the authenticated user *)
(* ===================================================================== *)

Lemma lowerHex_idem c : ObjectId.lowerHex (ObjectId.lowerHex c) = ObjectId.lowerHex c.
Proof. destruct c as [[] [] [] [] [] [] [] []]; reflexivity. Qed.

Lemma isHexDigit_lowerHex c :
  ObjectId.isHexDigit (ObjectId.lowerHex c) = ObjectId.isHexDigit c.
Proof. destruct c as [[] [] [] [] [] [] [] []]; reflexivity. Qed.

Lemma lower_idem s : ObjectId.lower (ObjectId.lower s) = ObjectId.lower s.
Proof.
  induction s as [|c s IH]; simpl; [reflexivity|]. rewrite lowerHex_idem, IH. reflexivity.
Qed.

Lemma isValid_lower s : ObjectId.isValid (ObjectId.lower s) = ObjectId.isValid s.
Proof.
  unfold ObjectId.isValid. f_equal.
  - f_equal. induction s as [|c s IH]; simpl; [reflexivity|]. rewrite IH. reflexivity.
  - induction s as [|c s IH]; simpl; [reflexivity|].
    rewrite isHexDigit_lowerHex, IH. reflexivity.
Qed.

Lemma cast_idem id oid : ObjectId.cast id = Some oid -> ObjectId.cast oid = Some oid.
Proof.
  unfold ObjectId.cast. destruct (ObjectId.isValid id) eqn:E; [|discriminate].
  intros H. injection H as <-. rewrite isValid_lower, E, lower_idem. reflexivity.
Qed.

(** X27.  For a request that [authenticate] lets through, [getProfile] on
    the id of the user put on the request succeeds: it never answers "User
    not found", and the profile is that of the stored user, who is
    active. *)
Theorem authenticated_getProfile verify authHeader st uid user :
  AuthMiddleware.authenticate verify authHeader st = AuthMiddleware.Next (uid, user) ->
  AuthRegistration.getProfile uid st
  = Ok (AuthService.mkUserResponse uid (User.name user) (User.email user)
                                   (User.role user) true)
  /\ users st !! uid = Some user.
Proof.
  unfold AuthMiddleware.authenticate, Query.findById. intros H.
  destruct authHeader as [header|]; [|discriminate H].
  destruct (String.eqb header EmptyString || negb (AuthMiddleware.startsWith "Bearer " header));
    [discriminate H|].
  destruct (verify (AuthMiddleware.tokenOf header)) as [id|]; [|discriminate H].
  destruct (ObjectId.cast id) as [oid|] eqn:Hc; [|discriminate H].
  destruct (users st !! oid) as [u|] eqn:Hu; [|discriminate H].
  destruct (User.isActive u) eqn:Ha; [|discriminate H].
  cbn [negb] in H. injection H as <- <-.
  unfold AuthRegistration.getProfile. rewrite (cast_idem _ _ Hc), Hu, Ha.
  split; reflexivity.
Qed.

Lemma authenticated_getProfile_witness :
  AuthRegistration.getProfile Sample.userId Sample.store
  = Ok (AuthService.mkUserResponse Sample.userId "Asha" "asha@example.org" "Member" true).
Proof.
  apply (authenticated_getProfile Fixture.verify
                                  (Some "Bearer jwt.64B7F0C2A1D3E4F5A6B7C8A1 extra")
                                  Sample.store Sample.userId Sample.user eq_refl).
Defined.
